(** * DevFlow: learning analytics, achievements and model-performance tracking

    A shallow embedding of the JavaScript sources

    - [ModelPerformanceTracker]  (metric buffers, report, retrain signal),
    - the submission handler of [server/index.js] (scoring of found issues),
    - [AnalyticsService] (recording, learning insights, progress trend),
    - [AchievementSystem] (statistics snapshot, rules, awarding, leaderboard),

    together with the properties of the specification that concern them.

    Conventions.  A JavaScript number is a double.  Where the code stores,
    counts or orders numbers, or a property bounds them, the number is given
    by the rational it denotes ([Q]) and the arithmetic is exact.  Where the
    answer of the code depends on how a mean is rounded (the trends and the
    retrain signal of the performance report, the progress trend), the
    number is a binary64 value and the arithmetic is that of module
    [Double]; the report and the retrain signal are therefore given twice,
    in [ModelPerformanceTracker] and in [Binary64.ModelPerformanceTracker].
    A value that may be [null] or [undefined] is an [option].
    [Array.prototype.slice] is [slice] below, with its treatment of negative
    and out-of-range indices written out.  Readings of the clock
    ([new Date()], SQL ['now']) and the time zone of the process are
    arguments.  SQL statements run against a working database; the one
    storage failure that is modelled is that of the queries of
    [getUserStats], whose callback turns an error into an empty result.  A
    promise that is never settled is an outcome of its own. *)

From Stdlib Require Import ZArith QArith Qround Qabs List String Bool Lia Lqa.
From Stdlib Require Import Sorted Permutation.
From Stdlib Require Import Floats.SpecFloat.
From stdpp Require Import base gmap strings pretty.
Import ListNotations.

Local Open Scope Z_scope.

(** ** JavaScript numbers and arrays *)

Module Js.

Definition Qltb (a b : Q) : bool := negb (Qle_bool b a).
Definition Qgtb (a b : Q) : bool := Qltb b a.
Definition Qgeb (a b : Q) : bool := Qle_bool b a.

(** [Math.round]: the nearest integer, halves towards plus infinity. *)
Definition Math_round (x : Q) : Z := Qfloor (x + (1 # 2)).

(** Relative index of [slice]: a negative index counts from the end, and
    every index is clamped to [0 .. len]. *)
Definition relIndex (len i : Z) : Z :=
  if i <? 0 then Z.max (len + i) 0 else Z.min i len.

(** [arr.slice(start, end)]. *)
Definition slice {A : Type} (arr : list A) (start end_ : Z) : list A :=
  let len := Z.of_nat (length arr) in
  let k := relIndex len start in
  let final := relIndex len end_ in
  firstn (Z.to_nat (final - k)) (skipn (Z.to_nat k) arr).

(** [arr.slice(start)]: up to the end of the array. *)
Definition sliceFrom {A : Type} (arr : list A) (start : Z) : list A :=
  slice arr start (Z.of_nat (length arr)).

(** [arr.reduce((sum, v) => sum + v, 0)]. *)
Definition sum (values : list Q) : Q := fold_left Qplus values 0%Q.

(** [x || d] for a number that may be missing: [null], [undefined] and [0]
    are falsy. *)
Definition orDefault (x : option Q) (d : Q) : Q :=
  match x with
  | Some v => if Qeq_bool v 0 then d else v
  | None => d
  end.

Definition orDefaultZ (x : option Z) (d : Z) : Z :=
  match x with
  | Some v => if v =? 0 then d else v
  | None => d
  end.

(** [arr.sort(compareFn)] (a copy of the array, sorted): a stable sort, here
    by insertion; [compareFn(a, b) <= 0] keeps [a] before [b]. *)
Fixpoint insertSorted {A : Type} (compareFn : A -> A -> Q) (x : A)
    (sorted : list A) : list A :=
  match sorted with
  | [] => [x]
  | y :: rest =>
      if Qle_bool (compareFn x y) 0 then x :: y :: rest
      else y :: insertSorted compareFn x rest
  end.

Definition sort {A : Type} (compareFn : A -> A -> Q) (arr : list A) : list A :=
  fold_right (insertSorted compareFn) [] arr.

End Js.

(** ** JavaScript numbers as doubles

    A JavaScript number is an IEEE 754 binary64 value.  Where the outcome of
    the code depends on how a sum, a product or a quotient is rounded, the
    number is a [spec_float] of the Standard Library, with its operations at
    precision 53 and maximal exponent 1024. *)

Module Double.

Definition number : Type := spec_float.

Definition prec : Z := 53.
Definition emax : Z := 1024.

Definition add (x y : number) : number := SFadd prec emax x y.
Definition sub (x y : number) : number := SFsub prec emax x y.
Definition mul (x y : number) : number := SFmul prec emax x y.
Definition div (x y : number) : number := SFdiv prec emax x y.

(** Unary minus and [Math.abs]. *)
Definition neg (x : number) : number := SFopp x.
Definition abs (x : number) : number := SFabs x.

(** [x < y] and [x > y]; both are [false] when an operand is [NaN]. *)
Definition ltb (x y : number) : bool := SFltb x y.
Definition gtb (x y : number) : bool := SFltb y x.

(** The double of an integer, exact below [2 ^ 53]. *)
Definition ofZ (z : Z) : number := binary_normalize prec emax z 0 false.

(** The double that a decimal literal [n / d] denotes, [n] and [d] being
    below [2 ^ 53]: the double nearest to the quotient. *)
Definition literal (n d : Z) : number := div (ofZ n) (ofZ d).

(** A stored number read as a double: the double nearest to [q]. *)
Definition ofQ (q : Q) : number := literal (Qnum q) (Zpos (Qden q)).

(** [Math.round]: the nearest integer, halves towards plus infinity;
    infinities and [NaN] are returned as they are.  (A result [-0] is given
    as [+0]; no comparison tells them apart.) *)
Definition Math_round (x : number) : number :=
  match x with
  | S754_finite s m e =>
      let n := if s then Z.neg m else Z.pos m in
      ofZ (if 0 <=? e then n * 2 ^ e
           else (2 * n + 2 ^ (- e)) / 2 ^ (1 - e))
  | _ => x
  end.

(** [arr.reduce((sum, v) => sum + v, 0)]. *)
Definition sum (values : list number) : number :=
  fold_left add values (ofZ 0).

End Double.

(** ** ModelPerformanceTracker *)

Module ModelPerformanceTracker.
Import Js.

(** An issue, as found by the user or as stored with the exercise. *)
Record Issue := { line : Z; type : string }.

(** The test of the inner loop of [calculateAccuracy]:
    [Math.abs(userIssue.line - correctIssue.line) <= 2 &&
     userIssue.type === correctIssue.type]. *)
Definition issueMatches (userIssue correctIssue : Issue) : bool :=
  (Z.abs (line userIssue - line correctIssue) <=? 2)
  && String.eqb (type userIssue) (type correctIssue).

(** The inner [for ... of correct] loop: [true] when the loop leaves through
    [matches++; break]. *)
Fixpoint matchesSome (userIssue : Issue) (correct : list Issue) : bool :=
  match correct with
  | [] => false
  | correctIssue :: rest =>
      if issueMatches userIssue correctIssue then true
      else matchesSome userIssue rest
  end.

(** The outer loop, threading the counter [matches]. *)
Fixpoint countMatches (userFound correct : list Issue) (matches : Z) : Z :=
  match userFound with
  | [] => matches
  | userIssue :: rest =>
      countMatches rest correct
        (if matchesSome userIssue correct then matches + 1 else matches)
  end.

Definition calculateAccuracy (userFound correct : list Issue) : Q :=
  if (Z.of_nat (length correct) =? 0) then 1%Q
  else (inject_Z (countMatches userFound correct 0)
        / inject_Z (Z.of_nat (length correct)))%Q.

(** Samples of the three buffers.  [timestamp] is [new Date().toISOString()]. *)
Record ResponseTimeSample := { time : Q; rt_timestamp : string }.
Record AccuracySample := { accuracyValue : Q; acc_timestamp : string }.
Record SatisfactionSample :=
  { rating : Q; category : string; sat_timestamp : string }.

(** [this.metrics]. *)
Record Metrics := {
  responseTime : list ResponseTimeSample;
  accuracy : list AccuracySample;
  userSatisfaction : list SatisfactionSample;
  cacheHitRate : Q;
  totalRequests : Z
}.

(** The constructor's [this.metrics]. *)
Definition initialMetrics : Metrics :=
  {| responseTime := []; accuracy := []; userSatisfaction := [];
     cacheHitRate := 0; totalRequests := 0 |}.

(** [buf.push(x); if (buf.length > 100) buf = buf.slice(-100)]. *)
Definition pushBounded {A : Type} (buf : list A) (x : A) : list A :=
  let pushed := buf ++ [x] in
  if Z.of_nat (length pushed) >? 100 then sliceFrom pushed (-100) else pushed.

(** The three tracking methods return the new metrics and the value of the
    call: [Some v] for [return v], [None] when the method ends without a
    [return] (the call evaluates to [undefined]).  [saveMetrics] only writes
    the metrics to a file and is left out. *)
Definition trackResponseTime (now : string) (startTime endTime : Q)
    (m : Metrics) : Metrics * option Q :=
  let responseTime_ := (endTime - startTime)%Q in
  ({| responseTime :=
        pushBounded (responseTime m)
          {| time := responseTime_; rt_timestamp := now |};
      accuracy := accuracy m;
      userSatisfaction := userSatisfaction m;
      cacheHitRate := cacheHitRate m;
      totalRequests := totalRequests m |},
   Some responseTime_).

Definition trackAccuracy (now : string) (userFoundIssues correctIssues : list Issue)
    (m : Metrics) : Metrics * option Q :=
  let accuracy_ := calculateAccuracy userFoundIssues correctIssues in
  ({| responseTime := responseTime m;
      accuracy :=
        pushBounded (accuracy m)
          {| accuracyValue := accuracy_; acc_timestamp := now |};
      userSatisfaction := userSatisfaction m;
      cacheHitRate := cacheHitRate m;
      totalRequests := totalRequests m |},
   Some accuracy_).

Definition trackUserSatisfaction (now : string) (rating_ : Q) (category_ : string)
    (m : Metrics) : Metrics * option Q :=
  ({| responseTime := responseTime m;
      accuracy := accuracy m;
      userSatisfaction :=
        pushBounded (userSatisfaction m)
          {| rating := rating_; category := category_; sat_timestamp := now |};
      cacheHitRate := cacheHitRate m;
      totalRequests := totalRequests m |},
   None).

(** [values.reduce(...) / values.length], guarded as in the report. *)
Definition average (values : list Q) : Q :=
  if Z.of_nat (length values) >? 0
  then (sum values / inject_Z (Z.of_nat (length values)))%Q
  else 0%Q.

(** [isImproving(values, higherIsBetter)]; [None] is [null]. *)
Definition isImproving (values : list Q) (higherIsBetter : bool) : option bool :=
  if Z.of_nat (length values) <? 10 then None
  else
    let recent := sliceFrom values (-10) in
    let older := slice values (-20) (-10) in
    if Z.of_nat (length older) =? 0 then None
    else
      let recentAvg := (sum recent / inject_Z (Z.of_nat (length recent)))%Q in
      let olderAvg := (sum older / inject_Z (Z.of_nat (length older)))%Q in
      Some (if higherIsBetter then Qgtb recentAvg olderAvg
            else Qltb recentAvg olderAvg).

Record Trends := {
  responseTimeImproving : option bool;
  accuracyImproving : option bool;
  satisfactionImproving : option bool
}.

Record Report := {
  averageResponseTime : Z;
  averageAccuracy : Z;
  averageUserSatisfaction : Q;
  reportCacheHitRate : Z;
  reportTotalRequests : Z;
  recentTrends : Trends
}.

Definition getPerformanceReport (m : Metrics) : Report :=
  let avgResponseTime := average (map time (responseTime m)) in
  let avgAccuracy := average (map accuracyValue (accuracy m)) in
  let avgSatisfaction := average (map rating (userSatisfaction m)) in
  {| averageResponseTime := Math_round avgResponseTime;
     averageAccuracy := Math_round (avgAccuracy * 100);
     averageUserSatisfaction :=
       (inject_Z (Math_round (avgSatisfaction * 10)) / 10)%Q;
     reportCacheHitRate := Math_round (cacheHitRate m * 100);
     reportTotalRequests := totalRequests m;
     recentTrends :=
       {| responseTimeImproving :=
            isImproving (map time (responseTime m)) false;
          accuracyImproving :=
            isImproving (map accuracyValue (accuracy m)) true;
          satisfactionImproving :=
            isImproving (map rating (userSatisfaction m)) true |} |}.

(** [x === false] for a trend that is [true], [false] or [null]. *)
Definition isFalse (x : option bool) : bool :=
  match x with
  | Some false => true
  | _ => false
  end.

Definition shouldRetrain (m : Metrics) : bool :=
  let report := getPerformanceReport m in
  (averageResponseTime report >? 5000)
  || (averageAccuracy report <? 70)
  || Qltb (averageUserSatisfaction report) (35 # 10)
  || isFalse (responseTimeImproving (recentTrends report))
  || isFalse (accuracyImproving (recentTrends report))
  || isFalse (satisfactionImproving (recentTrends report)).

End ModelPerformanceTracker.

(** ** ModelPerformanceTracker, in double precision

    The report and the retrain signal of [ModelPerformanceTracker] on
    buffers of doubles: the means are sums of doubles, added in the order of
    the buffer, divided by the length. *)

Module Binary64.
Module ModelPerformanceTracker.
Import Js.

Record ResponseTimeSample := { time : Double.number; rt_timestamp : string }.
Record AccuracySample := { accuracyValue : Double.number; acc_timestamp : string }.
Record SatisfactionSample :=
  { rating : Double.number; category : string; sat_timestamp : string }.

(** [this.metrics]. *)
Record Metrics := {
  responseTime : list ResponseTimeSample;
  accuracy : list AccuracySample;
  userSatisfaction : list SatisfactionSample;
  cacheHitRate : Double.number;
  totalRequests : Double.number
}.

(** [values.length > 0 ? values.reduce(...) / values.length : 0]. *)
Definition average (values : list Double.number) : Double.number :=
  if Z.of_nat (length values) >? 0
  then Double.div (Double.sum values) (Double.ofZ (Z.of_nat (length values)))
  else Double.ofZ 0.

(** [isImproving(values, higherIsBetter)]; [None] is [null]. *)
Definition isImproving (values : list Double.number) (higherIsBetter : bool)
  : option bool :=
  if Z.of_nat (length values) <? 10 then None
  else
    let recent := sliceFrom values (-10) in
    let older := slice values (-20) (-10) in
    if Z.of_nat (length older) =? 0 then None
    else
      let recentAvg :=
        Double.div (Double.sum recent) (Double.ofZ (Z.of_nat (length recent))) in
      let olderAvg :=
        Double.div (Double.sum older) (Double.ofZ (Z.of_nat (length older))) in
      Some (if higherIsBetter then Double.gtb recentAvg olderAvg
            else Double.ltb recentAvg olderAvg).

Record Trends := {
  responseTimeImproving : option bool;
  accuracyImproving : option bool;
  satisfactionImproving : option bool
}.

Record Report := {
  averageResponseTime : Double.number;
  averageAccuracy : Double.number;
  averageUserSatisfaction : Double.number;
  reportCacheHitRate : Double.number;
  reportTotalRequests : Double.number;
  recentTrends : Trends
}.

Definition getPerformanceReport (m : Metrics) : Report :=
  let avgResponseTime := average (map time (responseTime m)) in
  let avgAccuracy := average (map accuracyValue (accuracy m)) in
  let avgSatisfaction := average (map rating (userSatisfaction m)) in
  {| averageResponseTime := Double.Math_round avgResponseTime;
     averageAccuracy :=
       Double.Math_round (Double.mul avgAccuracy (Double.ofZ 100));
     averageUserSatisfaction :=
       Double.div
         (Double.Math_round (Double.mul avgSatisfaction (Double.ofZ 10)))
         (Double.ofZ 10);
     reportCacheHitRate :=
       Double.Math_round (Double.mul (cacheHitRate m) (Double.ofZ 100));
     reportTotalRequests := totalRequests m;
     recentTrends :=
       {| responseTimeImproving :=
            isImproving (map time (responseTime m)) false;
          accuracyImproving :=
            isImproving (map accuracyValue (accuracy m)) true;
          satisfactionImproving :=
            isImproving (map rating (userSatisfaction m)) true |} |}.

(** [x === false] for a trend that is [true], [false] or [null]. *)
Definition isFalse (x : option bool) : bool :=
  match x with
  | Some false => true
  | _ => false
  end.

Definition shouldRetrain (m : Metrics) : bool :=
  let report := getPerformanceReport m in
  Double.gtb (averageResponseTime report) (Double.ofZ 5000)
  || Double.ltb (averageAccuracy report) (Double.ofZ 70)
  || Double.ltb (averageUserSatisfaction report) (Double.literal 35 10)
  || isFalse (responseTimeImproving (recentTrends report))
  || isFalse (accuracyImproving (recentTrends report))
  || isFalse (satisfactionImproving (recentTrends report)).

End ModelPerformanceTracker.
End Binary64.

(** ** The submission handler of [server/index.js] *)

Module SubmitReview.
Import Js ModelPerformanceTracker.

(** [foundIssues.filter(found => correctIssues.some(correct => ...)).length],
    with the callback of [some] written out as in the handler. *)
Definition correctlyFound (foundIssues correctIssues : list Issue) : Z :=
  Z.of_nat (length
    (List.filter (fun found =>
       existsb (fun correct =>
         (Z.abs (line found - line correct) <=? 2)
         && String.eqb (type found) (type correct)) correctIssues)
       foundIssues)).

(** [accuracy = correctlyFound / Math.max(totalIssues, 1)]. *)
Definition submitAccuracy (foundIssues correctIssues : list Issue) : Q :=
  let totalIssues := Z.of_nat (length correctIssues) in
  (inject_Z (correctlyFound foundIssues correctIssues)
   / inject_Z (Z.max totalIssues 1))%Q.

(** [score = Math.round((correctlyFound / totalIssues) * 100)].  For an
    exercise without canonical issues [correctlyFound] is 0 and the quotient
    is [0 / 0]: the score is [NaN], here [None]. *)
Definition submitScore (foundIssues correctIssues : list Issue) : option Z :=
  let totalIssues := Z.of_nat (length correctIssues) in
  if totalIssues =? 0 then None
  else Some (Math_round
               (inject_Z (correctlyFound foundIssues correctIssues)
                / inject_Z totalIssues * 100)).

(** [score >= n]; a comparison with [NaN] is [false]. *)
Definition scoreAtLeast (score : option Z) (n : Z) : bool :=
  match score with
  | Some s => n <=? s
  | None => false
  end.

(** The object built by [generateFeedback]. *)
Record Feedback := {
  overall : string;
  missed : list Issue;
  incorrect : list Issue;
  suggestions : list string
}.

(** [generateFeedback(correctIssues, foundIssues, score)]. *)
Definition generateFeedback (correctIssues foundIssues : list Issue)
    (score : option Z) : Feedback :=
  let missed_ :=
    List.filter
      (fun correct =>
         negb (existsb
                 (fun f => (Z.abs (line f - line correct) <=? 2)
                           && String.eqb (type f) (type correct))
                 foundIssues))
      correctIssues in
  {| overall :=
       if scoreAtLeast score 80
       then "Excellent work! You caught most of the critical issues."
       else if scoreAtLeast score 60
       then "Good effort! There are a few more issues to spot."
       else "Keep practicing! Code review takes time to master.";
     missed := missed_;
     incorrect := [];
     suggestions :=
       if Z.of_nat (length missed_) >? 0
       then ["Focus on scanning for common patterns like security vulnerabilities and performance bottlenecks."]
       else [] |}.

End SubmitReview.

(** ** The table [exercise_analytics]

    One row per completed exercise.  [created_at] is the number of seconds
    since the epoch (UTC): SQL's [DATE(created_at)] is the day number
    [created_at / 86400], [strftime('%H', created_at)] the hour of that day,
    and [datetime('now', '-N days')] is [now - N * 86400]. *)

Module EventStore.

Record Event := {
  user_id : string;
  language : string;
  category : string;
  time_to_complete : option Q;
  accuracy_score : Q;
  created_at : Z
}.

Definition dateOf (e : Event) : Z := created_at e / 86400.
Definition hourOf (e : Event) : Z := (created_at e mod 86400) / 3600.

(** [WHERE user_id = ?]. *)
Definition ofUser (userId : string) (events : list Event) : list Event :=
  List.filter (fun e => String.eqb (user_id e) userId) events.

(** [AND created_at >= datetime('now', '-N days')]. *)
Definition since (now days : Z) (events : list Event) : list Event :=
  List.filter (fun e => now - days * 86400 <=? created_at e) events.

(** SQL aggregates: [AVG], [MAX] and [MIN] of no value are [NULL]. *)
Definition sqlAvg (values : list Q) : option Q :=
  match values with
  | [] => None
  | _ => Some (Js.sum values / inject_Z (Z.of_nat (length values)))%Q
  end.

Definition sqlMax (values : list Q) : option Q :=
  match values with
  | [] => None
  | v :: rest => Some (fold_left (fun m x => if Js.Qltb m x then x else m) rest v)
  end.

Definition sqlMin (values : list Q) : option Q :=
  match values with
  | [] => None
  | v :: rest => Some (fold_left (fun m x => if Js.Qltb x m then x else m) rest v)
  end.

(** The values of a nullable column that are not [NULL]. *)
Definition nonNull {A : Type} (col : list (option A)) : list A :=
  flat_map (fun x => match x with Some v => [v] | None => [] end) col.

(** The distinct keys of a column, each once, in order of first occurrence. *)
Fixpoint distinct {K : Type} (eqb : K -> K -> bool) (keys : list K) : list K :=
  match keys with
  | [] => []
  | k :: rest => k :: List.filter (fun k' => negb (eqb k k')) (distinct eqb rest)
  end.

(** [ORDER BY key DESC] as an insertion sort.  SQL leaves the order of rows
    with equal keys open; here they keep the order of the table. *)
Fixpoint insertDesc {A : Type} (key : A -> Z) (x : A) (sorted : list A) : list A :=
  match sorted with
  | [] => [x]
  | y :: rest =>
      if key y <=? key x then x :: y :: rest
      else y :: insertDesc key x rest
  end.

Definition orderByDesc {A : Type} (key : A -> Z) (rows : list A) : list A :=
  fold_right (insertDesc key) [] rows.

End EventStore.

(** ** AnalyticsService: the progress trend *)

Module AnalyticsService.
Import Js EventStore.

(** A row of the [progressTrend] query.  [daily_accuracy] is the number
    that [analyzeProgressTrend] adds and divides, a double. *)
Record TrendRow := {
  date : Z;
  exercises_completed : Z;
  daily_accuracy : Double.number;
  daily_avg_time : option Q
}.

(** The [progressTrend] query of [getUserLearningInsights]: one row per day
    of the last 14 days with an event of the user, latest day first.  The
    [AVG] of a day is computed by the database; it is taken to be the
    double nearest to the mean of the day's scores. *)
Definition progressTrendQuery (events : list Event) (userId : string) (now : Z)
  : list TrendRow :=
  let rows := since now 14 (ofUser userId events) in
  map (fun d =>
         let bucket := List.filter (fun e => dateOf e =? d) rows in
         {| date := d;
            exercises_completed := Z.of_nat (length bucket);
            daily_accuracy :=
              Double.ofQ
                (Js.sum (map accuracy_score bucket)
                 / inject_Z (Z.of_nat (length bucket)))%Q;
            daily_avg_time := sqlAvg (nonNull (map time_to_complete bucket)) |})
      (orderByDesc (fun d => d) (distinct Z.eqb (map dateOf rows))).

Inductive Trend := insufficient_data | new_user | improving | declining | stable.

(** The result object of [analyzeProgressTrend]: the trend and, when present,
    the rounded [improvement] or [decline]. *)
Record TrendResult := {
  trend : Trend;
  improvement : option Double.number;
  decline : option Double.number
}.

Definition analyzeProgressTrend (trendData : list TrendRow) : TrendResult :=
  if Z.of_nat (length trendData) <? 3
  then {| trend := insufficient_data; improvement := None; decline := None |}
  else
    let recent := slice trendData 0 7 in
    let older := slice trendData 7 14 in
    if Z.of_nat (length older) =? 0
    then {| trend := new_user; improvement := None; decline := None |}
    else
      let recentAvg :=
        Double.div (Double.sum (map daily_accuracy recent))
                   (Double.ofZ (Z.of_nat (length recent))) in
      let olderAvg :=
        Double.div (Double.sum (map daily_accuracy older))
                   (Double.ofZ (Z.of_nat (length older))) in
      let improvement_ := Double.sub recentAvg olderAvg in
      if Double.gtb improvement_ (Double.literal 1 10)
      then {| trend := improving;
              improvement :=
                Some (Double.Math_round (Double.mul improvement_ (Double.ofZ 100)));
              decline := None |}
      else if Double.ltb improvement_ (Double.neg (Double.literal 1 10))
      then {| trend := declining;
              improvement := None;
              decline :=
                Some (Double.Math_round
                        (Double.mul (Double.abs improvement_) (Double.ofZ 100))) |}
      else {| trend := stable; improvement := None; decline := None |}.

(** *** Recording a completed exercise *)

(** The second argument of [trackExerciseCompletion]. *)
Record CompletionData := {
  exerciseId : string;
  completedLanguage : string;
  difficulty : string;
  completedCategory : string;
  timeToComplete : option Q;
  issuesFound : Z;
  issuesCorrect : Z;
  hintsUsed : Z;
  userFeedbackRating : option Z
}.

(** [accuracyScore] of [trackExerciseCompletion]:
    [issuesCorrect > 0 ? issuesCorrect / Math.max(issuesFound, issuesCorrect) : 0]. *)
Definition accuracyScore (issuesFound_ issuesCorrect_ : Z) : Q :=
  if issuesCorrect_ >? 0
  then (inject_Z issuesCorrect_ / inject_Z (Z.max issuesFound_ issuesCorrect_))%Q
  else 0%Q.

(** [trackExerciseCompletion(userId, exerciseData)]: one more row in
    [exercise_analytics], created at [now].  The row is given with the
    columns of [Event]. *)
Definition trackExerciseCompletion (now : Z) (events : list Event)
    (userId : string) (exerciseData : CompletionData) : list Event :=
  events
  ++ [ {| user_id := userId;
          language := completedLanguage exerciseData;
          category := completedCategory exerciseData;
          time_to_complete := timeToComplete exerciseData;
          accuracy_score :=
            accuracyScore (issuesFound exerciseData) (issuesCorrect exerciseData);
          created_at := now |} ].

(** *** Learning insights *)

(** The row of the [overall] query. *)
Record OverallRow := {
  total_exercises : Z;
  avg_accuracy : option Q;
  avg_time : option Q;
  total_hints_used : option Z;
  avg_satisfaction : option Q
}.

(** A row of the [byCategory] query. *)
Record CategoryRow := {
  rowCategory : string;
  exercises_count : Z;
  cat_avg_accuracy : Q;
  cat_avg_time : option Q;
  best_score : Q;
  worst_score : Q
}.

(** A row of the [byDifficulty] query. *)
Record DifficultyRow := {
  rowDifficulty : string;
  dif_exercises_count : Z;
  dif_avg_accuracy : Q;
  dif_avg_time : option Q
}.

(** A row of the [weaknesses] query. *)
Record WeaknessRow := {
  weakCategory : string;
  weakLanguage : string;
  attempts : Z;
  weak_avg_accuracy : Q;
  avg_hints : Q
}.

(** [rawData]: the rows of the five queries. *)
Record RawData := {
  rawOverall : list OverallRow;
  byCategory : list CategoryRow;
  byDifficulty : list DifficultyRow;
  rawProgressTrend : list TrendRow;
  rawWeaknesses : list WeaknessRow
}.

(** The object built by [generateSummaryInsights]; the last three fields
    are absent for a user who has not started. *)
Record Summary := {
  level : string;
  summaryMessage : string;
  score : Z;
  totalExercises : option Z;
  avgTime : option Z;
  satisfaction : option Q
}.

(** [generateSummaryInsights(overall)]; [None] is [undefined], the first
    element of an empty result. *)
Definition generateSummaryInsights (overall : option OverallRow) : Summary :=
  match overall with
  | None =>
      {| level := "beginner";
         summaryMessage :=
           "Just getting started! Complete a few exercises to see your progress.";
         score := 0; totalExercises := None; avgTime := None;
         satisfaction := None |}
  | Some row =>
      if total_exercises row =? 0 then
        {| level := "beginner";
           summaryMessage :=
             "Just getting started! Complete a few exercises to see your progress.";
           score := 0; totalExercises := None; avgTime := None;
           satisfaction := None |}
      else
        let accuracy := orDefault (avg_accuracy row) 0 in
        let satisfaction_ := orDefault (avg_satisfaction row) 0 in
        let '(level_, message_) :=
          if Qgeb accuracy (85 # 100) then
            ("expert",
             "Excellent code review skills! You consistently identify most issues.")
          else if Qgeb accuracy (70 # 100) then
            ("advanced",
             "Strong code review abilities. Focus on catching subtle issues.")
          else if Qgeb accuracy (50 # 100) then
            ("intermediate",
             "Good progress! Work on identifying more issue types.")
          else
            ("beginner",
             "Keep practicing! Focus on common security and logic issues first.") in
        {| level := level_;
           summaryMessage := message_;
           score := Math_round (accuracy * 100);
           totalExercises := Some (total_exercises row);
           avgTime := Some (Math_round (orDefault (avg_time row) 0));
           satisfaction :=
             Some (inject_Z (Math_round (satisfaction_ * 10)) / 10)%Q |}
  end.

(** An element of [strengths] or of [weaknesses]. *)
Record CategoryInsight := {
  insightCategory : string;
  accuracy : Z;
  exerciseCount : Z;
  insightMessage : string
}.

(** The number printed by a template literal. *)
Definition shown (n : Z) : string := pretty n.

(** [identifyStrengths(categoryData)]. *)
Definition identifyStrengths (categoryData : list CategoryRow)
  : list CategoryInsight :=
  map (fun cat =>
         {| insightCategory := rowCategory cat;
            accuracy := Math_round (cat_avg_accuracy cat * 100);
            exerciseCount := exercises_count cat;
            insightMessage :=
              "Strong in " +:+ rowCategory cat +:+ " - "
              +:+ shown (Math_round (cat_avg_accuracy cat * 100))
              +:+ "% accuracy" |})
    (slice
       (sort (fun a b => (cat_avg_accuracy b - cat_avg_accuracy a)%Q)
          (List.filter
             (fun cat => Qgeb (cat_avg_accuracy cat) (75 # 100)
                         && (exercises_count cat >=? 3))
             categoryData))
       0 3).

(** The rows [identifyWeaknesses] keeps: [weakCategories]. *)
Definition weakCategories (categoryData : list CategoryRow) : list CategoryRow :=
  slice
    (sort (fun a b => (cat_avg_accuracy a - cat_avg_accuracy b)%Q)
       (List.filter
          (fun cat => Qltb (cat_avg_accuracy cat) (60 # 100)
                      || (exercises_count cat <? 2))
          categoryData))
    0 3.

(** [identifyWeaknesses(categoryData, weaknessData)]; the second argument is
    not read. *)
Definition identifyWeaknesses (categoryData : list CategoryRow)
    (weaknessData : list WeaknessRow) : list CategoryInsight :=
  map (fun cat =>
         {| insightCategory := rowCategory cat;
            accuracy := Math_round (cat_avg_accuracy cat * 100);
            exerciseCount := exercises_count cat;
            insightMessage :=
              if exercises_count cat <? 2
              then "Need more practice in " +:+ rowCategory cat
              else "Struggling with " +:+ rowCategory cat +:+ " - "
                   +:+ shown (Math_round (cat_avg_accuracy cat * 100))
                   +:+ "% accuracy" |})
    (weakCategories categoryData).

Record Recommendation := {
  recType : string;
  priority : string;
  recMessage : string;
  action : string
}.

(** [insights], the object [processLearningInsights] fills. *)
Record Insights := {
  summary : Summary;
  strengths : list CategoryInsight;
  weaknesses : list CategoryInsight;
  progressTrend : TrendResult;
  recommendations : list Recommendation;
  nextSteps : list string
}.

(** [generateRecommendations(insights, rawData)]: up to three pushes. *)
Definition generateRecommendations (insights : Insights) (rawData : RawData)
  : list Recommendation :=
  (match weaknesses insights with
   | weakest :: _ =>
       [ {| recType := "skill_focus"; priority := "high";
            recMessage :=
              "Focus on " +:+ insightCategory weakest
              +:+ " exercises to improve your weakest area";
            action :=
              "Practice 3-5 " +:+ insightCategory weakest
              +:+ " exercises this week" |} ]
   | [] => []
   end)
  ++ (match trend (progressTrend insights) with
      | improving =>
          [ {| recType := "difficulty_increase"; priority := "medium";
               recMessage := "You're improving! Try more advanced exercises";
               action := "Attempt intermediate or advanced level exercises" |} ]
      | _ => []
      end)
  ++ (match rawOverall rawData with
      | overall :: _ =>
          match avg_time overall with
          | Some t =>
              if Qgtb t (inject_Z 300) then
                [ {| recType := "speed_improvement"; priority := "medium";
                     recMessage := "Work on identifying issues more quickly";
                     action := "Set a 3-minute timer for beginner exercises" |} ]
              else []
          | None => []
          end
      | [] => []
      end).

(** [generateNextSteps(insights, rawData)]. *)
Definition generateNextSteps (insights : Insights) (rawData : RawData)
  : list string :=
  let steps :=
    (if String.eqb (level (summary insights)) "beginner" then
       [ "Complete 5 security exercises to build foundation";
         "Focus on obvious issues like SQL injection and XSS" ]
     else if String.eqb (level (summary insights)) "intermediate" then
       [ "Practice performance optimization exercises";
         "Learn to identify subtle logic errors" ]
     else if String.eqb (level (summary insights)) "advanced" then
       [ "Master advanced security vulnerabilities";
         "Practice complex architectural issues" ]
     else if String.eqb (level (summary insights)) "expert" then
       [ "Mentor others and create custom exercises";
         "Explore cutting-edge security patterns" ]
     else [])
    ++ (match weaknesses insights with
        | weakest :: _ =>
            [ "Dedicate 30 minutes daily to " +:+ insightCategory weakest
              +:+ " practice" ]
        | [] => []
        end) in
  slice steps 0 3.

(** [processLearningInsights(rawData)]. *)
Definition processLearningInsights (rawData : RawData) : Insights :=
  let insights :=
    {| summary := generateSummaryInsights (head (rawOverall rawData));
       strengths := identifyStrengths (byCategory rawData);
       weaknesses := identifyWeaknesses (byCategory rawData) (rawWeaknesses rawData);
       progressTrend := analyzeProgressTrend (rawProgressTrend rawData);
       recommendations := [];
       nextSteps := [] |} in
  let recommendations_ := generateRecommendations insights rawData in
  let insights1 :=
    {| summary := summary insights; strengths := strengths insights;
       weaknesses := weaknesses insights;
       progressTrend := progressTrend insights;
       recommendations := recommendations_;
       nextSteps := [] |} in
  {| summary := summary insights1; strengths := strengths insights1;
     weaknesses := weaknesses insights1;
     progressTrend := progressTrend insights1;
     recommendations := recommendations insights1;
     nextSteps := generateNextSteps insights1 rawData |}.

End AnalyticsService.

(** ** AchievementSystem *)

Module AchievementSystem.
Import Js.

(** *** The catalog *)

(** The value of a key of a [requirement] object. *)
Inductive JsVal := Num (q : Q) | Str (s : string).

Definition num (v : option JsVal) : option Q :=
  match v with
  | Some (Num q) => Some q
  | _ => None
  end.

(** [if (req.key)] *)
Definition present (v : option JsVal) : bool :=
  match v with
  | Some (Num q) => negb (Qeq_bool q 0)
  | Some (Str s) => negb (String.eqb s "")
  | None => false
  end.

(** [x >= y] and [x <= y] where [y] may be [undefined] or [x] may be:
    a comparison with [undefined] is [false]. *)
Definition ge (x : Q) (y : option Q) : bool :=
  match y with
  | Some v => Qle_bool v x
  | None => false
  end.

Definition le (x : option Q) (y : option Q) : bool :=
  match x, y with
  | Some u, Some v => Qle_bool u v
  | _, _ => false
  end.

Record Achievement := {
  id : string;
  name : string;
  description : string;
  icon : string;
  type : string;
  requirement : gmap string JsVal;
  points : Z;
  rarity : string
}.

Definition N (z : Z) : JsVal := Num (inject_Z z).

(** [defineAchievements()], as [Object.entries] lists it: the keys in the
    order of the object literal, each with its value.  An [icon] is an emoji
    in the source and is spelled by its name here. *)
Definition defineAchievements : list (string * Achievement) := [
  ("first_steps",
   {| id := "first_steps"; name := "First Steps";
      description := "Complete your first code review exercise";
      icon := "target"; type := "milestone";
      requirement := {[ "exercises_completed" := N 1 ]};
      points := 10; rarity := "common" |});
  ("getting_started",
   {| id := "getting_started"; name := "Getting Started";
      description := "Complete 5 code review exercises";
      icon := "rocket"; type := "milestone";
      requirement := {[ "exercises_completed" := N 5 ]};
      points := 25; rarity := "common" |});
  ("dedicated_learner",
   {| id := "dedicated_learner"; name := "Dedicated Learner";
      description := "Complete 25 exercises";
      icon := "books"; type := "milestone";
      requirement := {[ "exercises_completed" := N 25 ]};
      points := 100; rarity := "uncommon" |});
  ("code_review_master",
   {| id := "code_review_master"; name := "Code Review Master";
      description := "Complete 100 exercises";
      icon := "crown"; type := "milestone";
      requirement := {[ "exercises_completed" := N 100 ]};
      points := 500; rarity := "rare" |});
  ("sharp_eye",
   {| id := "sharp_eye"; name := "Sharp Eye";
      description := "Achieve 90% accuracy on 5 consecutive exercises";
      icon := "eye"; type := "skill";
      requirement :=
        <[ "consecutive_high_accuracy" := N 5 ]>
          {[ "accuracy_threshold" := Num (9 # 10) ]};
      points := 75; rarity := "uncommon" |});
  ("perfectionist",
   {| id := "perfectionist"; name := "Perfectionist";
      description := "Achieve 100% accuracy on an exercise";
      icon := "gem"; type := "skill";
      requirement := {[ "perfect_score" := N 1 ]};
      points := 50; rarity := "uncommon" |});
  ("speed_demon",
   {| id := "speed_demon"; name := "Speed Demon";
      description := "Complete an exercise in under 60 seconds";
      icon := "zap"; type := "speed";
      requirement := {[ "time_under" := N 60 ]};
      points := 30; rarity := "uncommon" |});
  ("lightning_fast",
   {| id := "lightning_fast"; name := "Lightning Fast";
      description := "Complete 10 exercises in under 2 minutes each";
      icon := "runner"; type := "speed";
      requirement :=
        <[ "fast_completions" := N 10 ]> {[ "time_threshold" := N 120 ]};
      points := 100; rarity := "rare" |});
  ("security_specialist",
   {| id := "security_specialist"; name := "Security Specialist";
      description := "Complete 15 security exercises with 80%+ accuracy";
      icon := "lock"; type := "category";
      requirement :=
        <[ "category" := Str "security" ]>
          (<[ "exercises" := N 15 ]> {[ "accuracy" := Num (8 # 10) ]});
      points := 150; rarity := "rare" |});
  ("performance_guru",
   {| id := "performance_guru"; name := "Performance Guru";
      description := "Complete 15 performance exercises with 80%+ accuracy";
      icon := "rocket"; type := "category";
      requirement :=
        <[ "category" := Str "performance" ]>
          (<[ "exercises" := N 15 ]> {[ "accuracy" := Num (8 # 10) ]});
      points := 150; rarity := "rare" |});
  ("logic_master",
   {| id := "logic_master"; name := "Logic Master";
      description := "Complete 15 logic exercises with 80%+ accuracy";
      icon := "brain"; type := "category";
      requirement :=
        <[ "category" := Str "logic" ]>
          (<[ "exercises" := N 15 ]> {[ "accuracy" := Num (8 # 10) ]});
      points := 150; rarity := "rare" |});
  ("consistent_learner",
   {| id := "consistent_learner"; name := "Consistent Learner";
      description := "Practice for 7 days in a row";
      icon := "fire"; type := "streak";
      requirement := {[ "daily_streak" := N 7 ]};
      points := 100; rarity := "uncommon" |});
  ("unstoppable",
   {| id := "unstoppable"; name := "Unstoppable";
      description := "Practice for 30 days in a row";
      icon := "star"; type := "streak";
      requirement := {[ "daily_streak" := N 30 ]};
      points := 500; rarity := "legendary" |});
  ("night_owl",
   {| id := "night_owl"; name := "Night Owl";
      description := "Complete 10 exercises between 10 PM and 6 AM";
      icon := "owl"; type := "special";
      requirement := {[ "night_exercises" := N 10 ]};
      points := 50; rarity := "uncommon" |});
  ("early_bird",
   {| id := "early_bird"; name := "Early Bird";
      description := "Complete 10 exercises between 5 AM and 9 AM";
      icon := "bird"; type := "special";
      requirement := {[ "morning_exercises" := N 10 ]};
      points := 50; rarity := "uncommon" |});
  ("polyglot",
   {| id := "polyglot"; name := "Polyglot";
      description := "Complete exercises in 5 different programming languages";
      icon := "globe"; type := "special";
      requirement := {[ "languages" := N 5 ]};
      points := 200; rarity := "rare" |})
].

(** *** The database *)

Record UserAchievementRow := {
  ua_id : Z;
  ua_user_id : string;
  achievement_id : string;
  progress : Z;
  completed : bool
}.

Record BadgeRow := {
  ub_id : Z;
  ub_user_id : string;
  badge_id : string;
  badge_name : string;
  badge_description : string;
  badge_rarity : string
}.

(** A statement handed to the database. *)
Inductive Statement :=
  | SelectStats (key userId : string)
  | SelectCountFast (userId : string) (timeThreshold : option Q)
  | SelectCompleted (userId achievementId : string)
  | InsertOrReplaceAchievement (userId achievementId : string)
  | InsertBadge (userId badgeId : string).

(** The tables the achievement system reads and writes.  The two [_seq]
    fields are the AUTOINCREMENT counters; [earned_at] (a default timestamp)
    is left out.  [statements] records the statements run so far, the latest
    last. *)
Record Database := {
  exercise_analytics : list EventStore.Event;
  user_achievements : list UserAchievementRow;
  user_achievements_seq : Z;
  user_badges : list BadgeRow;
  user_badges_seq : Z;
  statements : list Statement
}.

Definition logged (st : Statement) (db : Database) : Database :=
  {| exercise_analytics := exercise_analytics db;
     user_achievements := user_achievements db;
     user_achievements_seq := user_achievements_seq db;
     user_badges := user_badges db;
     user_badges_seq := user_badges_seq db;
     statements := statements db ++ [st] |}.

(** The columns of [UNIQUE(user_id, achievement_id)]. *)
Definition sameKey (userId achievementId : string) (row : UserAchievementRow) : bool :=
  String.eqb (ua_user_id row) userId && String.eqb (achievement_id row) achievementId.

(** [userHasAchievement]: is there a row with [completed = TRUE]? *)
Definition userHasAchievement (db : Database) (userId achievementId : string)
  : Database * bool :=
  (logged (SelectCompleted userId achievementId) db,
   existsb (fun row => sameKey userId achievementId row && completed row)
     (user_achievements db)).

(** [INSERT OR REPLACE INTO user_achievements (user_id, achievement_id,
    completed, progress) VALUES (?, ?, TRUE, 100)]: a row that conflicts on
    the unique key is deleted, then the new row is inserted under a fresh id. *)
Definition insertOrReplaceAchievement (db : Database) (userId achievementId : string)
  : Database * Z :=
  let lastID := user_achievements_seq db + 1 in
  (logged (InsertOrReplaceAchievement userId achievementId)
     {| exercise_analytics := exercise_analytics db;
        user_achievements :=
          List.filter (fun row => negb (sameKey userId achievementId row))
            (user_achievements db)
          ++ [ {| ua_id := lastID; ua_user_id := userId;
                  achievement_id := achievementId;
                  progress := 100; completed := true |} ];
        user_achievements_seq := lastID;
        user_badges := user_badges db;
        user_badges_seq := user_badges_seq db;
        statements := statements db |},
   lastID).

(** How an awaited promise ends: it is fulfilled with a value, or it is
    never settled and the [await] never returns. *)
Inductive Outcome (A : Type) :=
  | Fulfilled (value : A)
  | NeverSettled.
Arguments Fulfilled {A} value.
Arguments NeverSettled {A}.

(** [awardAchievement]: the insert into [user_achievements] runs.  Its
    callback is a [function], called with the statement as [this] (it reads
    [this.lastID]); a statement has no [db], so [this.db.run(...)] throws a
    [TypeError] before [INSERT INTO user_badges] is issued and before
    [resolve] is reached: no badge is written and the promise is never
    settled. *)
Definition awardAchievement (db : Database) (userId : string) (achievement : Achievement)
  : Database * Outcome Z :=
  let '(db1, lastID) := insertOrReplaceAchievement db userId (id achievement) in
  (db1, NeverSettled).

(** *** The statistics snapshot *)

(** Rows of the five queries of [getUserStats].  A column that the query
    always fills is still optional in the row, since [processUserStats]
    reads the columns of [{}] when the query gave no row. *)
Record BasicRow := {
  total_exercises : option Z;
  avg_accuracy : option Q;
  avg_time : option Q;
  best_accuracy : option Q;
  fastest_time : option Q
}.

Record CategoryRow := {
  cat_category : string;
  cat_count : Z;
  cat_avg_accuracy : Q
}.

Record LanguageRow := { language_count : option Z }.

Record RecentRow := { date : Z; daily_count : Z; hour : Z }.

Record ConsecutiveRow := { accuracy_score : Q; created_at : Z }.

Record RawStats := {
  basic : list BasicRow;
  categories : list CategoryRow;
  languages : list LanguageRow;
  recent : list RecentRow;
  consecutive : list ConsecutiveRow
}.

(** The [basic] query: aggregates without GROUP BY give exactly one row,
    also over no event. *)
Definition basicQuery (events : list EventStore.Event) (userId : string)
  : list BasicRow :=
  let rows := EventStore.ofUser userId events in
  let times := EventStore.nonNull (map EventStore.time_to_complete rows) in
  [ {| total_exercises := Some (Z.of_nat (length rows));
       avg_accuracy := EventStore.sqlAvg (map EventStore.accuracy_score rows);
       avg_time := EventStore.sqlAvg times;
       best_accuracy := EventStore.sqlMax (map EventStore.accuracy_score rows);
       fastest_time := EventStore.sqlMin times |} ].

(** The [categories] query: one row per category of the user's events. *)
Definition categoriesQuery (events : list EventStore.Event) (userId : string)
  : list CategoryRow :=
  let rows := EventStore.ofUser userId events in
  map (fun c =>
         let group := List.filter (fun e => String.eqb (EventStore.category e) c) rows in
         {| cat_category := c;
            cat_count := Z.of_nat (length group);
            cat_avg_accuracy :=
              (Js.sum (map EventStore.accuracy_score group)
               / inject_Z (Z.of_nat (length group)))%Q |})
      (EventStore.distinct String.eqb (map EventStore.category rows)).

(** The [languages] query: [COUNT(DISTINCT language)], one row. *)
Definition languagesQuery (events : list EventStore.Event) (userId : string)
  : list LanguageRow :=
  let rows := EventStore.ofUser userId events in
  [ {| language_count :=
         Some (Z.of_nat (length
           (EventStore.distinct String.eqb (map EventStore.language rows)))) |} ].

(** The [recent] query: one row per day of the last 30 days, latest day
    first.  [hour] is a bare column of a grouped query; SQLite takes it from
    one row of the group, here the first one. *)
Definition recentQuery (events : list EventStore.Event) (userId : string) (now : Z)
  : list RecentRow :=
  let rows := EventStore.since now 30 (EventStore.ofUser userId events) in
  map (fun d =>
         let bucket := List.filter (fun e => EventStore.dateOf e =? d) rows in
         {| date := d;
            daily_count := Z.of_nat (length bucket);
            hour := match bucket with
                    | e :: _ => EventStore.hourOf e
                    | [] => 0
                    end |})
      (EventStore.orderByDesc (fun d => d)
         (EventStore.distinct Z.eqb (map EventStore.dateOf rows))).

(** The [consecutive] query: [ORDER BY created_at DESC LIMIT 10], with no
    condition on the date. *)
Definition consecutiveQuery (events : list EventStore.Event) (userId : string)
  : list ConsecutiveRow :=
  map (fun e => {| accuracy_score := EventStore.accuracy_score e;
                   created_at := EventStore.created_at e |})
    (firstn 10
       (EventStore.orderByDesc EventStore.created_at
          (EventStore.ofUser userId events))).

Record CategoryStats := { count : Z; avgAccuracy_ : Q }.

Record UserStats := {
  totalExercises : Z;
  avgAccuracy : Q;
  avgTime : Q;
  bestAccuracy : Q;
  fastestTime : Q;
  statCategories : gmap string CategoryStats;
  languageCount : Z;
  currentStreak : Z;
  consecutiveHighAccuracy : Z;
  nightExercises : Z;
  morningExercises : Z;
  hasPerfectScore : bool
}.

(** The time zone of the process: the offset of local time from UTC, in
    seconds, at an instant ([offsetAt]) and at a local time
    ([offsetAtLocal]). *)
Record TimeZone := {
  offsetAt : Z -> Z;
  offsetAtLocal : Z -> Z
}.

(** A zone with a fixed offset, such as UTC. *)
Definition fixedZone (offset : Z) : TimeZone :=
  {| offsetAt := fun _ => offset; offsetAtLocal := fun _ => offset |}.

(** [checkDate.setDate(checkDate.getDate() - 1)]: the local time of
    [checkDate] one day earlier, converted back to an instant. *)
Definition dayBefore (zone : TimeZone) (checkDate : Z) : Z :=
  let localTime := checkDate + offsetAt zone checkDate - 86400 in
  localTime - offsetAtLocal zone localTime.

(** The streak loop: [checkDate] starts now and is set one local day back
    after each row whose date is its UTC date ([toISOString]); the first
    other row ends the loop. *)
Fixpoint streakLoop (zone : TimeZone) (recent_ : list RecentRow)
    (checkDate currentStreak_ : Z) : Z :=
  match recent_ with
  | [] => currentStreak_
  | day :: rest =>
      if date day =? checkDate / 86400
      then streakLoop zone rest (dayBefore zone checkDate) (currentStreak_ + 1)
      else currentStreak_
  end.

(** The loop over [consecutive]: count the rows with
    [accuracy_score >= 0.9] up to the first row that fails the test. *)
Fixpoint highAccuracyLoop (consecutive_ : list ConsecutiveRow)
    (consecutiveHighAccuracy_ : Z) : Z :=
  match consecutive_ with
  | [] => consecutiveHighAccuracy_
  | exercise :: rest =>
      if Qgeb (accuracy_score exercise) (9 # 10)
      then highAccuracyLoop rest (consecutiveHighAccuracy_ + 1)
      else consecutiveHighAccuracy_
  end.

(** A column of [rawStats.key[0] || {}]. *)
Definition column {R A : Type} (rows : list R) (col : R -> option A) : option A :=
  match rows with
  | row :: _ => col row
  | [] => None
  end.

(** [processUserStats(rawStats)]; [now] is the instant of [new Date()]. *)
Definition processUserStats (zone : TimeZone) (now : Z) (rawStats : RawStats)
  : UserStats :=
  let basic_ := basic rawStats in
  let languages_ := languages rawStats in
  let recent_ := recent rawStats in
  {| totalExercises := orDefaultZ (column basic_ total_exercises) 0;
     avgAccuracy := orDefault (column basic_ avg_accuracy) 0;
     avgTime := orDefault (column basic_ avg_time) 0;
     bestAccuracy := orDefault (column basic_ best_accuracy) 0;
     fastestTime := orDefault (column basic_ fastest_time) (inject_Z 999999);
     statCategories :=
       fold_left
         (fun acc cat =>
            <[ cat_category cat :=
                 {| count := cat_count cat;
                    avgAccuracy_ := cat_avg_accuracy cat |} ]> acc)
         (categories rawStats) ∅;
     languageCount := orDefaultZ (column languages_ language_count) 0;
     currentStreak := streakLoop zone recent_ now 0;
     consecutiveHighAccuracy := highAccuracyLoop (consecutive rawStats) 0;
     nightExercises :=
       Z.of_nat (length
         (List.filter (fun r => (hour r >=? 22) || (hour r <=? 6)) recent_));
     morningExercises :=
       Z.of_nat (length
         (List.filter (fun r => (hour r >=? 5) && (hour r <=? 9)) recent_));
     hasPerfectScore :=
       match column basic_ best_accuracy with
       | Some v => Qeq_bool v 1
       | None => false
       end |}.

(** [results[key]]: the rows, or [[]] when the callback received an error. *)
Definition result {R : Type} (failed : string -> bool) (key : string)
    (rows : list R) : list R :=
  if failed key then [] else rows.

(** [getUserStats(userId)]: the five queries, then [processUserStats].
    [failed] tells which queries end in an error; [now] is the time of the
    call, for SQL's ['now'] and for [new Date()], and [zone] the time zone
    of the process. *)
Definition getUserStats (zone : TimeZone) (failed : string -> bool)
    (db : Database) (userId : string) (now : Z) : Database * UserStats :=
  let events := exercise_analytics db in
  let db' :=
    fold_left (fun d key => logged (SelectStats key userId) d)
      ["basic"; "categories"; "languages"; "recent"; "consecutive"] db in
  (db',
   processUserStats zone now
     {| basic := result failed "basic" (basicQuery events userId);
        categories := result failed "categories" (categoriesQuery events userId);
        languages := result failed "languages" (languagesQuery events userId);
        recent := result failed "recent" (recentQuery events userId now);
        consecutive := result failed "consecutive" (consecutiveQuery events userId) |}).

(** *** Rules and awarding *)

(** A value of the request body where a number is expected: the key may be
    left out ([undefined]), or hold [null], a boolean or a number.  (Strings
    and nested values are not modelled.) *)
Inductive Given :=
  | Missing
  | Null
  | Flag (b : bool)
  | Number (q : Q).

(** The number a comparison takes the value for; [None] is [NaN]. *)
Definition toNumber (v : Given) : option Q :=
  match v with
  | Missing => None
  | Null => Some 0%Q
  | Flag b => Some (if b then 1%Q else 0%Q)
  | Number q => Some q
  end.

(** The second argument of [checkAchievements], as the submission handler
    builds it.  [timeToComplete] is the [timeSpent] of the request body. *)
Record ExerciseData := {
  exerciseCompleted : bool;
  score : Q;
  timeToComplete : Given;
  category : string;
  language : string
}.

(** [countFastCompletions]: [COUNT( * )] of the user's events with
    [time_to_complete <= ?]; a comparison with NULL selects no row. *)
Definition countFastCompletions (db : Database) (userId : string)
    (timeThreshold : option Q) : Database * Z :=
  (logged (SelectCountFast userId timeThreshold) db,
   Z.of_nat (length
     (List.filter (fun e => le (EventStore.time_to_complete e) timeThreshold)
        (EventStore.ofUser userId (exercise_analytics db))))).

(** The key read by [userStats.categories[req.category]]. *)
Definition categoryKey (v : option JsVal) : option string :=
  match v with
  | Some (Str s) => Some s
  | Some (Num _) => None
  | None => Some "undefined"
  end.

(** [meetsRequirement]: the [switch] on [achievement.type]; a case that
    ends in [break], and any other type, gives [false]. *)
Definition meetsRequirement (db : Database) (userId : string)
    (achievement : Achievement) (userStats : UserStats)
    (exerciseData : ExerciseData) : Database * bool :=
  let req := requirement achievement in
  if String.eqb (type achievement) "milestone" then
    (db, ge (inject_Z (totalExercises userStats))
            (num (req !! "exercises_completed")))
  else if String.eqb (type achievement) "skill" then
    if present (req !! "consecutive_high_accuracy") then
      (db, ge (inject_Z (consecutiveHighAccuracy userStats))
              (num (req !! "consecutive_high_accuracy")))
    else if present (req !! "perfect_score") then
      (db, hasPerfectScore userStats)
    else (db, false)
  else if String.eqb (type achievement) "speed" then
    if present (req !! "time_under") then
      (db, le (toNumber (timeToComplete exerciseData)) (num (req !! "time_under")))
    else if present (req !! "fast_completions") then
      let '(db1, n) :=
        countFastCompletions db userId (num (req !! "time_threshold")) in
      (db1, ge (inject_Z n) (num (req !! "fast_completions")))
    else (db, false)
  else if String.eqb (type achievement) "category" then
    match categoryKey (req !! "category") ≫= (fun c => statCategories userStats !! c) with
    | Some categoryStats =>
        (db, ge (inject_Z (count categoryStats)) (num (req !! "exercises"))
             && ge (avgAccuracy_ categoryStats) (num (req !! "accuracy")))
    | None => (db, false)
    end
  else if String.eqb (type achievement) "streak" then
    (db, ge (inject_Z (currentStreak userStats)) (num (req !! "daily_streak")))
  else if String.eqb (type achievement) "special" then
    if present (req !! "night_exercises") then
      (db, ge (inject_Z (nightExercises userStats))
              (num (req !! "night_exercises")))
    else if present (req !! "morning_exercises") then
      (db, ge (inject_Z (morningExercises userStats))
              (num (req !! "morning_exercises")))
    else if present (req !! "languages") then
      (db, ge (inject_Z (languageCount userStats)) (num (req !! "languages")))
    else (db, false)
  else (db, false).

(** The loop of [checkAchievements] over [Object.entries(this.achievements)].
    An [await] of a promise that is never settled ends the run of the call:
    it is suspended for good. *)
Fixpoint checkLoop (userId : string) (exerciseData : ExerciseData)
    (userStats : UserStats) (entries : list (string * Achievement))
    (db : Database) (newAchievements : list Achievement)
  : Database * Outcome (list Achievement) :=
  match entries with
  | [] => (db, Fulfilled newAchievements)
  | (achievementId, achievement) :: rest =>
      let '(db1, hasAchievement) := userHasAchievement db userId achievementId in
      if hasAchievement then
        checkLoop userId exerciseData userStats rest db1 newAchievements
      else
        let '(db2, meets) :=
          meetsRequirement db1 userId achievement userStats exerciseData in
        if meets then
          match awardAchievement db2 userId achievement with
          | (db3, Fulfilled _) =>
              checkLoop userId exerciseData userStats rest db3
                (newAchievements ++ [achievement])
          | (db3, NeverSettled) => (db3, NeverSettled)
          end
        else
          checkLoop userId exerciseData userStats rest db2 newAchievements
  end.

(** [checkAchievements(userId, exerciseData)], one call run as far as it
    gets. *)
Definition checkAchievements (zone : TimeZone) (failed : string -> bool) (now : Z)
    (db : Database) (userId : string) (exerciseData : ExerciseData)
  : Database * Outcome (list Achievement) :=
  let '(db1, userStats) := getUserStats zone failed db userId now in
  checkLoop userId exerciseData userStats defineAchievements db1 [].

(** *** Two calls in flight

    [checkAchievements] is an [async] function: at each [await] the call is
    suspended and another call may run.  A [Task] is a suspended call, and
    its [phase] names the [await] it is suspended at.  [step] lets the
    awaited operation ([getUserStats], [userHasAchievement],
    [meetsRequirement] or [awardAchievement]) run on the database as it is
    then, and takes the call to its next [await]; after [awardAchievement]
    the call stays suspended ([Suspended]). *)

Inductive Phase :=
  | AwaitStats
  | AwaitHas (userStats : UserStats) (achievementId : string)
             (achievement : Achievement) (rest : list (string * Achievement))
  | AwaitMeets (userStats : UserStats) (achievement : Achievement)
               (rest : list (string * Achievement))
  | AwaitAward (userStats : UserStats) (achievement : Achievement)
               (rest : list (string * Achievement))
  | Suspended
  | Resolved.

Record Task := {
  taskUser : string;
  taskData : ExerciseData;
  taskZone : TimeZone;
  taskFailed : string -> bool;
  taskNow : Z;
  phase : Phase;
  newAchievements : list Achievement
}.

(** A call that has not run yet. *)
Definition spawn (zone : TimeZone) (failed : string -> bool) (now : Z)
    (userId : string) (exerciseData : ExerciseData) : Task :=
  {| taskUser := userId; taskData := exerciseData; taskZone := zone;
     taskFailed := failed; taskNow := now; phase := AwaitStats;
     newAchievements := [] |}.

(** The head of the [for] loop: the next entry, or the [return]. *)
Definition nextEntry (userStats : UserStats)
    (entries : list (string * Achievement)) : Phase :=
  match entries with
  | [] => Resolved
  | (achievementId, achievement) :: rest =>
      AwaitHas userStats achievementId achievement rest
  end.

Definition continue (t : Task) (p : Phase) (new_ : list Achievement) : Task :=
  {| taskUser := taskUser t; taskData := taskData t; taskZone := taskZone t;
     taskFailed := taskFailed t; taskNow := taskNow t;
     phase := p; newAchievements := new_ |}.

Definition step (db : Database) (t : Task) : Database * Task :=
  match phase t with
  | AwaitStats =>
      let '(db1, userStats) :=
        getUserStats (taskZone t) (taskFailed t) db (taskUser t) (taskNow t) in
      (db1, continue t (nextEntry userStats defineAchievements)
              (newAchievements t))
  | AwaitHas userStats achievementId achievement rest =>
      let '(db1, hasAchievement) :=
        userHasAchievement db (taskUser t) achievementId in
      (db1, continue t
              (if hasAchievement then nextEntry userStats rest
               else AwaitMeets userStats achievement rest)
              (newAchievements t))
  | AwaitMeets userStats achievement rest =>
      let '(db1, meets) :=
        meetsRequirement db (taskUser t) achievement userStats (taskData t) in
      (db1, continue t
              (if meets then AwaitAward userStats achievement rest
               else nextEntry userStats rest)
              (newAchievements t))
  | AwaitAward userStats achievement rest =>
      match awardAchievement db (taskUser t) achievement with
      | (db1, Fulfilled _) =>
          (db1, continue t (nextEntry userStats rest)
                  (newAchievements t ++ [achievement]))
      | (db1, NeverSettled) => (db1, continue t Suspended (newAchievements t))
      end
  | Suspended => (db, t)
  | Resolved => (db, t)
  end.

(** One call on its own: [fuel] steps. *)
Fixpoint runAlone (fuel : nat) (db : Database) (t : Task) : Database * Task :=
  match fuel with
  | O => (db, t)
  | S fuel' => let '(db1, t1) := step db t in runAlone fuel' db1 t1
  end.

(** Two calls on one database.  The schedule says, step by step, which call
    goes on: [false] the first, [true] the second. *)
Fixpoint interleave (schedule : list bool) (db : Database) (t1 t2 : Task)
  : Database * Task * Task :=
  match schedule with
  | [] => (db, t1, t2)
  | false :: schedule' =>
      let '(db1, t1') := step db t1 in interleave schedule' db1 t1' t2
  | true :: schedule' =>
      let '(db1, t2') := step db t2 in interleave schedule' db1 t1 t2'
  end.

(** *** The leaderboard *)

(** A row of the leaderboard in each of its three forms. *)
Record OverallEntry := {
  overallUser : string;
  overallTotal : Z;
  overallAccuracy : Q;
  overallScore : Q
}.

Record SpeedEntry := {
  speedUser : string;
  speedAvgTime : option Q;
  speedTotal : Z
}.

Record CategoryEntry := {
  categoryUser : string;
  exercises_in_category : Z;
  categoryAccuracy : Q
}.

Inductive Leaderboard :=
  | OverallBoard (rows : list OverallEntry)
  | SpeedBoard (rows : list SpeedEntry)
  | CategoryBoard (rows : list CategoryEntry).

(** [LIMIT ?]: a negative limit is no limit. *)
Definition limited {A : Type} (limit : Z) (rows : list A) : list A :=
  if limit <? 0 then rows else firstn (Z.to_nat limit) rows.

(** The groups of [GROUP BY user_id]: the users of the rows, each once. *)
Definition usersOf (rows : list EventStore.Event) : list string :=
  EventStore.distinct String.eqb (map EventStore.user_id rows).

(** [ORDER BY x ASC] on a column that may be NULL: NULL comes first. *)
Definition compareNullable (a b : option Q) : Q :=
  match a, b with
  | None, None => 0%Q
  | None, Some _ => (- (1))%Q
  | Some _, None => 1%Q
  | Some x, Some y => (x - y)%Q
  end.

(** The three queries of [getLeaderboard].  [ORDER BY] is a stable sort of
    the groups, taken in the order in which their users first occur. *)
Definition overallQuery (events : list EventStore.Event) (now limit : Z)
  : list OverallEntry :=
  let rows := EventStore.since now 30 events in
  limited limit
    (Js.sort (fun a b => (overallScore b - overallScore a)%Q)
       (map (fun user =>
               let group := EventStore.ofUser user rows in
               let avg :=
                 (Js.sum (map EventStore.accuracy_score group)
                  / inject_Z (Z.of_nat (length group)))%Q in
               {| overallUser := user;
                  overallTotal := Z.of_nat (length group);
                  overallAccuracy := avg;
                  overallScore := (inject_Z (Z.of_nat (length group)) * avg)%Q |})
          (usersOf rows))).

Definition speedQuery (events : list EventStore.Event) (now limit : Z)
  : list SpeedEntry :=
  let rows := EventStore.since now 30 events in
  limited limit
    (Js.sort (fun a b => compareNullable (speedAvgTime a) (speedAvgTime b))
       (List.filter (fun entry => speedTotal entry >=? 5)
          (map (fun user =>
                  let group := EventStore.ofUser user rows in
                  {| speedUser := user;
                     speedAvgTime :=
                       EventStore.sqlAvg
                         (EventStore.nonNull
                            (map EventStore.time_to_complete group));
                     speedTotal := Z.of_nat (length group) |})
             (usersOf rows)))).

Definition categoryQuery (events : list EventStore.Event) (now : Z)
    (category_ : string) (limit : Z) : list CategoryEntry :=
  let rows :=
    List.filter
      (fun e => String.eqb (EventStore.category e) category_
                && (now - 30 * 86400 <=? EventStore.created_at e))
      events in
  limited limit
    (Js.sort
       (fun a b =>
          if Qeq_bool (categoryAccuracy a) (categoryAccuracy b)
          then inject_Z (exercises_in_category b - exercises_in_category a)
          else (categoryAccuracy b - categoryAccuracy a)%Q)
       (map (fun user =>
               let group := EventStore.ofUser user rows in
               {| categoryUser := user;
                  exercises_in_category := Z.of_nat (length group);
                  categoryAccuracy :=
                    (Js.sum (map EventStore.accuracy_score group)
                     / inject_Z (Z.of_nat (length group)))%Q |})
          (usersOf rows))).

(** [getLeaderboard(category = 'overall', limit = 10)]; [None] is an
    argument left [undefined]. *)
Definition getLeaderboard (events : list EventStore.Event) (now : Z)
    (category_ : option string) (limit : option Z) : Leaderboard :=
  let category_ := default "overall" category_ in
  let limit := default 10 limit in
  if String.eqb category_ "overall" then OverallBoard (overallQuery events now limit)
  else if String.eqb category_ "speed" then SpeedBoard (speedQuery events now limit)
  else CategoryBoard (categoryQuery events now category_ limit).

End AchievementSystem.

(** ** Notions of the specification

    The words of the specification about the performance monitor, written
    out on lists of samples, to compare the code with. *)

Module Monitor.
Import Binary64.ModelPerformanceTracker.

(** The mean of a window of samples, as a double: the samples are added in
    their order, starting from 0, and the sum is divided by their number. *)
Definition mean (values : list Double.number) : Double.number :=
  Double.div (Double.sum values) (Double.ofZ (Z.of_nat (length values))).

(** The most recent ten samples. *)
Definition recentWindow {A : Type} (values : list A) : list A :=
  skipn (length values - 10) values.

(** The samples before the most recent ten, ten of them at most. *)
Definition olderWindow {A : Type} (values : list A) : list A :=
  firstn (Nat.min 10 (length values - 10)) (skipn (length values - 20) values).

(** The mean of the recent window is strictly better than the mean of the
    older one. *)
Definition improved (higherIsBetter : bool) (values : list Double.number) : Prop :=
  if higherIsBetter
  then Double.ltb (mean (olderWindow values)) (mean (recentWindow values)) = true
  else Double.ltb (mean (recentWindow values)) (mean (olderWindow values)) = true.

(** The mean of the recent window is strictly worse than the mean of the
    older one. *)
Definition worsened (higherIsBetter : bool) (values : list Double.number) : Prop :=
  if higherIsBetter
  then Double.ltb (mean (recentWindow values)) (mean (olderWindow values)) = true
  else Double.ltb (mean (olderWindow values)) (mean (recentWindow values)) = true.

(** Neither mean is below the other. *)
Definition flat (values : list Double.number) : Prop :=
  Double.ltb (mean (recentWindow values)) (mean (olderWindow values)) = false
  /\ Double.ltb (mean (olderWindow values)) (mean (recentWindow values)) = false.

(** What a reported trend says about a buffer: it is [null] exactly for a
    buffer of at most ten samples, and otherwise tells whether the recent
    window improved on the older one. *)
Definition reportsTrend (values : list Double.number) (higherIsBetter : bool)
    (reported : option bool) : Prop :=
  (reported = None <-> (length values <= 10)%nat)
  /\ (reported = Some true <->
      (10 < length values)%nat /\ improved higherIsBetter values)
  /\ (reported = Some false <->
      (10 < length values)%nat /\ ~ improved higherIsBetter values).

(** The three buffers as lists of numbers. *)
Definition latencies (m : Metrics) : list Double.number := map time (responseTime m).
Definition accuracies (m : Metrics) : list Double.number :=
  map accuracyValue (accuracy m).
Definition ratings (m : Metrics) : list Double.number :=
  map rating (userSatisfaction m).

(** The mean of a buffer, 0 for an empty one. *)
Definition meanOrZero (values : list Double.number) : Double.number :=
  match values with
  | [] => Double.ofZ 0
  | _ => mean values
  end.

(** The means of the three buffers as the report rounds them: the latency
    to an integer, the accuracy to a percentage, the satisfaction to one
    decimal. *)
Definition roundedLatency (m : Metrics) : Double.number :=
  Double.Math_round (meanOrZero (latencies m)).
Definition roundedAccuracy (m : Metrics) : Double.number :=
  Double.Math_round (Double.mul (meanOrZero (accuracies m)) (Double.ofZ 100)).
Definition roundedSatisfaction (m : Metrics) : Double.number :=
  Double.div
    (Double.Math_round (Double.mul (meanOrZero (ratings m)) (Double.ofZ 10)))
    (Double.ofZ 10).

(** No buffer with more than ten samples has a flat trend. *)
Definition noFlatTrend (m : Metrics) : Prop :=
  ((10 < length (latencies m))%nat -> ~ flat (latencies m))
  /\ ((10 < length (accuracies m))%nat -> ~ flat (accuracies m))
  /\ ((10 < length (ratings m))%nat -> ~ flat (ratings m)).

(** The suffix of [buf ++ [x]] that a buffer of capacity 100 keeps. *)
Definition appended {A : Type} (buf : list A) (x : A) (buf' : list A) : Prop :=
  exists evicted,
    buf ++ [x] = evicted ++ buf'
    /\ length buf' = Nat.min 100 (length buf + 1).

End Monitor.

(** The windows of the progress trend: the latest seven daily rows, and the
    up to seven rows before them. *)
Module Insight.
Import AnalyticsService.

Definition recentWindow (trendData : list TrendRow) : list TrendRow :=
  firstn 7 trendData.

Definition priorWindow (trendData : list TrendRow) : list TrendRow :=
  firstn 7 (skipn 7 trendData).

(** The average daily accuracy of a window, as a double. *)
Definition averageAccuracy (window : list TrendRow) : Double.number :=
  Monitor.mean (map daily_accuracy window).

(** The difference that is compared with 0.1 and -0.1. *)
Definition change (trendData : list TrendRow) : Double.number :=
  Double.sub (averageAccuracy (recentWindow trendData))
             (averageAccuracy (priorWindow trendData)).

(** The windows by days: the rows of the last seven days, today included,
    and the rows of the seven days before. *)
Definition recentDays (today : Z) (trendData : list TrendRow) : list TrendRow :=
  List.filter (fun row => (today - 6 <=? date row) && (date row <=? today)) trendData.

Definition priorDays (today : Z) (trendData : list TrendRow) : list TrendRow :=
  List.filter (fun row => (today - 13 <=? date row) && (date row <=? today - 7))
    trendData.

End Insight.

(** Notions about awards: what it means that an achievement is recorded as
    earned or is due, that the table respects its unique key, and which
    statements a call has run. *)
Module Awards.
Import AchievementSystem.

(** A row with [completed = TRUE] exists for the user and the achievement. *)
Definition earned (db : Database) (userId achievementId : string) : bool :=
  existsb (fun row => sameKey userId achievementId row && completed row)
    (user_achievements db).

(** An entry of the catalog is due for the user: it is not recorded as
    earned and its requirement is met. *)
Definition due (db : Database) (userId : string) (userStats : UserStats)
    (exerciseData : ExerciseData) (entry : string * Achievement) : bool :=
  negb (earned db userId (fst entry))
  && snd (meetsRequirement db userId (snd entry) userStats exerciseData).

(** The columns of the unique key of a row. *)
Definition rowKey (row : UserAchievementRow) : string * string :=
  (ua_user_id row, achievement_id row).

(** [UNIQUE(user_id, achievement_id)] holds in the table. *)
Definition uniqueKeys (db : Database) : Prop :=
  List.NoDup (map rowKey (user_achievements db)).


(** The statement is a query: it writes to no table. *)
Definition isQuery (st : Statement) : Prop :=
  match st with
  | InsertOrReplaceAchievement _ _ | InsertBadge _ _ => False
  | _ => True
  end.

(** The two states of the database hold the same rows and counters; only
    the record of the statements run may differ. *)
Definition sameTables (db db' : Database) : Prop :=
  exercise_analytics db' = exercise_analytics db
  /\ user_achievements db' = user_achievements db
  /\ user_achievements_seq db' = user_achievements_seq db
  /\ user_badges db' = user_badges db
  /\ user_badges_seq db' = user_badges_seq db.

(** Between [db] and [db'] only queries were run, [new] being their list,
    and no table has changed. *)
Definition onlyRead (db db' : Database) (new : list Statement) : Prop :=
  sameTables db db'
  /\ statements db' = statements db ++ new
  /\ Forall isQuery new.

(** The state after [INSERT OR REPLACE] of the row of [userId] and
    [achievementId] in the state [db]: the new row is the last one, under a
    fresh id, and a row of the same key is gone. *)
Definition inserted (db db' : Database) (userId achievementId : string) : Prop :=
  user_achievements db'
  = List.filter (fun row => negb (sameKey userId achievementId row))
      (user_achievements db)
    ++ [ {| ua_id := user_achievements_seq db + 1; ua_user_id := userId;
            achievement_id := achievementId;
            progress := 100; completed := true |} ]
  /\ user_achievements_seq db' = user_achievements_seq db + 1
  /\ exercise_analytics db' = exercise_analytics db
  /\ user_badges db' = user_badges db
  /\ user_badges_seq db' = user_badges_seq db.




(** Every entry of a catalog is filed under the [id] of its achievement. *)
Definition keyedById (catalog : list (string * Achievement)) : Prop :=
  Forall (fun entry => fst entry = id (snd entry)) catalog.

(** The achievements of the catalog, in its order. *)
Definition catalog : list Achievement := map snd defineAchievements.

End Awards.

(** ** Sample inputs *)

Module Samples.
Import ModelPerformanceTracker.

Definition latencySample (t : Q) : ResponseTimeSample :=
  {| time := t; rt_timestamp := "2024-01-01T00:00:00.000Z" |}.
Definition accuracySample (a : Q) : AccuracySample :=
  {| accuracyValue := a; acc_timestamp := "2024-01-01T00:00:00.000Z" |}.
Definition ratingSample (r : Q) : SatisfactionSample :=
  {| rating := r; category := "exercise";
     sat_timestamp := "2024-01-01T00:00:00.000Z" |}.

Definition metricsOf (latencies accuracies ratings : list Q) : Metrics :=
  {| responseTime := map latencySample latencies;
     accuracy := map accuracySample accuracies;
     userSatisfaction := map ratingSample ratings;
     cacheHitRate := 0; totalRequests := 0 |}.

(** Exactly ten latency samples. *)
Definition tenLatencies : Metrics :=
  metricsOf (repeat (inject_Z 100) 10) [] [].

(** Buffers of doubles. *)
Definition tracked (latencies accuracies ratings : list Double.number)
  : Binary64.ModelPerformanceTracker.Metrics :=
  {| Binary64.ModelPerformanceTracker.responseTime :=
       map (fun t =>
              {| Binary64.ModelPerformanceTracker.time := t;
                 Binary64.ModelPerformanceTracker.rt_timestamp :=
                   "2024-01-01T00:00:00.000Z" |})
           latencies;
     Binary64.ModelPerformanceTracker.accuracy :=
       map (fun a =>
              {| Binary64.ModelPerformanceTracker.accuracyValue := a;
                 Binary64.ModelPerformanceTracker.acc_timestamp :=
                   "2024-01-01T00:00:00.000Z" |})
           accuracies;
     Binary64.ModelPerformanceTracker.userSatisfaction :=
       map (fun r =>
              {| Binary64.ModelPerformanceTracker.rating := r;
                 Binary64.ModelPerformanceTracker.category := "exercise";
                 Binary64.ModelPerformanceTracker.sat_timestamp :=
                   "2024-01-01T00:00:00.000Z" |})
           ratings;
     Binary64.ModelPerformanceTracker.cacheHitRate := Double.ofZ 0;
     Binary64.ModelPerformanceTracker.totalRequests := Double.ofZ 0 |}.

(** Mean latency 5000.33 ms, everything else healthy, three samples or
    fewer per buffer. *)
Definition slightlySlow : Binary64.ModelPerformanceTracker.Metrics :=
  tracked [Double.ofZ 5000; Double.ofZ 5000; Double.ofZ 5001]
          [Double.ofZ 1] [Double.ofZ 5].

(** Exactly ten latency samples, as doubles. *)
Definition tenTimings : Binary64.ModelPerformanceTracker.Metrics :=
  tracked (repeat (Double.ofZ 100) 10) [] [].

(** Eleven equal samples per buffer, all of them healthy. *)
Definition steady : Binary64.ModelPerformanceTracker.Metrics :=
  tracked (repeat (Double.ofZ 100) 11) (repeat (Double.ofZ 1) 11)
          (repeat (Double.ofZ 5) 11).

(** Eleven accuracy samples 2/3. *)
Definition twoThirds : Binary64.ModelPerformanceTracker.Metrics :=
  tracked [] (repeat (Double.literal 2 3) 11) [].

(** Five accuracy samples 0.7, then five samples 0.69. *)
Definition borderline : Binary64.ModelPerformanceTracker.Metrics :=
  tracked [Double.ofZ 100]
          (repeat (Double.literal 7 10) 5 ++ repeat (Double.literal 69 100) 5)
          [Double.ofZ 5].

(** Eleven samples per buffer, each buffer getting better. *)
Definition recovering : Binary64.ModelPerformanceTracker.Metrics :=
  tracked (Double.ofZ 200 :: repeat (Double.ofZ 100) 10)
          (Double.literal 1 2 :: repeat (Double.ofZ 1) 10)
          (Double.ofZ 3 :: repeat (Double.ofZ 5) 10).

(** Daily accuracies of a progress trend, latest day first, the latest day
    being day 100. *)
Fixpoint trendRows (day : Z) (accuracies : list Double.number)
  : list AnalyticsService.TrendRow :=
  match accuracies with
  | [] => []
  | a :: rest =>
      {| AnalyticsService.date := day;
         AnalyticsService.exercises_completed := 1;
         AnalyticsService.daily_accuracy := a;
         AnalyticsService.daily_avg_time := None |}
      :: trendRows (day - 1) rest
  end.

(** A recent week at 0.82 after a week at 0.68. *)
Definition risingWeeks : list AnalyticsService.TrendRow :=
  trendRows 100 (repeat (Double.literal 82 100) 7 ++ repeat (Double.literal 68 100) 7).

(** A recent week at 0.70 after a week at 0.75. *)
Definition steadyWeeks : list AnalyticsService.TrendRow :=
  trendRows 100 (repeat (Double.literal 70 100) 7 ++ repeat (Double.literal 75 100) 7).

(** A recent week at 0.9 after a week at 0.8. *)
Definition tenthApart : list AnalyticsService.TrendRow :=
  trendRows 100 (repeat (Double.literal 9 10) 7 ++ repeat (Double.literal 8 10) 7).

(** An event of [user] in category "security", completed in 30 seconds. *)
Definition event (user : string) (accuracy_ : Q) (createdAt : Z) : EventStore.Event :=
  {| EventStore.user_id := user;
     EventStore.language := "javascript";
     EventStore.category := "security";
     EventStore.time_to_complete := Some (inject_Z 30);
     EventStore.accuracy_score := accuracy_;
     EventStore.created_at := createdAt |}.

(** "ann" after a break: one exercise a day, scored 0.5, on the days 0 to 6,
    then nothing until day 13, with one exercise scored 1.0. *)
Definition afterABreak : list EventStore.Event :=
  map (fun d => event "ann" (1 # 2) (d * 86400 + 43200)) [0; 1; 2; 3; 4; 5; 6]
  ++ [event "ann" 1 (13 * 86400 + 43200)].

Definition databaseOf (events : list EventStore.Event) : AchievementSystem.Database :=
  {| AchievementSystem.exercise_analytics := events;
     AchievementSystem.user_achievements := [];
     AchievementSystem.user_achievements_seq := 0;
     AchievementSystem.user_badges := [];
     AchievementSystem.user_badges_seq := 0;
     AchievementSystem.statements := [] |}.

(** No query fails. *)
Definition noFailure (key : string) : bool := false.

(** A database with no event at all. *)
Definition emptyDatabase : AchievementSystem.Database := databaseOf [].

(** Five exercises of "ann" on five consecutive days, with accuracies 0.9,
    0.95, 1.0, 0.92 and, on the last day, 0.88; and one event of "bob". *)
Definition fiveDays : AchievementSystem.Database :=
  databaseOf
    [ event "ann" (90 # 100) 86400; event "ann" (95 # 100) 172800;
      event "bob" 1 200000;
      event "ann" 1 259200; event "ann" (92 # 100) 345600;
      event "ann" (88 # 100) 432000 ].

(** What the submission handler passes for an exercise done in 30 seconds
    with every issue found. *)
Definition quickAndRight : AchievementSystem.ExerciseData :=
  {| AchievementSystem.exerciseCompleted := true;
     AchievementSystem.score := 1;
     AchievementSystem.timeToComplete := AchievementSystem.Number (inject_Z 30);
     AchievementSystem.category := "security";
     AchievementSystem.language := "javascript" |}.


(** Three exercises of "ann", at noon (UTC) of 8, 9 and 10 March 2025. *)
Definition marchDays : AchievementSystem.Database :=
  databaseOf
    [ event "ann" 1 (20155 * 86400 + 43200);
      event "ann" 1 (20156 * 86400 + 43200);
      event "ann" 1 (20157 * 86400 + 43200) ].

(** A zone five hours behind UTC that moves its clocks one hour forward at
    2025-03-09T07:00Z, which is 2 o'clock local time. *)
Definition easternTime : AchievementSystem.TimeZone :=
  {| AchievementSystem.offsetAt :=
       fun t => if t <? 1741503600 then - 18000 else - 14400;
     AchievementSystem.offsetAtLocal :=
       fun localTime =>
         if localTime <? 1741503600 - 18000 then - 18000 else - 14400 |}.



(** Two calls for "ann" that take turns, one [await] each. *)
Definition takingTurns : list bool := flat_map (fun _ => [false; true]) (seq 0 40).

End Samples.

(** ** Runs of calls

    Sequences of calls of the tracking methods, to state what a buffer or a
    counter holds after them. *)

Module Runs.
Import ModelPerformanceTracker.

(** A call [trackResponseTime(startTime, endTime)] made at time [now]. *)
Record TimingCall := { at_ : string; startTime : Q; endTime : Q }.

(** The sample such a call stores. *)
Definition timingSample (c : TimingCall) : ResponseTimeSample :=
  {| time := (endTime c - startTime c)%Q; rt_timestamp := at_ c |}.

(** The metrics after the calls, in order. *)
Definition afterTimings (calls : list TimingCall) (m : Metrics) : Metrics :=
  fold_left
    (fun m' c => fst (trackResponseTime (at_ c) (startTime c) (endTime c) m'))
    calls m.

(** The last [n] elements of a list. *)
Definition lastn {A : Type} (n : nat) (l : list A) : list A :=
  skipn (length l - n) l.

End Runs.

(** ** Reviews

    What it means that a found issue matches a canonical one, and the
    canonical issues that a submission leaves unmatched. *)

Module Review.
Import ModelPerformanceTracker.

(** The found issue is within two lines of the canonical issue and of its
    type. *)
Definition matches (found canonical : Issue) : Prop :=
  Z.abs (line found - line canonical) <= 2 /\ type found = type canonical.

(** No found issue matches the canonical issue. *)
Definition unmatched (foundIssues : list Issue) (canonical : Issue) : Prop :=
  forall found, In found foundIssues -> ~ matches found canonical.

(** [chosen] is the list [all] without the elements that do not satisfy
    [P]: the elements that satisfy [P], each as often as it occurs and in
    the order of [all]. *)
Inductive selection {A : Type} (P : A -> Prop) : list A -> list A -> Prop :=
  | selection_nil : selection P [] []
  | selection_keep (x : A) (all chosen : list A) :
      P x -> selection P all chosen -> selection P (x :: all) (x :: chosen)
  | selection_drop (x : A) (all chosen : list A) :
      ~ P x -> selection P all chosen -> selection P (x :: all) chosen.

End Review.

(** ** Strong and weak categories *)

Module Categories.
Import AnalyticsService.

(** A category counted as a strength: accuracy at least 0.75 over at least
    3 exercises. *)
Definition strong (cat : CategoryRow) : Prop :=
  (75 # 100 <= cat_avg_accuracy cat)%Q /\ 3 <= exercises_count cat.

(** A category counted as a weakness: accuracy below 0.60, or fewer than 2
    exercises. *)
Definition weak (cat : CategoryRow) : Prop :=
  (cat_avg_accuracy cat < 60 # 100)%Q \/ exercises_count cat < 2.

(** The insight shows the category, its count and its accuracy as a rounded
    percentage. *)
Definition describes (insight : CategoryInsight) (cat : CategoryRow) : Prop :=
  insightCategory insight = rowCategory cat
  /\ accuracy insight = Js.Math_round (cat_avg_accuracy cat * 100)
  /\ exerciseCount insight = exercises_count cat.

(** The types of the recommendations, in order. *)
Definition recommended (insights : Insights) : list string :=
  map recType (recommendations insights).

End Categories.

(** ** Days of activity *)

Module Recency.
Import AchievementSystem.

(** The days of the last 30 days on which the user completed an exercise,
    one entry per event. *)
Definition activeDays (db : Database) (userId : string) (now : Z) : list Z :=
  map EventStore.dateOf
    (EventStore.since now 30 (EventStore.ofUser userId (exercise_analytics db))).

(** The zone keeps one offset from UTC all the time, as UTC does. *)
Definition fixedOffset (zone : TimeZone) : Prop :=
  exists offset,
    forall t, offsetAt zone t = offset /\ offsetAtLocal zone t = offset.

(** No event of the user is later than [now]. *)
Definition upToNow (db : Database) (userId : string) (now : Z) : Prop :=
  forall e,
    In e (EventStore.ofUser userId (exercise_analytics db)) ->
    EventStore.created_at e <= now.

End Recency.

(** ** Ranking *)

Module Ranking.
Import AchievementSystem.

(** The number of events of a user in the 30 days before [now]. *)
Definition windowCount (events : list EventStore.Event) (now : Z) (user : string) : Z :=
  Z.of_nat (length (EventStore.ofUser user (EventStore.since now 30 events))).

(** The order of the speed board: a NULL average first, then the lower
    average time. *)
Definition faster (a b : SpeedEntry) : Prop :=
  match speedAvgTime a, speedAvgTime b with
  | None, _ => True
  | Some _, None => False
  | Some x, Some y => (x <= y)%Q
  end.

End Ranking.

(** * Properties *)

(** ** Numbers and slices *)

Section JsFacts.
Import Js.

Lemma Qltb_lt a b : Qltb a b = true <-> (a < b)%Q.
Proof.
  unfold Qltb. rewrite negb_true_iff. split.
  - intros H. apply Qnot_le_lt. intros Hle. apply Qle_bool_iff in Hle. congruence.
  - intros H. destruct (Qle_bool b a) eqn:E; [|reflexivity].
    apply Qle_bool_iff in E. exfalso. apply (Qlt_not_le _ _ H E).
Qed.

Lemma Qltb_ge a b : Qltb a b = false <-> (b <= a)%Q.
Proof.
  unfold Qltb. rewrite negb_false_iff. apply Qle_bool_iff.
Qed.

Lemma Qfloor_ge z q : z <= Qfloor q <-> (inject_Z z <= q)%Q.
Proof.
  split; intros H.
  - apply Qle_trans with (inject_Z (Qfloor q)); [|apply Qfloor_le].
    rewrite <- Zle_Qle. exact H.
  - rewrite <- (Qfloor_Z z). apply Qfloor_resp_le. exact H.
Qed.

Lemma Math_round_ge z x : z <= Math_round x <-> (inject_Z z - (1 # 2) <= x)%Q.
Proof.
  unfold Math_round. rewrite Qfloor_ge. split; intros H; lra.
Qed.

Lemma Math_round_lt z x : Math_round x < z <-> (x < inject_Z z - (1 # 2))%Q.
Proof.
  split; intros H.
  - apply Qnot_le_lt. intros Hle. apply Math_round_ge in Hle. lia.
  - apply Z.nle_gt. intros Hle. apply Math_round_ge in Hle.
    apply (Qlt_not_le _ _ H Hle).
Qed.

Lemma sliceFrom_neg {A} (l : list A) (n : nat) :
  (0 < n)%nat -> sliceFrom l (- Z.of_nat n) = skipn (length l - n) l.
Proof.
  intros Hn. unfold sliceFrom, slice, relIndex.
  assert (E1 : (- Z.of_nat n <? 0) = true) by (apply Z.ltb_lt; lia).
  assert (E2 : (Z.of_nat (length l) <? 0) = false) by (apply Z.ltb_ge; lia).
  rewrite E1, E2, Z.min_id.
  replace (Z.to_nat (Z.max (Z.of_nat (length l) + - Z.of_nat n) 0))
    with (length l - n)%nat by lia.
  apply firstn_all2. rewrite length_skipn. lia.
Qed.

Lemma slice_neg_neg {A} (l : list A) (a b : nat) :
  (0 < b <= a)%nat ->
  slice l (- Z.of_nat a) (- Z.of_nat b)
  = firstn (Nat.min (a - b) (length l - b)) (skipn (length l - a) l).
Proof.
  intros Hab. unfold slice, relIndex.
  assert (E1 : (- Z.of_nat a <? 0) = true) by (apply Z.ltb_lt; lia).
  assert (E2 : (- Z.of_nat b <? 0) = true) by (apply Z.ltb_lt; lia).
  rewrite E1, E2. f_equal; [|f_equal]; lia.
Qed.

Lemma slice_nonneg {A} (l : list A) (a b : nat) :
  (a <= b)%nat ->
  slice l (Z.of_nat a) (Z.of_nat b) = firstn (b - a) (skipn a l).
Proof.
  intros Hab. unfold slice, relIndex.
  assert (E1 : (Z.of_nat a <? 0) = false) by (apply Z.ltb_ge; lia).
  assert (E2 : (Z.of_nat b <? 0) = false) by (apply Z.ltb_ge; lia).
  rewrite E1, E2.
  destruct (Nat.le_gt_cases (length l) a) as [Hl|Hl].
  - rewrite (skipn_all2 l) by lia. rewrite (skipn_all2 l) by lia.
    now rewrite !firstn_nil.
  - replace (Z.to_nat (Z.min (Z.of_nat a) (Z.of_nat (length l)))) with a by lia.
    destruct (Nat.le_gt_cases b (length l)) as [Hb|Hb].
    + f_equal. lia.
    + rewrite !firstn_all2; [reflexivity| |]; rewrite length_skipn; lia.
Qed.

End JsFacts.

(** ** The performance monitor *)

Section TrackerFacts.
Import Js ModelPerformanceTracker Monitor.

Lemma issueMatches_iff found canonical :
  issueMatches found canonical = true
  <-> Z.abs (line found - line canonical) <= 2 /\ type found = type canonical.
Proof.
  unfold issueMatches. rewrite andb_true_iff, Z.leb_le, String.eqb_eq. tauto.
Qed.

Lemma matchesSome_existsb userIssue correct :
  matchesSome userIssue correct = existsb (issueMatches userIssue) correct.
Proof.
  induction correct as [|c cs IH]; simpl; [reflexivity|].
  rewrite IH. now destruct (issueMatches userIssue c).
Qed.

Lemma countMatches_filter userFound correct matches :
  countMatches userFound correct matches
  = matches
    + Z.of_nat (length (List.filter (fun u => existsb (issueMatches u) correct) userFound)).
Proof.
  revert matches. induction userFound as [|u us IH]; intros matches; simpl.
  - lia.
  - rewrite IH, matchesSome_existsb.
    destruct (existsb (issueMatches u) correct); simpl length; lia.
Qed.

Lemma pushBounded_appended {A} (buf : list A) (x : A) :
  appended buf x (pushBounded buf x).
Proof.
  unfold appended, pushBounded.
  destruct (Z.of_nat (length (buf ++ [x])) >? 100) eqn:E.
  - apply Z.gtb_lt in E. rewrite length_app in E. simpl in E.
    change (-100) with (- Z.of_nat 100).
    rewrite sliceFrom_neg by lia.
    exists (firstn (length (buf ++ [x]) - 100) (buf ++ [x])). split.
    + now rewrite firstn_skipn.
    + rewrite length_skipn, length_app. cbn [length]. lia.
  - exists []. split; [reflexivity|].
    rewrite length_app in *. cbn [length] in *.
    destruct (Z.gtb_spec (Z.of_nat (length buf + 1)) 100); [discriminate|lia].
Qed.

(** C4.  A found issue and a canonical issue count as a match exactly when
    their lines differ by at most 2 and their types are equal, both in the
    scoring of a submission ([correctlyFound]) and in the performance
    tracker ([calculateAccuracy]), which count the same found issues.  The
    issue at line 7 matches the canonical issue at line 5 of the same type;
    the issue at line 8 does not. *)
Theorem accuracy_matching_predicate :
  (forall found canonical : Issue,
      (SubmitReview.correctlyFound [found] [canonical] = 1
       <-> Z.abs (line found - line canonical) <= 2
           /\ type found = type canonical)
      /\ (countMatches [found] [canonical] 0 = 1
          <-> Z.abs (line found - line canonical) <= 2
              /\ type found = type canonical))
  /\ (forall userFound correct : list Issue,
         countMatches userFound correct 0
         = SubmitReview.correctlyFound userFound correct)
  /\ issueMatches {| line := 7; type := "security" |}
                  {| line := 5; type := "security" |} = true
  /\ issueMatches {| line := 8; type := "security" |}
                  {| line := 5; type := "security" |} = false.
Proof.
  split; [|split; [|split; reflexivity]].
  - intros found canonical. rewrite <- issueMatches_iff.
    unfold SubmitReview.correctlyFound. cbn [countMatches matchesSome].
    cbn [List.filter existsb]. fold (issueMatches found canonical).
    destruct (issueMatches found canonical); cbn; split; split;
      try reflexivity; try discriminate; intros; lia.
  - intros userFound correct. rewrite countMatches_filter.
    unfold SubmitReview.correctlyFound. reflexivity.
Qed.

(** C10.  With two found issues (lines 5 and 6, type "security") against a
    single canonical issue (line 5, type "security"), both found issues are
    counted and [trackAccuracy] returns 2, a value above 1, and stores that
    value as the new sample: the accuracy is not clamped to [0, 1]. *)
Theorem trackAccuracy_exceeds_one (now : string) (m : Metrics) :
  let found := [ {| line := 5; type := "security" |};
                 {| line := 6; type := "security" |} ] in
  let canonical := [ {| line := 5; type := "security" |} ] in
  countMatches found canonical 0 = 2
  /\ snd (trackAccuracy now found canonical m) = Some (2 # 1)%Q
  /\ (1 < calculateAccuracy found canonical)%Q
  /\ last (accuracy (fst (trackAccuracy now found canonical m)))
     = Some {| accuracyValue := (2 # 1)%Q; acc_timestamp := now |}.
Proof.
  cbv zeta. split; [reflexivity|]. split; [reflexivity|]. split; [reflexivity|].
  cbn [trackAccuracy fst accuracy].
  destruct (pushBounded_appended (accuracy m)
              {| accuracyValue := (2 # 1)%Q; acc_timestamp := now |})
    as (evicted & Happ & Hlen).
  change (calculateAccuracy _ _) with (2 # 1)%Q.
  remember (pushBounded _ _) as buf' eqn:Hbuf. clear Hbuf.
  assert (Hne : buf' <> []).
  { intros ->. cbn [length] in Hlen. lia. }
  destruct (exists_last Hne) as (front & lastSample & ->).
  rewrite last_snoc. rewrite app_assoc in Happ.
  apply app_inj_tail in Happ. f_equal. symmetry. apply Happ.
Qed.

(** C8, as stated, fails: [trackUserSatisfaction] has no [return], so the
    call does not evaluate to the rating. *)
Lemma trackUserSatisfaction_returns_nothing :
  snd (trackUserSatisfaction "2024-01-01T00:00:00.000Z" (inject_Z 5) "exercise"
         initialMetrics)
  <> Some (inject_Z 5).
Proof. discriminate. Qed.

(** C8, amended.  Each tracking method appends one sample to its own buffer,
    which keeps the latest 100 samples, and leaves the two other buffers as
    they are.  [trackResponseTime] returns the elapsed time and
    [trackAccuracy] the computed accuracy; [trackUserSatisfaction] returns
    no value. *)
Theorem track_appends_one_sample (now : string) (m : Metrics) :
  (forall startTime endTime : Q,
      let r := trackResponseTime now startTime endTime m in
      appended (responseTime m)
        {| time := (endTime - startTime)%Q; rt_timestamp := now |}
        (responseTime (fst r))
      /\ accuracy (fst r) = accuracy m
      /\ userSatisfaction (fst r) = userSatisfaction m
      /\ snd r = Some (endTime - startTime)%Q)
  /\ (forall found correct : list Issue,
         let r := trackAccuracy now found correct m in
         appended (accuracy m)
           {| accuracyValue := calculateAccuracy found correct;
              acc_timestamp := now |}
           (accuracy (fst r))
         /\ responseTime (fst r) = responseTime m
         /\ userSatisfaction (fst r) = userSatisfaction m
         /\ snd r = Some (calculateAccuracy found correct))
  /\ (forall (rating_ : Q) (category_ : string),
         let r := trackUserSatisfaction now rating_ category_ m in
         appended (userSatisfaction m)
           {| rating := rating_; category := category_; sat_timestamp := now |}
           (userSatisfaction (fst r))
         /\ responseTime (fst r) = responseTime m
         /\ accuracy (fst r) = accuracy m
         /\ snd r = None).
Proof.
  repeat split; cbn; apply pushBounded_appended.
Qed.

End TrackerFacts.

(** ** The report and the retrain signal, in double precision *)

Section DoubleTrackerFacts.
Import Js Binary64.ModelPerformanceTracker Monitor.

Lemma SFcompare_antisym (x y : Double.number) :
  SFcompare y x = option_map CompOpp (SFcompare x y).
Proof.
  destruct x as [sx|sx| |sx mx ex], y as [sy|sy| |sy my ey];
    try destruct sx; try destruct sy; try reflexivity; cbn [SFcompare option_map].
  - rewrite (Z.compare_antisym ex ey).
    destruct (ex ?= ey)%Z; cbn [CompOpp]; try reflexivity.
    f_equal. rewrite (Pos.compare_cont_antisym mx my Eq). reflexivity.
  - rewrite (Z.compare_antisym ex ey).
    destruct (ex ?= ey)%Z; cbn [CompOpp]; try reflexivity.
    f_equal. rewrite (Pos.compare_cont_antisym mx my Eq). cbn [CompOpp]. reflexivity.
Qed.

(** [x < y] excludes [y < x], also for infinities and [NaN]. *)
Lemma ltb_asym (x y : Double.number) :
  Double.ltb x y = true -> Double.ltb y x = false.
Proof.
  unfold Double.ltb, SFltb. rewrite (SFcompare_antisym x y).
  destruct (SFcompare x y) as [[| |]|]; cbn; congruence.
Qed.

Lemma isImproving_windows values higherIsBetter :
  isImproving values higherIsBetter
  = if (length values <=? 10)%nat then None
    else Some (if higherIsBetter
               then Double.ltb (mean (olderWindow values)) (mean (recentWindow values))
               else Double.ltb (mean (recentWindow values)) (mean (olderWindow values))).
Proof.
  unfold isImproving.
  destruct (Z.ltb_spec (Z.of_nat (length values)) 10) as [Hlt|Hge].
  - destruct (Nat.leb_spec (length values) 10); [reflexivity|lia].
  - change (-10) with (- Z.of_nat 10). change (-20) with (- Z.of_nat 20).
    rewrite sliceFrom_neg by lia. rewrite slice_neg_neg by lia.
    change (20 - 10)%nat with 10%nat.
    fold (recentWindow values). fold (olderWindow values).
    assert (Hlen : length (olderWindow values) = Nat.min 10 (length values - 10)).
    { unfold olderWindow. rewrite length_firstn, length_skipn. lia. }
    destruct (Nat.leb_spec (length values) 10) as [Hle|Hgt].
    + assert (E : length (olderWindow values) = 0%nat) by lia.
      rewrite E. reflexivity.
    + destruct (Z.eqb_spec (Z.of_nat (length (olderWindow values))) 0); [lia|].
      reflexivity.
Qed.

Lemma isImproving_reportsTrend values higherIsBetter :
  reportsTrend values higherIsBetter (isImproving values higherIsBetter).
Proof.
  unfold reportsTrend, improved. rewrite isImproving_windows.
  destruct (Nat.leb_spec (length values) 10) as [Hle|Hgt].
  - split; [tauto|]. split; (split; [discriminate|intros [? _]; lia]).
  - destruct higherIsBetter;
      match goal with
      | |- context [Double.ltb ?a ?b] => destruct (Double.ltb a b)
      end;
      intuition (try congruence; try lia).
Qed.

Lemma windows_split {A} (values : list A) :
  (10 < length values)%nat ->
  exists rest,
    values = rest ++ olderWindow values ++ recentWindow values
    /\ length (recentWindow values) = 10%nat
    /\ length (olderWindow values) = Nat.min 10 (length values - 10).
Proof.
  intros Hlen. unfold olderWindow, recentWindow.
  exists (firstn (length values - 20) values). repeat split.
  - rewrite <- (firstn_skipn (length values - 20) values) at 1. f_equal.
    rewrite <- (firstn_skipn (Nat.min 10 (length values - 10))
                 (skipn (length values - 20) values)) at 1.
    f_equal. rewrite skipn_skipn. f_equal. lia.
  - rewrite length_skipn. lia.
  - rewrite length_firstn, length_skipn. lia.
Qed.

(** C7, as stated, fails: a buffer of exactly ten samples is not a buffer of
    fewer than ten samples, and its trend is [null]. *)
Lemma trend_null_with_ten_samples :
  responseTimeImproving (recentTrends (getPerformanceReport Samples.tenTimings))
  = None
  /\ ~ (length (responseTime Samples.tenTimings) < 10)%nat.
Proof. split; [reflexivity|cbn; lia]. Qed.

(** C7, amended.  For each of the three metrics the reported trend is [null]
    exactly when the buffer holds at most ten samples.  With more samples it
    tells whether the mean of the most recent ten samples is strictly better
    (lower for latency, higher for accuracy and satisfaction) than the mean
    of the samples just before them, of which there are ten, or fewer when
    the buffer holds fewer than twenty; each mean is the sum of the window,
    added in double precision in the order of the buffer, divided by the
    number of its samples. *)
Theorem trend_null_up_to_ten_samples (m : Metrics) :
  let trends := recentTrends (getPerformanceReport m) in
  reportsTrend (latencies m) false (responseTimeImproving trends)
  /\ reportsTrend (accuracies m) true (accuracyImproving trends)
  /\ reportsTrend (ratings m) true (satisfactionImproving trends)
  /\ (forall values : list Double.number,
         (10 < length values)%nat ->
         exists rest,
           values = rest ++ olderWindow values ++ recentWindow values
           /\ length (recentWindow values) = 10%nat
           /\ length (olderWindow values) = Nat.min 10 (length values - 10)).
Proof.
  cbv zeta. split; [|split; [|split]].
  - apply isImproving_reportsTrend.
  - apply isImproving_reportsTrend.
  - apply isImproving_reportsTrend.
  - intros values. apply windows_split.
Qed.

(** The means are means of doubles: eleven accuracy samples that all equal
    the double of 2/3 are reported as improving, the sum of ten of them
    being rounded upwards. *)
Example equal_samples_reported_improving :
  accuracyImproving (recentTrends (getPerformanceReport Samples.twoThirds))
  = Some true.
Proof. vm_compute. reflexivity. Qed.

Lemma isFalse_iff (t : option bool) : isFalse t = true <-> t = Some false.
Proof. destruct t as [[|]|]; cbn; split; congruence. Qed.

Lemma average_meanOrZero (values : list Double.number) :
  average values = meanOrZero values.
Proof.
  unfold average, meanOrZero, mean. destruct values as [|v values]; [reflexivity|].
  destruct (Z.gtb_spec (Z.of_nat (length (v :: values))) 0) as [_|H];
    [reflexivity|cbn [length] in H; lia].
Qed.

Lemma not_improved_worsened (higherIsBetter : bool) (values : list Double.number) :
  ~ flat values ->
  (~ improved higherIsBetter values <-> worsened higherIsBetter values).
Proof.
  unfold flat, improved, worsened. intros Hflat.
  destruct (Double.ltb (mean (recentWindow values)) (mean (olderWindow values)))
    eqn:Ero;
    destruct (Double.ltb (mean (olderWindow values)) (mean (recentWindow values)))
      eqn:Eor.
  - apply ltb_asym in Ero. congruence.
  - destruct higherIsBetter; split; intros H; congruence.
  - destruct higherIsBetter; split; intros H; congruence.
  - elim Hflat. now split.
Qed.

(** C3, as stated, fails: the mean latency of [slightlySlow] is above
    5000 ms, yet [shouldRetrain] is [false], because the comparison is made
    on the rounded mean of the report. *)
Lemma shouldRetrain_false_above_5000 :
  Double.gtb (meanOrZero (latencies Samples.slightlySlow)) (Double.ofZ 5000) = true
  /\ shouldRetrain Samples.slightlySlow = false.
Proof. split; vm_compute; reflexivity. Qed.

(** C3, amended.  [shouldRetrain] compares the rounded means of the report:
    for metrics of which no buffer has a flat trend, it is [true] exactly
    when the mean latency rounded to an integer is above 5000, or the mean
    accuracy, as a rounded percentage, is below 70, or the mean satisfaction
    rounded to one decimal is below 3.5, or some buffer of more than ten
    samples is strictly worse in its recent window than in the window
    before.  A buffer of at most ten samples, whose trend is [null],
    contributes nothing: with three [null] trends and the three rounded
    means on the healthy side, [shouldRetrain] is [false]. *)
Theorem shouldRetrain_rounded_thresholds (m : Metrics) (H : noFlatTrend m) :
  (shouldRetrain m = true
   <-> Double.gtb (roundedLatency m) (Double.ofZ 5000) = true
       \/ Double.ltb (roundedAccuracy m) (Double.ofZ 70) = true
       \/ Double.ltb (roundedSatisfaction m) (Double.literal 35 10) = true
       \/ ((10 < length (latencies m))%nat /\ worsened false (latencies m))
       \/ ((10 < length (accuracies m))%nat /\ worsened true (accuracies m))
       \/ ((10 < length (ratings m))%nat /\ worsened true (ratings m)))
  /\ (responseTimeImproving (recentTrends (getPerformanceReport m)) = None ->
      accuracyImproving (recentTrends (getPerformanceReport m)) = None ->
      satisfactionImproving (recentTrends (getPerformanceReport m)) = None ->
      Double.gtb (roundedLatency m) (Double.ofZ 5000) = false ->
      Double.ltb (roundedAccuracy m) (Double.ofZ 70) = false ->
      Double.ltb (roundedSatisfaction m) (Double.literal 35 10) = false ->
      shouldRetrain m = false).
Proof.
  assert (Hiff :
    shouldRetrain m = true
    <-> Double.gtb (roundedLatency m) (Double.ofZ 5000) = true
        \/ Double.ltb (roundedAccuracy m) (Double.ofZ 70) = true
        \/ Double.ltb (roundedSatisfaction m) (Double.literal 35 10) = true
        \/ ((10 < length (latencies m))%nat /\ worsened false (latencies m))
        \/ ((10 < length (accuracies m))%nat /\ worsened true (accuracies m))
        \/ ((10 < length (ratings m))%nat /\ worsened true (ratings m))).
  2:{ split; [exact Hiff|].
      cbn [getPerformanceReport recentTrends responseTimeImproving
             accuracyImproving satisfactionImproving].
      fold (latencies m). fold (accuracies m). fold (ratings m).
      intros Nl Na Nr Hl Ha Hr.
      apply (isImproving_reportsTrend (latencies m) false) in Nl.
      apply (isImproving_reportsTrend (accuracies m) true) in Na.
      apply (isImproving_reportsTrend (ratings m) true) in Nr.
      destruct (shouldRetrain m); [|reflexivity].
      destruct (proj1 Hiff eq_refl) as [E|[E|[E|[[E _]|[[E _]|[E _]]]]]];
        try lia; congruence. }
  destruct H as (Hl & Ha & Hr).
  unfold shouldRetrain. cbn [getPerformanceReport averageResponseTime
    averageAccuracy averageUserSatisfaction recentTrends responseTimeImproving
    accuracyImproving satisfactionImproving].
  fold (latencies m). fold (accuracies m). fold (ratings m).
  rewrite !average_meanOrZero.
  fold (roundedLatency m). fold (roundedAccuracy m). fold (roundedSatisfaction m).
  rewrite !orb_true_iff, !isFalse_iff.
  destruct (isImproving_reportsTrend (latencies m) false) as (_ & _ & Tl).
  destruct (isImproving_reportsTrend (accuracies m) true) as (_ & _ & Ta).
  destruct (isImproving_reportsTrend (ratings m) true) as (_ & _ & Tr).
  rewrite Tl, Ta, Tr.
  assert (Wl : (10 < length (latencies m))%nat /\ ~ improved false (latencies m)
               <-> (10 < length (latencies m))%nat /\ worsened false (latencies m)).
  { split; intros [Hlen Hw]; (split; [exact Hlen|]);
      apply (not_improved_worsened false _ (Hl Hlen)); exact Hw. }
  assert (Wa : (10 < length (accuracies m))%nat /\ ~ improved true (accuracies m)
               <-> (10 < length (accuracies m))%nat /\ worsened true (accuracies m)).
  { split; intros [Hlen Hw]; (split; [exact Hlen|]);
      apply (not_improved_worsened true _ (Ha Hlen)); exact Hw. }
  assert (Wr : (10 < length (ratings m))%nat /\ ~ improved true (ratings m)
               <-> (10 < length (ratings m))%nat /\ worsened true (ratings m)).
  { split; intros [Hlen Hw]; (split; [exact Hlen|]);
      apply (not_improved_worsened true _ (Hr Hlen)); exact Hw. }
  rewrite Wl, Wa, Wr. tauto.
Qed.

(** A flat trend counts as not improving: with eleven equal and healthy
    samples in each buffer the three trends are [false] and [shouldRetrain]
    is [true]. *)
Example flat_trend_triggers_retrain :
  flat (latencies Samples.steady)
  /\ recentTrends (getPerformanceReport Samples.steady)
     = {| responseTimeImproving := Some false;
          accuracyImproving := Some false;
          satisfactionImproving := Some false |}
  /\ shouldRetrain Samples.steady = true.
Proof. split; [|split]; vm_compute; auto. Qed.

(** The percentage is the rounded product of doubles: for five accuracy
    samples 0.7 followed by five samples 0.69 the report shows 69 and
    [shouldRetrain] is [true]. *)
Example rounded_percentage_of_doubles :
  averageAccuracy (getPerformanceReport Samples.borderline) = Double.ofZ 69
  /\ shouldRetrain Samples.borderline = true.
Proof. split; vm_compute; reflexivity. Qed.

Lemma shouldRetrain_rounded_thresholds_witness :
  noFlatTrend Samples.recovering
  /\ (shouldRetrain Samples.recovering = true
      <-> Double.gtb (roundedLatency Samples.recovering) (Double.ofZ 5000) = true
          \/ Double.ltb (roundedAccuracy Samples.recovering) (Double.ofZ 70) = true
          \/ Double.ltb (roundedSatisfaction Samples.recovering)
               (Double.literal 35 10) = true
          \/ ((10 < length (latencies Samples.recovering))%nat
              /\ worsened false (latencies Samples.recovering))
          \/ ((10 < length (accuracies Samples.recovering))%nat
              /\ worsened true (accuracies Samples.recovering))
          \/ ((10 < length (ratings Samples.recovering))%nat
              /\ worsened true (ratings Samples.recovering))).
Proof.
  assert (Hflat : noFlatTrend Samples.recovering).
  { split; [|split]; intros _ [Hro Hor];
      first [vm_compute in Hro; discriminate Hro
            |vm_compute in Hor; discriminate Hor]. }
  split; [exact Hflat|].
  apply (proj1 (shouldRetrain_rounded_thresholds Samples.recovering Hflat)).
Defined.

End DoubleTrackerFacts.

(** ** More on the performance monitor *)

Section TrackerMoreFacts.
Import Js ModelPerformanceTracker Monitor Runs.

Lemma pushBounded_lastn {A} (buf : list A) (x : A) :
  pushBounded buf x = lastn 100 (buf ++ [x]).
Proof.
  unfold pushBounded, lastn.
  destruct (Z.gtb_spec (Z.of_nat (length (buf ++ [x]))) 100) as [Hgt|Hle].
  - change (-100) with (- Z.of_nat 100). now rewrite sliceFrom_neg by lia.
  - replace (length (buf ++ [x]) - 100)%nat with 0%nat by lia. reflexivity.
Qed.

Lemma lastn_app_lastn {A} (n : nat) (l k : list A) :
  lastn n (lastn n l ++ k) = lastn n (l ++ k).
Proof.
  unfold lastn.
  destruct (Nat.le_gt_cases (length l) n) as [Hle|Hgt].
  - replace (length l - n)%nat with 0%nat by lia. reflexivity.
  - rewrite !length_app, length_skipn.
    rewrite (skipn_app (length l + length k - n)).
    rewrite skipn_app, skipn_skipn, length_skipn.
    f_equal; f_equal; lia.
Qed.

Lemma lastn_length {A} (n : nat) (l : list A) :
  length (lastn n l) = Nat.min n (length l).
Proof. unfold lastn. rewrite length_skipn. lia. Qed.

Lemma lastn_all {A} (n : nat) (l : list A) :
  (length l <= n)%nat -> lastn n l = l.
Proof.
  intros H. unfold lastn. now replace (length l - n)%nat with 0%nat by lia.
Qed.

Lemma afterTimings_buffers (calls : list TimingCall) :
  forall m : Metrics,
    (length (responseTime m) <= 100)%nat ->
    responseTime (afterTimings calls m)
    = lastn 100 (responseTime m ++ map timingSample calls)
    /\ accuracy (afterTimings calls m) = accuracy m
    /\ userSatisfaction (afterTimings calls m) = userSatisfaction m
    /\ cacheHitRate (afterTimings calls m) = cacheHitRate m
    /\ totalRequests (afterTimings calls m) = totalRequests m.
Proof.
  induction calls as [|c calls IH]; intros m Hlen.
  - cbn. rewrite app_nil_r. now rewrite lastn_all.
  - unfold afterTimings. cbn [fold_left].
    set (m1 := fst (trackResponseTime (at_ c) (startTime c) (endTime c) m)).
    fold (afterTimings calls m1).
    assert (Hbuf : responseTime m1 = lastn 100 (responseTime m ++ [timingSample c])).
    { unfold m1. cbn [trackResponseTime fst responseTime].
      apply pushBounded_lastn. }
    destruct (IH m1) as (Hrt & Hacc & Hsat & Hrate & Htotal).
    { rewrite Hbuf, lastn_length. lia. }
    rewrite Hrt, Hacc, Hsat, Hrate, Htotal, Hbuf.
    split; [|now repeat split].
    rewrite lastn_app_lastn. cbn [map]. now rewrite <- app_assoc.
Qed.

(** X2.  The response-time buffer keeps the latest 100 samples: after any
    calls of [trackResponseTime] on metrics whose buffer holds at most 100
    samples, the buffer is the last 100 elements of the old samples followed
    by the new ones, in the order of the calls; it holds at most 100
    samples, and nothing else in the metrics has changed. *)
Theorem responseTime_buffer_keeps_latest (calls : list TimingCall) (m : Metrics)
    (H : (length (responseTime m) <= 100)%nat) :
  responseTime (afterTimings calls m)
  = lastn 100 (responseTime m ++ map timingSample calls)
  /\ (length (responseTime (afterTimings calls m)) <= 100)%nat
  /\ length (responseTime (afterTimings calls m))
     = Nat.min 100 (length (responseTime m) + length calls)
  /\ accuracy (afterTimings calls m) = accuracy m
  /\ userSatisfaction (afterTimings calls m) = userSatisfaction m
  /\ cacheHitRate (afterTimings calls m) = cacheHitRate m
  /\ totalRequests (afterTimings calls m) = totalRequests m.
Proof.
  destruct (afterTimings_buffers calls m H) as (Hrt & Hrest).
  split; [exact Hrt|].
  assert (Hlen : length (responseTime (afterTimings calls m))
                 = Nat.min 100 (length (responseTime m) + length calls)).
  { now rewrite Hrt, lastn_length, length_app, length_map. }
  split; [lia|]. split; [exact Hlen|exact Hrest].
Qed.

Lemma responseTime_buffer_keeps_latest_witness :
  let calls := repeat {| at_ := "t"; startTime := 0; endTime := 1 |} 150 in
  (length (responseTime Samples.tenLatencies) <= 100)%nat
  /\ length (responseTime (afterTimings calls Samples.tenLatencies)) = 100%nat.
Proof.
  cbv zeta. split; [cbn; lia|].
  destruct (responseTime_buffer_keeps_latest
              (repeat {| at_ := "t"; startTime := 0; endTime := 1 |} 150)
              Samples.tenLatencies) as (_ & _ & Hlen & _).
  - cbn. lia.
  - rewrite Hlen. reflexivity.
Defined.

Lemma countMatches_bounds (userFound correct : list Issue) :
  0 <= countMatches userFound correct 0 <= Z.of_nat (length userFound).
Proof.
  rewrite countMatches_filter.
  pose proof (List.filter_length_le
                (fun u => existsb (issueMatches u) correct) userFound).
  lia.
Qed.

(** X3.  [calculateAccuracy] is 1 when the exercise has no canonical issue,
    whatever was found.  Otherwise it is 0 when nothing was found, never
    negative, and at most the number of found issues divided by the number
    of canonical issues: it stays within [0, 1] as long as the user reports
    no more issues than the exercise has. *)
Theorem calculateAccuracy_bounds (userFound correct : list Issue) :
  (correct = [] -> calculateAccuracy userFound correct = 1%Q)
  /\ (correct <> [] ->
      (0 <= calculateAccuracy userFound correct)%Q
      /\ (calculateAccuracy userFound correct
          <= inject_Z (Z.of_nat (length userFound))
             / inject_Z (Z.of_nat (length correct)))%Q
      /\ ((length userFound <= length correct)%nat ->
          (calculateAccuracy userFound correct <= 1)%Q)
      /\ (userFound = [] -> (calculateAccuracy userFound correct == 0)%Q)).
Proof.
  split.
  - intros ->. reflexivity.
  - intros Hne. unfold calculateAccuracy.
    assert (Hlen : 0 < Z.of_nat (length correct)).
    { destruct correct; [congruence|cbn [length]; lia]. }
    destruct (Z.eqb_spec (Z.of_nat (length correct)) 0) as [H0|_]; [lia|].
    assert (Hpos : (0 < inject_Z (Z.of_nat (length correct)))%Q).
    { change 0%Q with (inject_Z 0). now rewrite <- Zlt_Qlt. }
    pose proof (countMatches_bounds userFound correct) as [Hlo Hhi].
    split; [|split; [|split]].
    + apply Qle_shift_div_l; [exact Hpos|]. rewrite Qmult_0_l.
      change 0%Q with (inject_Z 0). now rewrite <- Zle_Qle.
    + apply Qle_shift_div_r; [exact Hpos|].
      unfold Qdiv. rewrite <- Qmult_assoc, (Qmult_comm (/ _)), Qmult_inv_r.
      * rewrite Qmult_1_r. now rewrite <- Zle_Qle.
      * intros H0. rewrite H0 in Hpos. now apply Qlt_irrefl in Hpos.
    + intros Hfew. apply Qle_shift_div_r; [exact Hpos|]. rewrite Qmult_1_l.
      rewrite <- Zle_Qle. lia.
    + intros ->. cbn [countMatches]. unfold Qdiv. now rewrite Qmult_0_l.
Qed.

Lemma sum_shift (values : list Q) (acc : Q) :
  (fold_left Qplus values acc == acc + sum values)%Q.
Proof.
  unfold sum. revert acc.
  induction values as [|v values IH]; intros acc; cbn [fold_left].
  - ring.
  - rewrite (IH (acc + v)%Q), (IH (0 + v)%Q). ring.
Qed.

Lemma sum_cons (v : Q) (values : list Q) : (sum (v :: values) == v + sum values)%Q.
Proof. unfold sum at 1. cbn [fold_left]. rewrite sum_shift. ring. Qed.

Lemma sum_bounds (lo hi : Q) (values : list Q) :
  Forall (fun v => (lo <= v)%Q /\ (v <= hi)%Q) values ->
  (lo * inject_Z (Z.of_nat (length values)) <= sum values)%Q
  /\ (sum values <= hi * inject_Z (Z.of_nat (length values)))%Q.
Proof.
  induction 1 as [|v values [Hlo Hhi] _ [IHlo IHhi]].
  - cbn. split; ring_simplify; apply Qle_refl.
  - rewrite sum_cons. cbn [length]. rewrite Nat2Z.inj_succ.
    unfold Z.succ. rewrite inject_Z_plus. change (inject_Z 1) with 1%Q.
    split; lra.
Qed.

Lemma average_bounds (lo hi : Q) (values : list Q) :
  values <> [] ->
  Forall (fun v => (lo <= v)%Q /\ (v <= hi)%Q) values ->
  (lo <= average values)%Q /\ (average values <= hi)%Q.
Proof.
  intros Hne Hall. unfold average.
  assert (Hlen : 0 < Z.of_nat (length values)).
  { destruct values; [congruence|cbn [length]; lia]. }
  destruct (Z.gtb_spec (Z.of_nat (length values)) 0) as [_|H0]; [|lia].
  assert (Hpos : (0 < inject_Z (Z.of_nat (length values)))%Q).
  { change 0%Q with (inject_Z 0). now rewrite <- Zlt_Qlt. }
  destruct (sum_bounds lo hi values Hall) as [Hlo Hhi].
  split.
  - now apply Qle_shift_div_l.
  - now apply Qle_shift_div_r.
Qed.

(** X4.  A mean of the report stays within the range of the samples: when
    every accuracy sample lies in [0, 1] the reported [averageAccuracy] is a
    percentage from 0 to 100, and when every rating lies in [1, 5] the
    reported [averageUserSatisfaction] lies in [1, 5]. *)
Theorem report_means_within_sample_range (m : Metrics) :
  (accuracy m <> [] ->
   Forall (fun s => (0 <= accuracyValue s)%Q /\ (accuracyValue s <= 1)%Q)
     (accuracy m) ->
   0 <= averageAccuracy (getPerformanceReport m) <= 100)
  /\ (userSatisfaction m <> [] ->
      Forall (fun s => (1 <= rating s)%Q /\ (rating s <= 5)%Q)
        (userSatisfaction m) ->
      (1 <= averageUserSatisfaction (getPerformanceReport m))%Q
      /\ (averageUserSatisfaction (getPerformanceReport m) <= 5)%Q).
Proof.
  cbn [getPerformanceReport averageAccuracy averageUserSatisfaction]. split.
  - intros Hne Hall.
    destruct (average_bounds 0 1 (map accuracyValue (accuracy m))) as [Hlo Hhi].
    + destruct (accuracy m); [congruence|discriminate].
    + apply List.Forall_map. exact Hall.
    + split.
      * apply Math_round_ge. change (inject_Z 0) with 0%Q. lra.
      * apply Z.lt_succ_r. apply Math_round_lt.
        change (inject_Z (Z.succ 100)) with (101 # 1)%Q. lra.
  - intros Hne Hall.
    destruct (average_bounds 1 (5 # 1) (map rating (userSatisfaction m)))
      as [Hlo Hhi].
    + destruct (userSatisfaction m); [congruence|discriminate].
    + apply List.Forall_map. exact Hall.
    + set (avg := average (map rating (userSatisfaction m))) in *.
      assert (H10 : 10 <= Math_round (avg * 10)).
      { apply Math_round_ge. change (inject_Z 10) with (10 # 1)%Q. lra. }
      assert (H50 : Math_round (avg * 10) <= 50).
      { apply Z.lt_succ_r. apply Math_round_lt.
        change (inject_Z (Z.succ 50)) with (51 # 1)%Q. lra. }
      rewrite Zle_Qle in H10, H50.
      change (inject_Z 10) with (10 # 1)%Q in H10.
      change (inject_Z 50) with (50 # 1)%Q in H50.
      change (inject_Z (Math_round (avg * 10)) / 10)%Q
        with (inject_Z (Math_round (avg * 10)) * (1 # 10))%Q.
      split; lra.
Qed.

(** X5.  A tracker without an accuracy sample, or without a rating, asks
    for retraining: the mean of an empty buffer is reported as 0, which is
    below either threshold. *)
Theorem shouldRetrain_without_samples (m : Metrics)
    (H : accuracy m = [] \/ userSatisfaction m = []) :
  shouldRetrain m = true.
Proof.
  unfold shouldRetrain.
  cbn [getPerformanceReport averageResponseTime averageAccuracy
         averageUserSatisfaction recentTrends].
  destruct H as [H|H]; rewrite H; cbn [map average length Z.of_nat Z.gtb Z.compare].
  - change (Math_round (0 * 100) <? 70) with true.
    now rewrite orb_true_r.
  - change (Qltb (inject_Z (Math_round (0 * 10)) / 10) (35 # 10)) with true.
    now rewrite orb_true_r.
Qed.

Lemma shouldRetrain_without_samples_witness :
  (accuracy initialMetrics = [] \/ userSatisfaction initialMetrics = [])
  /\ shouldRetrain initialMetrics = true.
Proof.
  split; [left; reflexivity|].
  apply (shouldRetrain_without_samples initialMetrics). left. reflexivity.
Defined.

End TrackerMoreFacts.

(** ** Scoring a submission *)

Section SubmitFacts.
Import Js ModelPerformanceTracker SubmitReview.

Lemma correctlyFound_countMatches (foundIssues correctIssues : list Issue) :
  countMatches foundIssues correctIssues 0
  = correctlyFound foundIssues correctIssues.
Proof. rewrite countMatches_filter. unfold correctlyFound. apply Z.add_0_l. Qed.

Lemma correctlyFound_bounds (foundIssues correctIssues : list Issue) :
  0 <= correctlyFound foundIssues correctIssues <= Z.of_nat (length foundIssues).
Proof.
  rewrite <- correctlyFound_countMatches. apply countMatches_bounds.
Qed.

(** X6.  The handler and the tracker compute the same accuracy for an
    exercise that has canonical issues, and the score of the response is
    that accuracy as a rounded percentage.  For an exercise without
    canonical issues they differ: the handler's accuracy is 0, the tracker
    records 1, and the score is [NaN], which gets the lowest feedback. *)
Theorem handler_and_tracker_accuracy (foundIssues correctIssues : list Issue) :
  (correctIssues <> [] ->
   submitAccuracy foundIssues correctIssues
   = calculateAccuracy foundIssues correctIssues
   /\ submitScore foundIssues correctIssues
      = Some (Math_round (submitAccuracy foundIssues correctIssues * 100)))
  /\ (correctIssues = [] ->
      (submitAccuracy foundIssues correctIssues == 0)%Q
      /\ calculateAccuracy foundIssues correctIssues = 1%Q
      /\ submitScore foundIssues correctIssues = None
      /\ overall (generateFeedback correctIssues foundIssues
                    (submitScore foundIssues correctIssues))
         = "Keep practicing! Code review takes time to master.").
Proof.
  split.
  - intros Hne.
    assert (Hlen : 0 < Z.of_nat (length correctIssues)).
    { destruct correctIssues; [congruence|cbn [length]; lia]. }
    unfold submitAccuracy, calculateAccuracy, submitScore.
    rewrite correctlyFound_countMatches.
    destruct (Z.eqb_spec (Z.of_nat (length correctIssues)) 0) as [H0|_]; [lia|].
    now rewrite Z.max_l by lia.
  - intros ->. unfold submitAccuracy, correctlyFound. cbn [existsb length].
    assert (Hnone : List.filter (fun _ : Issue => false) foundIssues = []).
    { induction foundIssues as [|f fs IH]; [reflexivity|exact IH]. }
    rewrite Hnone. repeat split.
Qed.

Lemma filter_nil_iff {A} (p : A -> bool) (l : list A) :
  List.filter p l = [] <-> forall x, In x l -> p x = false.
Proof.
  induction l as [|y l IH]; cbn [List.filter].
  - split; [intros _ x []|reflexivity].
  - destruct (p y) eqn:E.
    + split; [discriminate|]. intros H. rewrite (H y) in E; [discriminate|now left].
    + rewrite IH. split.
      * intros H x [<-|Hx]; [exact E|now apply H].
      * intros H x Hx. apply H. now right.
Qed.

Lemma filter_all_iff {A} (p : A -> bool) (l : list A) :
  List.filter p l = l <-> forall x, In x l -> p x = true.
Proof.
  induction l as [|y l IH]; cbn [List.filter].
  - split; [intros _ x []|reflexivity].
  - destruct (p y) eqn:E.
    + split.
      * intros H x [<-|Hx]; [exact E|]. injection H as H. now apply IH.
      * intros H. f_equal. apply IH. intros x Hx. apply H. now right.
    + split.
      * intros H. exfalso.
        pose proof (List.filter_length_le p l) as Hle.
        rewrite H in Hle. cbn [length] in Hle. lia.
      * intros H. rewrite (H y) in E; [discriminate|now left].
Qed.

(** X7.  [generateFeedback] reports as missed the canonical issues that no
    found issue matches, each as often as the exercise lists it and in the
    order of the exercise, and no other issue; it gives its one suggestion
    exactly when an issue is missed, and never fills [incorrect].  Every
    canonical issue is reported missed exactly when the submission scored
    no correct find. *)
Theorem feedback_lists_unmatched_issues (correctIssues foundIssues : list Issue)
    (score_ : option Z) :
  let feedback := generateFeedback correctIssues foundIssues score_ in
  Review.selection (Review.unmatched foundIssues) correctIssues (missed feedback)
  /\ (forall c : Issue,
         In c (missed feedback)
         <-> In c correctIssues /\ Review.unmatched foundIssues c)
  /\ (suggestions feedback = [] <-> missed feedback = [])
  /\ incorrect feedback = []
  /\ (missed feedback = correctIssues
      <-> correctlyFound foundIssues correctIssues = 0).
Proof.
  cbv zeta. cbn [generateFeedback missed suggestions incorrect].
  change (fun correct : Issue =>
            negb (existsb
                    (fun f : Issue =>
                       (Z.abs (line f - line correct) <=? 2)
                       && String.eqb (type f) (type correct)) foundIssues))
    with (fun correct : Issue =>
            negb (existsb (fun f => issueMatches f correct) foundIssues)).
  set (unmatched := fun correct : Issue =>
         negb (existsb (fun f => issueMatches f correct) foundIssues)).
  assert (Hun : forall c, unmatched c = true
                          <-> forall f, In f foundIssues -> issueMatches f c = false).
  { intros c. unfold unmatched. rewrite negb_true_iff. split.
    - intros H f Hf. destruct (issueMatches f c) eqn:E; [|reflexivity].
      assert (existsb (fun f => issueMatches f c) foundIssues = true)
        by (apply existsb_exists; eauto).
      congruence.
    - intros H. destruct (existsb _ foundIssues) eqn:E; [|reflexivity].
      apply existsb_exists in E as (f & Hf & Hm). rewrite (H f Hf) in Hm.
      discriminate. }
  assert (Hspec : forall c, unmatched c = true <-> Review.unmatched foundIssues c).
  { intros c. rewrite Hun. unfold Review.unmatched, Review.matches. split.
    - intros H f Hf Hm. apply issueMatches_iff in Hm. rewrite (H f Hf) in Hm.
      discriminate.
    - intros H f Hf. destruct (issueMatches f c) eqn:E; [|reflexivity].
      apply issueMatches_iff in E. now elim (H f Hf). }
  split; [|split; [|split; [|split]]].
  - clear Hun. induction correctIssues as [|c cs IH]; cbn [List.filter].
    + constructor.
    + destruct (unmatched c) eqn:E.
      * apply Review.selection_keep; [now apply Hspec|exact IH].
      * apply Review.selection_drop; [|exact IH].
        intros H. apply Hspec in H. congruence.
  - intros c. rewrite List.filter_In, Hspec. tauto.
  - destruct (List.filter unmatched correctIssues) as [|c cs]; cbn.
    + tauto.
    + split; discriminate.
  - reflexivity.
  - rewrite filter_all_iff. unfold correctlyFound.
    change (fun found : Issue =>
              existsb (fun correct : Issue =>
                         (Z.abs (line found - line correct) <=? 2)
                         && String.eqb (type found) (type correct)) correctIssues)
      with (fun found : Issue => existsb (issueMatches found) correctIssues).
    split.
    + intros H.
      assert (Hnil : List.filter (fun found => existsb (issueMatches found) correctIssues)
                       foundIssues = []).
      { apply filter_nil_iff. intros f Hf.
        destruct (existsb (issueMatches f) correctIssues) eqn:E; [|reflexivity].
        apply existsb_exists in E as (c & Hc & Hm).
        pose proof (proj1 (Hun c) (H c Hc) f Hf). congruence. }
      now rewrite Hnil.
    + intros H c Hc. apply Hun. intros f Hf.
      assert (Hnil : List.filter (fun found => existsb (issueMatches found) correctIssues)
                       foundIssues = []).
      { destruct (List.filter _ foundIssues); [reflexivity|cbn [length] in H; lia]. }
      pose proof (proj1 (filter_nil_iff _ _) Hnil f Hf) as Hf'. cbn in Hf'.
      destruct (issueMatches f c) eqn:E; [|reflexivity].
      assert (existsb (issueMatches f) correctIssues = true)
        by (apply existsb_exists; eauto).
      congruence.
Qed.

End SubmitFacts.

(** ** The progress trend *)

Section AnalyticsFacts.
Import Js EventStore AnalyticsService Insight.

Lemma analyzeProgressTrend_windows (trendData : list TrendRow) :
  trend (analyzeProgressTrend trendData)
  = if (length trendData <? 3)%nat then insufficient_data
    else if (length trendData <=? 7)%nat then new_user
    else if Double.gtb (change trendData) (Double.literal 1 10) then improving
    else if Double.ltb (change trendData) (Double.neg (Double.literal 1 10))
         then declining
    else stable.
Proof.
  unfold analyzeProgressTrend.
  destruct (Z.ltb_spec (Z.of_nat (length trendData)) 3) as [H3|H3];
    destruct (Nat.ltb_spec (length trendData) 3) as [H3'|H3']; try lia;
    [reflexivity|].
  change 0 with (Z.of_nat 0). change 7 with (Z.of_nat 7).
  change 14 with (Z.of_nat 14).
  rewrite !slice_nonneg by lia.
  change (firstn (7 - 0) (skipn 0 trendData)) with (recentWindow trendData).
  change (firstn (14 - 7) (skipn 7 trendData)) with (priorWindow trendData).
  assert (Hlen : length (priorWindow trendData) = Nat.min 7 (length trendData - 7)).
  { unfold priorWindow. rewrite length_firstn, length_skipn. reflexivity. }
  destruct (Nat.leb_spec (length trendData) 7) as [H7|H7].
  - replace (length (priorWindow trendData)) with 0%nat by lia. reflexivity.
  - destruct (Z.eqb_spec (Z.of_nat (length (priorWindow trendData))) (Z.of_nat 0));
      [lia|].
    cbv zeta. unfold change, averageAccuracy, Monitor.mean.
    rewrite !length_map.
    destruct (Double.gtb _ (Double.literal 1 10)); [reflexivity|].
    destruct (Double.ltb _ (Double.neg (Double.literal 1 10))); reflexivity.
Qed.

(** C9.  The windows that [analyzeProgressTrend] compares are rows, not
    days.  "ann" took a break: she has one exercise today, scored 1.0, and
    one on each of the days 7 to 13 days ago, scored 0.5.  Her last seven
    days average 1.0 and the seven days before 0.5, which is an improvement
    of 0.5; but the recent window of the code also takes six of the older
    days, the prior window is the oldest day alone, and the trend is
    [stable]. *)
Theorem progress_trend_compares_rows_not_days :
  let now := 13 * 86400 + 43200 in
  let today := now / 86400 in
  let rows := progressTrendQuery Samples.afterABreak "ann" now in
  map date rows = [13; 6; 5; 4; 3; 2; 1; 0]
  /\ averageAccuracy (recentDays today rows) = Double.ofZ 1
  /\ averageAccuracy (priorDays today rows) = Double.literal 1 2
  /\ Double.gtb (Double.sub (averageAccuracy (recentDays today rows))
                            (averageAccuracy (priorDays today rows)))
                (Double.literal 1 10) = true
  /\ map date (recentWindow rows) = [13; 6; 5; 4; 3; 2; 1]
  /\ map date (priorWindow rows) = [0]
  /\ trend (analyzeProgressTrend rows) = stable.
Proof. cbv zeta. repeat split; vm_compute; reflexivity. Qed.

(** X1.  On the rows it is given, [analyzeProgressTrend] answers
    [insufficient_data] for fewer than 3 rows and [new_user] for 3 to 7
    rows; for more rows it compares the mean accuracy of the first seven
    rows with that of the up to seven rows after them, both means and their
    difference [d] computed in double precision: [improving] when [d] is
    above the double 0.1, [declining] when it is below -0.1, [stable]
    otherwise.  A week at 0.82 after a week at 0.68 is [improving], 0.70
    after 0.75 is [stable], and 0.9 after 0.8 is [improving], the
    difference of the two means being a double above 0.1. *)
Theorem progress_trend_classification (trendData : list TrendRow) :
  let d := change trendData in
  let result := trend (analyzeProgressTrend trendData) in
  ((length trendData < 3)%nat <-> result = insufficient_data)
  /\ ((3 <= length trendData <= 7)%nat <-> result = new_user)
  /\ ((7 < length trendData)%nat /\ Double.gtb d (Double.literal 1 10) = true
      <-> result = improving)
  /\ ((7 < length trendData)%nat /\ Double.gtb d (Double.literal 1 10) = false
      /\ Double.ltb d (Double.neg (Double.literal 1 10)) = true
      <-> result = declining)
  /\ trend (analyzeProgressTrend Samples.risingWeeks) = improving
  /\ trend (analyzeProgressTrend Samples.steadyWeeks) = stable
  /\ trend (analyzeProgressTrend Samples.tenthApart) = improving.
Proof.
  cbv zeta. rewrite analyzeProgressTrend_windows.
  split; [|split; [|split; [|split; [|split; [|split]]]]];
    [| | | |vm_compute; reflexivity..].
  - destruct (Nat.ltb_spec (length trendData) 3); [tauto|].
    split; [lia|].
    destruct (Nat.leb_spec (length trendData) 7); [discriminate|].
    destruct (Double.gtb _ _); [discriminate|].
    destruct (Double.ltb _ _); discriminate.
  - destruct (Nat.ltb_spec (length trendData) 3); [split; [lia|discriminate]|].
    destruct (Nat.leb_spec (length trendData) 7); [split; [reflexivity|lia]|].
    split; [lia|].
    destruct (Double.gtb _ _); [discriminate|].
    destruct (Double.ltb _ _); discriminate.
  - destruct (Nat.ltb_spec (length trendData) 3);
      [split; [lia|discriminate]|].
    destruct (Nat.leb_spec (length trendData) 7);
      [split; [lia|discriminate]|].
    destruct (Double.gtb _ _); [tauto|].
    split; [intros [_ H']; discriminate|].
    destruct (Double.ltb _ _); discriminate.
  - destruct (Nat.ltb_spec (length trendData) 3);
      [split; [lia|discriminate]|].
    destruct (Nat.leb_spec (length trendData) 7);
      [split; [lia|discriminate]|].
    destruct (Double.gtb _ _); [split; [intros (_ & H' & _)|]; discriminate|].
    destruct (Double.ltb _ _); [tauto|].
    split; [intros (_ & _ & H')|]; discriminate.
Qed.

End AnalyticsFacts.

(** ** Recording an exercise, and the learning insights *)

Section InsightFacts.
Import Js ModelPerformanceTracker AnalyticsService Insight Categories.

(** X8.  The accuracy stored with a completed exercise is never outside
    [0, 1], whatever counts are passed, and it is 1 exactly when something
    was correct and no more was found than was correct.  With the counts
    the submit handler passes (the number of found issues and the number of
    those that match) it is the share of the found issues that match. *)
Theorem accuracyScore_in_unit_interval (issuesFound_ issuesCorrect_ : Z) :
  (0 <= accuracyScore issuesFound_ issuesCorrect_)%Q
  /\ (accuracyScore issuesFound_ issuesCorrect_ <= 1)%Q
  /\ ((accuracyScore issuesFound_ issuesCorrect_ == 1)%Q
      <-> 0 < issuesCorrect_ /\ issuesFound_ <= issuesCorrect_)
  /\ (forall foundIssues correctIssues : list Issue,
         0 < SubmitReview.correctlyFound foundIssues correctIssues ->
         accuracyScore (Z.of_nat (length foundIssues))
           (SubmitReview.correctlyFound foundIssues correctIssues)
         = (inject_Z (SubmitReview.correctlyFound foundIssues correctIssues)
            / inject_Z (Z.of_nat (length foundIssues)))%Q).
Proof.
  unfold accuracyScore.
  destruct (Z.gtb_spec issuesCorrect_ 0) as [Hpos|Hnonpos].
  - assert (Hmax : 0 < Z.max issuesFound_ issuesCorrect_) by lia.
    assert (HmaxQ : (0 < inject_Z (Z.max issuesFound_ issuesCorrect_))%Q).
    { change 0%Q with (inject_Z 0). now rewrite <- Zlt_Qlt. }
    split; [|split; [|split]].
    + apply Qle_shift_div_l; [exact HmaxQ|]. rewrite Qmult_0_l.
      change 0%Q with (inject_Z 0). rewrite <- Zle_Qle. lia.
    + apply Qle_shift_div_r; [exact HmaxQ|]. rewrite Qmult_1_l.
      rewrite <- Zle_Qle. lia.
    + split.
      * intros H1. split; [exact Hpos|].
        assert (Heq : (inject_Z issuesCorrect_
                       == inject_Z (Z.max issuesFound_ issuesCorrect_))%Q).
        { rewrite <- (Qmult_1_l (inject_Z (Z.max issuesFound_ issuesCorrect_))).
          rewrite <- H1. field.
          intros H0. rewrite H0 in HmaxQ. now apply Qlt_irrefl in HmaxQ. }
        unfold Qeq in Heq. cbn [Qnum Qden inject_Z] in Heq. lia.
      * intros [_ Hle]. rewrite Z.max_r by lia. field.
        intros H0. unfold Qeq in H0. cbn [Qnum Qden inject_Z] in H0. lia.
    + intros foundIssues correctIssues Hc.
      pose proof (correctlyFound_bounds foundIssues correctIssues) as [_ Hhi].
      destruct (Z.gtb_spec (SubmitReview.correctlyFound foundIssues correctIssues) 0);
        [|lia].
      now rewrite Z.max_l by lia.
  - split; [apply Qle_refl|]. split; [discriminate|]. split.
    + split; [discriminate|lia].
    + intros foundIssues correctIssues Hc.
      pose proof (correctlyFound_bounds foundIssues correctIssues) as [_ Hhi].
      destruct (Z.gtb_spec (SubmitReview.correctlyFound foundIssues correctIssues) 0);
        [|lia].
      now rewrite Z.max_l by lia.
Qed.

(** [sort] rearranges, and orders by a key when the comparison is the
    difference of the keys. *)
Lemma insertSorted_Permutation {A} (compareFn : A -> A -> Q) (x : A) (l : list A) :
  Permutation (x :: l) (insertSorted compareFn x l).
Proof.
  induction l as [|y l IH]; cbn; [reflexivity|].
  destruct (Qle_bool (compareFn x y) 0); [reflexivity|].
  rewrite perm_swap. now apply perm_skip.
Qed.

Lemma sort_Permutation {A} (compareFn : A -> A -> Q) (l : list A) :
  Permutation l (sort compareFn l).
Proof.
  induction l as [|x l IH]; cbn; [reflexivity|].
  rewrite <- insertSorted_Permutation. now apply perm_skip.
Qed.

Lemma insertSorted_sorted {A} (compareFn : A -> A -> Q) (before : A -> A -> Prop) :
  (forall a b, (compareFn a b <= 0)%Q -> before a b) ->
  (forall a b, ~ (compareFn a b <= 0)%Q -> before b a) ->
  (forall a b c, before a b -> before b c -> before a c) ->
  forall x l,
    StronglySorted before l -> StronglySorted before (insertSorted compareFn x l).
Proof.
  intros Hle Hgt Htrans x l.
  induction l as [|y l IH]; intros Hs; cbn.
  - constructor; constructor.
  - inversion Hs as [|? ? Hs' Hall]; subst.
    destruct (Qle_bool (compareFn x y) 0) eqn:E.
    + apply Qle_bool_iff in E. constructor; [exact Hs|].
      constructor; [now apply Hle|].
      eapply Forall_impl; [exact Hall|]. cbn. intros z Hz.
      apply (Htrans x y z); [now apply Hle|exact Hz].
    + constructor; [now apply IH|].
      rewrite <- insertSorted_Permutation. constructor; [|exact Hall].
      apply Hgt. intros Hc. apply Qle_bool_iff in Hc. congruence.
Qed.

Lemma sort_sorted {A} (compareFn : A -> A -> Q) (before : A -> A -> Prop) :
  (forall a b, (compareFn a b <= 0)%Q -> before a b) ->
  (forall a b, ~ (compareFn a b <= 0)%Q -> before b a) ->
  (forall a b c, before a b -> before b c -> before a c) ->
  forall l, StronglySorted before (sort compareFn l).
Proof.
  intros Hle Hgt Htrans l.
  induction l as [|x l IH]; cbn; [constructor|].
  now apply insertSorted_sorted.
Qed.

Lemma slice_0_3 {A} (l : list A) : slice l 0 3 = firstn 3 l.
Proof.
  change 0 with (Z.of_nat 0). change 3 with (Z.of_nat 3).
  now rewrite slice_nonneg by lia.
Qed.

Lemma StronglySorted_app {A} (R : A -> A -> Prop) (l1 l2 : list A) :
  StronglySorted R (l1 ++ l2) ->
  StronglySorted R l1
  /\ forall a b, In a l1 -> In b l2 -> R a b.
Proof.
  induction l1 as [|x l1 IH]; cbn; intros Hs.
  - split; [constructor|intros a b []].
  - inversion Hs as [|? ? Hs' Hall]; subst.
    destruct (IH Hs') as [Hsorted Hcross].
    rewrite List.Forall_forall in Hall. split.
    + constructor; [exact Hsorted|]. apply List.Forall_forall.
      intros y Hy. apply Hall. apply List.in_app_iff. now left.
    + intros a b [<-|Ha] Hb.
      * apply Hall. apply List.in_app_iff. now right.
      * now apply Hcross.
Qed.

(** The first three of the rows that pass a test, in sorted order. *)
Lemma best_three {A} (compareFn : A -> A -> Q) (before : A -> A -> Prop)
    (test : A -> bool) (data : list A) :
  (forall a b, (compareFn a b <= 0)%Q -> before a b) ->
  (forall a b, ~ (compareFn a b <= 0)%Q -> before b a) ->
  (forall a b c, before a b -> before b c -> before a c) ->
  let kept := slice (sort compareFn (List.filter test data)) 0 3 in
  (forall r, In r kept -> In r data /\ test r = true)
  /\ (forall r, In r data -> test r = true ->
                In r kept
                \/ (length kept = 3%nat /\ forall k, In k kept -> before k r))
  /\ (length kept <= 3)%nat
  /\ StronglySorted before kept
  /\ (kept = [] -> forall r, In r data -> test r = false).
Proof.
  intros Hle Hgt Htrans. cbv zeta. rewrite slice_0_3.
  set (sorted := sort compareFn (List.filter test data)).
  pose proof (sort_Permutation compareFn (List.filter test data)) as Hperm.
  pose proof (sort_sorted compareFn before Hle Hgt Htrans (List.filter test data))
    as Hsorted.
  fold sorted in Hperm, Hsorted.
  rewrite <- (firstn_skipn 3 sorted) in Hsorted.
  destruct (StronglySorted_app _ _ _ Hsorted) as [Hkept Hcross].
  assert (Hin : forall r, In r sorted <-> In r data /\ test r = true).
  { intros r. rewrite <- List.filter_In. split; intros H.
    - eapply Permutation_in; [symmetry; exact Hperm|exact H].
    - eapply Permutation_in; [exact Hperm|exact H]. }
  split; [|split; [|split; [|split]]].
  - intros r Hr. apply Hin. rewrite <- (firstn_skipn 3 sorted).
    apply List.in_app_iff. now left.
  - intros r Hr Htest.
    assert (Hs : In r sorted) by (apply Hin; now split).
    rewrite <- (firstn_skipn 3 sorted) in Hs.
    apply List.in_app_iff in Hs as [Hs|Hs]; [now left|right].
    split.
    + rewrite length_firstn.
      destruct (Nat.le_gt_cases (length sorted) 3) as [Hshort|Hlong]; [|lia].
      rewrite skipn_all2 in Hs by exact Hshort. destruct Hs.
    + intros k Hk. now apply Hcross.
  - rewrite length_firstn. lia.
  - exact Hkept.
  - intros Hnil r Hr. destruct (test r) eqn:E; [|reflexivity].
    assert (Hs : In r sorted) by (apply Hin; now split).
    destruct sorted as [|x xs]; [destruct Hs|discriminate].
Qed.

Lemma Forall2_map_left {A B} (f : A -> B) (P : B -> A -> Prop) (l : list A) :
  (forall x, P (f x) x) -> Forall2 P (map f l) l.
Proof. intros H. induction l; cbn; constructor; auto. Qed.

Lemma strengths_kept (categoryData : list CategoryRow) :
  let kept :=
    slice
      (sort (fun a b => (cat_avg_accuracy b - cat_avg_accuracy a)%Q)
         (List.filter
            (fun cat => Qgeb (cat_avg_accuracy cat) (75 # 100)
                        && (exercises_count cat >=? 3))
            categoryData))
      0 3 in
  (forall r, In r kept -> In r categoryData /\ strong r)
  /\ (forall r, In r categoryData -> strong r ->
                In r kept
                \/ (length kept = 3%nat
                    /\ forall k, In k kept ->
                                 (cat_avg_accuracy r <= cat_avg_accuracy k)%Q))
  /\ (length kept <= 3)%nat
  /\ StronglySorted
       (fun a b => (cat_avg_accuracy b <= cat_avg_accuracy a)%Q) kept.
Proof.
  set (test := fun cat : CategoryRow =>
                 Qgeb (cat_avg_accuracy cat) (75 # 100) && (exercises_count cat >=? 3)).
  assert (Htest : forall r, test r = true <-> strong r).
  { intros r. unfold test, strong, Qgeb.
    rewrite andb_true_iff, Qle_bool_iff, Z.geb_le. tauto. }
  destruct (best_three
              (fun a b => (cat_avg_accuracy b - cat_avg_accuracy a)%Q)
              (fun a b => (cat_avg_accuracy b <= cat_avg_accuracy a)%Q)
              test categoryData)
    as (Hin & Hbest & Hlen & Hsorted & _).
  - intros a b H. lra.
  - intros a b H. apply Qlt_le_weak. apply Qnot_le_lt in H. lra.
  - intros a b c H1 H2. lra.
  - cbv zeta. split; [|split; [|split]].
    + intros r Hr. destruct (Hin r Hr) as [Hd Ht]. split; [exact Hd|].
      now apply Htest.
    + intros r Hr Hs. apply Hbest; [exact Hr|now apply Htest].
    + exact Hlen.
    + exact Hsorted.
Qed.

(** X9.  The strengths are the strong categories of highest accuracy, at
    most three, the most accurate first: each describes a strong category of
    the data, and a strong category that is not shown is no more accurate
    than any of the three that are. *)
Theorem strengths_are_the_best_three (categoryData : list CategoryRow) :
  exists kept : list CategoryRow,
    Forall2 describes (identifyStrengths categoryData) kept
    /\ (forall r, In r kept -> In r categoryData /\ strong r)
    /\ (forall r, In r categoryData -> strong r ->
                  In r kept
                  \/ (length kept = 3%nat
                      /\ forall k, In k kept ->
                                   (cat_avg_accuracy r <= cat_avg_accuracy k)%Q))
    /\ (length kept <= 3)%nat
    /\ StronglySorted
         (fun a b => (cat_avg_accuracy b <= cat_avg_accuracy a)%Q) kept.
Proof.
  destruct (strengths_kept categoryData) as (Hin & Hbest & Hlen & Hsorted).
  eexists. split; [|split; [|split; [|split]]].
  - unfold identifyStrengths. apply Forall2_map_left.
    intros x. now repeat split.
  - exact Hin.
  - exact Hbest.
  - exact Hlen.
  - exact Hsorted.
Qed.

Lemma weakCategories_weakest (categoryData : list CategoryRow) :
  (forall r, In r (weakCategories categoryData) -> In r categoryData /\ weak r)
  /\ (forall r, In r categoryData -> weak r ->
                In r (weakCategories categoryData)
                \/ (length (weakCategories categoryData) = 3%nat
                    /\ forall k, In k (weakCategories categoryData) ->
                                 (cat_avg_accuracy k <= cat_avg_accuracy r)%Q))
  /\ (length (weakCategories categoryData) <= 3)%nat
  /\ StronglySorted
       (fun a b => (cat_avg_accuracy a <= cat_avg_accuracy b)%Q)
       (weakCategories categoryData)
  /\ (weakCategories categoryData = [] ->
      forall r, In r categoryData -> ~ weak r).
Proof.
  set (test := fun cat : CategoryRow =>
                 Qltb (cat_avg_accuracy cat) (60 # 100) || (exercises_count cat <? 2)).
  assert (Htest : forall r, test r = true <-> weak r).
  { intros r. unfold test, weak.
    rewrite orb_true_iff, Qltb_lt, Z.ltb_lt. tauto. }
  destruct (best_three
              (fun a b => (cat_avg_accuracy a - cat_avg_accuracy b)%Q)
              (fun a b => (cat_avg_accuracy a <= cat_avg_accuracy b)%Q)
              test categoryData)
    as (Hin & Hbest & Hlen & Hsorted & Hnil).
  - intros a b H. lra.
  - intros a b H. apply Qlt_le_weak. apply Qnot_le_lt in H. lra.
  - intros a b c H1 H2. lra.
  - unfold weakCategories. fold test.
    split; [|split; [|split; [|split]]].
    + intros r Hr. destruct (Hin r Hr) as [Hd Ht]. split; [exact Hd|].
      now apply Htest.
    + intros r Hr Hw. apply Hbest; [exact Hr|now apply Htest].
    + exact Hlen.
    + exact Hsorted.
    + intros Hempty r Hr Hw. apply Htest in Hw.
      rewrite (Hnil Hempty r Hr) in Hw. discriminate.
Qed.

Lemma NoDup_map_In_eq {A B} (f : A -> B) (l : list A) (a b : A) :
  List.NoDup (map f l) -> In a l -> In b l -> f a = f b -> a = b.
Proof.
  induction l as [|x l IH]; cbn; intros Hnd Ha Hb Hf; [destruct Ha|].
  apply List.NoDup_cons_iff in Hnd as [Hnotin Hnd].
  destruct Ha as [->|Ha], Hb as [->|Hb].
  - reflexivity.
  - elim Hnotin. rewrite Hf. now apply List.in_map.
  - elim Hnotin. rewrite <- Hf. now apply List.in_map.
  - now apply IH.
Qed.

Lemma strengths_categories (categoryData : list CategoryRow) :
  forall c, In c (map insightCategory (identifyStrengths categoryData)) ->
            exists r, In r categoryData /\ strong r /\ rowCategory r = c.
Proof.
  intros c Hc.
  destruct (strengths_kept categoryData) as (Hin & _).
  unfold identifyStrengths in Hc. rewrite map_map in Hc. cbn in Hc.
  apply List.in_map_iff in Hc as (r & Hr & Hkept).
  destruct (Hin r Hkept) as [Hd Hs]. now exists r.
Qed.

(** X10.  No category is shown both as a strength and as a weakness, the
    categories of the data being distinct as the grouped query gives them. *)
Theorem no_category_both_strength_and_weakness (categoryData : list CategoryRow)
    (weaknessData : list WeaknessRow)
    (H : List.NoDup (map rowCategory categoryData)) :
  forall c : string,
    In c (map insightCategory (identifyStrengths categoryData)) ->
    ~ In c (map insightCategory (identifyWeaknesses categoryData weaknessData)).
Proof.
  intros c Hs Hw.
  destruct (strengths_categories categoryData c Hs) as (r1 & Hr1 & Hstrong & Hc1).
  unfold identifyWeaknesses in Hw. rewrite map_map in Hw. cbn in Hw.
  apply List.in_map_iff in Hw as (r2 & Hc2 & Hkept).
  destruct (weakCategories_weakest categoryData) as (Hin & _).
  destruct (Hin r2 Hkept) as [Hr2 Hweak].
  assert (r1 = r2) by (apply (NoDup_map_In_eq rowCategory categoryData); congruence).
  subst r2. destruct Hstrong as [Hacc Hcount], Hweak as [Hlow|Hfew].
  - apply (Qlt_not_le _ _ Hlow). lra.
  - lia.
Qed.

Lemma no_category_both_strength_and_weakness_witness :
  let data :=
    [ {| rowCategory := "security"; exercises_count := 5;
         cat_avg_accuracy := (9 # 10)%Q; cat_avg_time := None;
         best_score := 1%Q; worst_score := (8 # 10)%Q |};
      {| rowCategory := "logic"; exercises_count := 1;
         cat_avg_accuracy := 1%Q; cat_avg_time := None;
         best_score := 1%Q; worst_score := 1%Q |} ] in
  List.NoDup (map rowCategory data)
  /\ forall c : string,
       In c (map insightCategory (identifyStrengths data)) ->
       ~ In c (map insightCategory (identifyWeaknesses data [])).
Proof.
  cbv zeta.
  assert (Hnd : List.NoDup
                  (map rowCategory
                     [ {| rowCategory := "security"; exercises_count := 5;
                          cat_avg_accuracy := (9 # 10)%Q; cat_avg_time := None;
                          best_score := 1%Q; worst_score := (8 # 10)%Q |};
                       {| rowCategory := "logic"; exercises_count := 1;
                          cat_avg_accuracy := 1%Q; cat_avg_time := None;
                          best_score := 1%Q; worst_score := 1%Q |} ])).
  { cbn. constructor; [intros [H|[]]; discriminate|].
    constructor; [intros []|constructor]. }
  split; [exact Hnd|].
  apply (no_category_both_strength_and_weakness _ [] Hnd).
Defined.

Lemma level_cases (overall : option OverallRow) :
  level (generateSummaryInsights overall) = "beginner"
  \/ level (generateSummaryInsights overall) = "intermediate"
  \/ level (generateSummaryInsights overall) = "advanced"
  \/ level (generateSummaryInsights overall) = "expert".
Proof.
  unfold generateSummaryInsights. destruct overall as [row|]; [|now left].
  destruct (total_exercises row =? 0); [now left|].
  destruct (Qgeb _ (85 # 100)); [now repeat right|].
  destruct (Qgeb _ (70 # 100)); [now right; right; left|].
  destruct (Qgeb _ (50 # 100)); [now right; left|now left].
Qed.

(** X11.  The next steps are the two steps of the user's level, followed by
    one step for the weakest category when there is a weakness: two or
    three steps, of which the cap at three cuts none. *)
Theorem nextSteps_two_or_three (rawData : RawData) :
  let insights := processLearningInsights rawData in
  (weaknesses insights = [] -> length (nextSteps insights) = 2%nat)
  /\ (forall weakest rest,
         weaknesses insights = weakest :: rest ->
         length (nextSteps insights) = 3%nat
         /\ last (nextSteps insights)
            = Some ("Dedicate 30 minutes daily to "
                    +:+ insightCategory weakest +:+ " practice")).
Proof.
  cbv zeta. unfold processLearningInsights.
  cbn [weaknesses nextSteps summary strengths progressTrend recommendations].
  unfold generateNextSteps. cbn [summary weaknesses].
  destruct (level_cases (head (rawOverall rawData))) as [E|[E|[E|E]]];
    rewrite E; cbn [String.eqb Ascii.eqb Bool.eqb];
    (split;
     [intros ->; reflexivity
     |intros weakest rest ->; split; reflexivity]).
Qed.

Lemma skill_focus_first (rawData : RawData) :
  let insights := processLearningInsights rawData in
  recommendations insights
  = (match weakCategories (byCategory rawData) with
     | w :: _ =>
         [ {| recType := "skill_focus"; priority := "high";
              recMessage :=
                "Focus on " +:+ rowCategory w
                +:+ " exercises to improve your weakest area";
              action :=
                "Practice 3-5 " +:+ rowCategory w +:+ " exercises this week" |} ]
     | [] => []
     end)
    ++ (match trend (analyzeProgressTrend (rawProgressTrend rawData)) with
        | improving =>
            [ {| recType := "difficulty_increase"; priority := "medium";
                 recMessage := "You're improving! Try more advanced exercises";
                 action := "Attempt intermediate or advanced level exercises" |} ]
        | _ => []
        end)
    ++ (match rawOverall rawData with
        | overall :: _ =>
            match avg_time overall with
            | Some t =>
                if Qgtb t (inject_Z 300) then
                  [ {| recType := "speed_improvement"; priority := "medium";
                       recMessage := "Work on identifying issues more quickly";
                       action := "Set a 3-minute timer for beginner exercises" |} ]
                else []
            | None => []
            end
        | [] => []
        end).
Proof.
  cbv zeta. unfold processLearningInsights, generateRecommendations.
  cbn [recommendations weaknesses progressTrend].
  unfold identifyWeaknesses.
  destruct (weakCategories (byCategory rawData)); reflexivity.
Qed.

(** X12.  The recommendation "skill_focus" is given exactly when some
    category is weak, it comes first, and it names a weak category of
    lowest accuracy: no weak category of the data is less accurate than the
    one it names. *)
Theorem skill_focus_names_the_weakest (rawData : RawData) :
  let insights := processLearningInsights rawData in
  (In "skill_focus" (recommended insights)
   <-> exists r, In r (byCategory rawData) /\ weak r)
  /\ (forall rec,
         In rec (recommendations insights) -> recType rec = "skill_focus" ->
         head (recommendations insights) = Some rec
         /\ exists w,
             In w (byCategory rawData) /\ weak w
             /\ recMessage rec
                = "Focus on " +:+ rowCategory w
                  +:+ " exercises to improve your weakest area"
             /\ forall r, In r (byCategory rawData) -> weak r ->
                          (cat_avg_accuracy w <= cat_avg_accuracy r)%Q).
Proof.
  cbv zeta. unfold recommended. rewrite skill_focus_first.
  destruct (weakCategories_weakest (byCategory rawData))
    as (Hin & Hbest & _ & Hsorted & Hnone).
  set (second := match trend (analyzeProgressTrend (rawProgressTrend rawData)) with
                 | improving => _ | _ => _ end).
  set (third := match rawOverall rawData with _ :: _ => _ | [] => _ end).
  assert (Hrest : forall rec, In rec (second ++ third) -> recType rec <> "skill_focus").
  { intros rec Hrec. apply List.in_app_iff in Hrec as [Hrec|Hrec].
    - unfold second in Hrec.
      destruct (trend _); cbn in Hrec; try tauto.
      destruct Hrec as [<-|[]]. discriminate.
    - unfold third in Hrec. destruct (rawOverall rawData) as [|o os]; [destruct Hrec|].
      destruct (avg_time o) as [t|]; [|destruct Hrec].
      destruct (Qgtb t (inject_Z 300)); [|destruct Hrec].
      destruct Hrec as [<-|[]]. discriminate. }
  destruct (weakCategories (byCategory rawData)) as [|w ws] eqn:Ekept.
  - cbn [app]. split.
    + split.
      * intros Hrec. apply List.in_map_iff in Hrec as (rec & Htype & Hrec).
        now elim (Hrest rec Hrec).
      * intros (r & Hr & Hw). now elim (Hnone eq_refl r Hr).
    + intros rec Hrec Htype. now elim (Hrest rec Hrec).
  - destruct (Hin w (or_introl eq_refl)) as [Hwd Hww].
    split.
    + split; [intros _; now exists w|intros _; now left].
    + intros rec Hrec Htype. cbn [app] in Hrec.
      destruct Hrec as [<-|Hrec]; [|now elim (Hrest rec Hrec)].
      split; [reflexivity|]. exists w. repeat split; try assumption.
      intros r Hr Hweak.
      inversion Hsorted as [|? ? _ Hall]; subst.
      rewrite List.Forall_forall in Hall.
      destruct (Hbest r Hr Hweak) as [[<-|Hk]|[_ Hk]].
      * apply Qle_refl.
      * now apply Hall.
      * apply Hk. now left.
Qed.

(** X13.  The recommendation "difficulty_increase" is given exactly when
    the progress trend has more than seven daily rows and the mean accuracy
    of the first seven rows minus that of the rows after them, computed in
    double precision, is above the double 0.1; a user with seven rows or
    fewer never gets it.  For a week at 0.9 after a week at 0.8 it is
    given: the difference of the two means is a double above 0.1. *)
Theorem difficulty_increase_needs_a_prior_week (rawData : RawData) :
  let insights := processLearningInsights rawData in
  let rows := rawProgressTrend rawData in
  (In "difficulty_increase" (recommended insights)
   <-> (7 < length rows)%nat
       /\ Double.gtb (change rows) (Double.literal 1 10) = true)
  /\ (rows = Samples.tenthApart ->
      In "difficulty_increase" (recommended insights)).
Proof.
  cbv zeta.
  assert (Hiff : In "difficulty_increase" (recommended (processLearningInsights rawData))
                 <-> (7 < length (rawProgressTrend rawData))%nat
                     /\ Double.gtb (change (rawProgressTrend rawData))
                          (Double.literal 1 10) = true).
  2:{ split; [exact Hiff|]. intros Hrows. apply Hiff. rewrite Hrows.
      split; [cbn; lia|vm_compute; reflexivity]. }
  unfold recommended. rewrite skill_focus_first.
  rewrite analyzeProgressTrend_windows.
  set (first := match weakCategories (byCategory rawData) with
                | w :: _ => _ | [] => _ end).
  set (third := match rawOverall rawData with _ :: _ => _ | [] => _ end).
  assert (Hfirst : ~ In "difficulty_increase" (map recType first)).
  { unfold first. destruct (weakCategories _); cbn; [tauto|].
    intros [H|[]]. discriminate. }
  assert (Hthird : ~ In "difficulty_increase" (map recType third)).
  { unfold third. destruct (rawOverall rawData) as [|o os]; [intros []|].
    destruct (avg_time o) as [t|]; [|intros []].
    destruct (Qgtb t (inject_Z 300)); [|intros []].
    intros [H|[]]. discriminate. }
  rewrite !map_app, !List.in_app_iff.
  set (rows := rawProgressTrend rawData).
  destruct (Nat.ltb_spec (length rows) 3) as [H3|H3].
  - cbn. split; [tauto|lia].
  - destruct (Nat.leb_spec (length rows) 7) as [H7|H7].
    + cbn. split; [tauto|lia].
    + destruct (Double.gtb (change rows) (Double.literal 1 10)) eqn:E.
      * cbn. split; [intros _; split; [lia|reflexivity]|tauto].
      * destruct (Double.ltb _ _); cbn; split; try tauto;
          intros [_ H']; discriminate.
Qed.

(** X14.  Before the first exercise the insights are fixed: when the
    [overall] row is missing or counts no exercise (its average time then
    being NULL), no category has data and the trend has fewer than three
    daily rows, the level is "beginner" with score 0, there are no
    strengths, weaknesses or recommendations, the trend is
    [insufficient_data], and the next steps are the two steps of a
    beginner. *)
Theorem insights_before_the_first_exercise (rawData : RawData)
    (Hoverall : forall row, head (rawOverall rawData) = Some row ->
                            total_exercises row = 0 /\ avg_time row = None)
    (Hcategories : byCategory rawData = [])
    (Htrend : (length (rawProgressTrend rawData) < 3)%nat) :
  let insights := processLearningInsights rawData in
  level (summary insights) = "beginner"
  /\ score (summary insights) = 0
  /\ totalExercises (summary insights) = None
  /\ strengths insights = []
  /\ weaknesses insights = []
  /\ trend (progressTrend insights) = insufficient_data
  /\ recommendations insights = []
  /\ nextSteps insights
     = [ "Complete 5 security exercises to build foundation";
         "Focus on obvious issues like SQL injection and XSS" ].
Proof.
  cbv zeta.
  assert (Hsummary : generateSummaryInsights (head (rawOverall rawData))
                     = generateSummaryInsights None).
  { destruct (head (rawOverall rawData)) as [row|] eqn:E; [|reflexivity].
    destruct (Hoverall row eq_refl) as [H0 _].
    unfold generateSummaryInsights. now rewrite H0. }
  assert (Htr : trend (analyzeProgressTrend (rawProgressTrend rawData))
                = insufficient_data).
  { rewrite analyzeProgressTrend_windows.
    destruct (Nat.ltb_spec (length (rawProgressTrend rawData)) 3); [reflexivity|lia]. }
  assert (Hrecs : recommendations (processLearningInsights rawData) = []).
  { rewrite skill_focus_first, Hcategories, Htr. cbn [weakCategories app].
    destruct (rawOverall rawData) as [|o os] eqn:E; [reflexivity|].
    destruct (Hoverall o) as [_ Ht]; [first [reflexivity|now rewrite E]|].
    now rewrite Ht. }
  split; [|split; [|split; [|split; [|split; [|split; [|split]]]]]];
    try exact Hrecs; try exact Htr;
    unfold processLearningInsights;
    cbn [summary strengths weaknesses nextSteps];
    try (unfold generateNextSteps; cbn [summary weaknesses]);
    rewrite ?Hsummary, ?Hcategories; reflexivity.
Qed.

Lemma insights_before_the_first_exercise_witness :
  let rawData :=
    {| rawOverall :=
         [ {| total_exercises := 0; avg_accuracy := None; avg_time := None;
              total_hints_used := None; avg_satisfaction := None |} ];
       byCategory := []; byDifficulty := []; rawProgressTrend := [];
       rawWeaknesses := [] |} in
  (forall row, head (rawOverall rawData) = Some row ->
               total_exercises row = 0 /\ avg_time row = None)
  /\ byCategory rawData = []
  /\ (length (rawProgressTrend rawData) < 3)%nat
  /\ recommendations (processLearningInsights rawData) = []
  /\ level (summary (processLearningInsights rawData)) = "beginner".
Proof.
  cbv zeta.
  assert (H1 : forall row,
             head [ {| total_exercises := 0; avg_accuracy := None;
                       avg_time := None; total_hints_used := None;
                       avg_satisfaction := None |} ] = Some row ->
             total_exercises row = 0 /\ avg_time row = None).
  { intros row H. injection H as <-. now split. }
  split; [exact H1|]. split; [reflexivity|]. split; [cbn; lia|].
  destruct (insights_before_the_first_exercise
              {| rawOverall :=
                   [ {| total_exercises := 0; avg_accuracy := None;
                        avg_time := None; total_hints_used := None;
                        avg_satisfaction := None |} ];
                 byCategory := []; byDifficulty := []; rawProgressTrend := [];
                 rawWeaknesses := [] |} H1 eq_refl)
    as (Hlevel & _ & _ & _ & _ & _ & Hrecs & _).
  - cbn. lia.
  - split; [exact Hrecs|exact Hlevel].
Defined.

End InsightFacts.

(** ** The statistics snapshot *)

Section SnapshotFacts.
Import Js EventStore AchievementSystem.

Lemma insertDesc_Permutation {A} (key : A -> Z) (x : A) (l : list A) :
  Permutation (x :: l) (insertDesc key x l).
Proof.
  induction l as [|y l IH]; cbn; [reflexivity|].
  destruct (key y <=? key x); [reflexivity|].
  rewrite perm_swap. now apply perm_skip.
Qed.

Lemma orderByDesc_Permutation {A} (key : A -> Z) (l : list A) :
  Permutation l (orderByDesc key l).
Proof.
  induction l as [|x l IH]; cbn; [reflexivity|].
  rewrite <- insertDesc_Permutation. now apply perm_skip.
Qed.

Lemma insertDesc_sorted {A} (key : A -> Z) (x : A) (l : list A) :
  StronglySorted (fun a b => key b <= key a) l ->
  StronglySorted (fun a b => key b <= key a) (insertDesc key x l).
Proof.
  induction l as [|y l IH]; intros Hs; cbn.
  - constructor; constructor.
  - inversion Hs as [|? ? Hs' Hall]; subst.
    destruct (Z.leb_spec (key y) (key x)) as [Hle|Hgt].
    + constructor; [exact Hs|]. constructor; [exact Hle|].
      eapply Forall_impl; [exact Hall|]. cbn. intros; lia.
    + constructor; [apply IH; exact Hs'|].
      rewrite <- insertDesc_Permutation. constructor; [lia|exact Hall].
Qed.

Lemma orderByDesc_sorted {A} (key : A -> Z) (l : list A) :
  StronglySorted (fun a b => key b <= key a) (orderByDesc key l).
Proof.
  induction l as [|x l IH]; cbn; [constructor|].
  now apply insertDesc_sorted.
Qed.

Lemma getUserStats_snd zone failed db userId now :
  snd (getUserStats zone failed db userId now)
  = processUserStats zone now
      {| basic := result failed "basic" (basicQuery (exercise_analytics db) userId);
         categories :=
           result failed "categories" (categoriesQuery (exercise_analytics db) userId);
         languages :=
           result failed "languages" (languagesQuery (exercise_analytics db) userId);
         recent := result failed "recent" (recentQuery (exercise_analytics db) userId now);
         consecutive :=
           result failed "consecutive"
             (consecutiveQuery (exercise_analytics db) userId) |}.
Proof. reflexivity. Qed.

(** C5, as stated, fails: with no event at all the snapshot is computed, but
    its [fastestTime] is 999999, not 0. *)
Lemma zero_events_fastestTime_not_zero :
  let snapshot :=
    snd (getUserStats (fixedZone 0) Samples.noFailure Samples.emptyDatabase "ann" 432000) in
  fastestTime snapshot = inject_Z 999999 /\ ~ (fastestTime snapshot == 0)%Q.
Proof. split; [reflexivity|discriminate]. Qed.

(** C5, amended.  For a user with no completion event, [getUserStats]
    yields a snapshot, whichever of its queries fail, in which
    [totalExercises], [avgAccuracy], [avgTime], [bestAccuracy],
    [languageCount], [currentStreak], [consecutiveHighAccuracy] and the
    night and morning counts are 0, there is no category, and
    [hasPerfectScore] is false; [fastestTime] is the default 999999. *)
Theorem zero_events_snapshot (zone : TimeZone) (failed : string -> bool) (db : Database)
    (userId : string) (now : Z)
    (H : ofUser userId (exercise_analytics db) = []) :
  let snapshot := snd (getUserStats zone failed db userId now) in
  totalExercises snapshot = 0
  /\ avgAccuracy snapshot = 0%Q
  /\ avgTime snapshot = 0%Q
  /\ bestAccuracy snapshot = 0%Q
  /\ fastestTime snapshot = inject_Z 999999
  /\ statCategories snapshot = ∅
  /\ languageCount snapshot = 0
  /\ currentStreak snapshot = 0
  /\ consecutiveHighAccuracy snapshot = 0
  /\ nightExercises snapshot = 0
  /\ morningExercises snapshot = 0
  /\ hasPerfectScore snapshot = false.
Proof.
  cbv zeta. rewrite getUserStats_snd.
  unfold basicQuery, categoriesQuery, languagesQuery, recentQuery,
    consecutiveQuery, since.
  rewrite H. unfold result.
  destruct (failed "basic"), (failed "categories"), (failed "languages"),
    (failed "recent"), (failed "consecutive"); cbn; repeat split; reflexivity.
Qed.

Lemma zero_events_snapshot_witness :
  ofUser "carol" (exercise_analytics Samples.fiveDays) = []
  /\ let snapshot :=
       snd (getUserStats (fixedZone 0) Samples.noFailure Samples.fiveDays "carol" 432000) in
     totalExercises snapshot = 0
     /\ avgAccuracy snapshot = 0%Q
     /\ avgTime snapshot = 0%Q
     /\ bestAccuracy snapshot = 0%Q
     /\ fastestTime snapshot = inject_Z 999999
     /\ statCategories snapshot = ∅
     /\ languageCount snapshot = 0
     /\ currentStreak snapshot = 0
     /\ consecutiveHighAccuracy snapshot = 0
     /\ nightExercises snapshot = 0
     /\ morningExercises snapshot = 0
     /\ hasPerfectScore snapshot = false.
Proof.
  split; [reflexivity|].
  apply (zero_events_snapshot (fixedZone 0) Samples.noFailure Samples.fiveDays "carol" 432000).
  reflexivity.
Defined.

Lemma highAccuracyLoop_prefix (events : list Event) (n : Z) :
  exists high rest,
    events = high ++ rest
    /\ Forall (fun e => (9 # 10 <= EventStore.accuracy_score e)%Q) high
    /\ match rest with
       | [] => True
       | e :: _ => (EventStore.accuracy_score e < 9 # 10)%Q
       end
    /\ highAccuracyLoop
         (map (fun e => {| accuracy_score := EventStore.accuracy_score e;
                           created_at := EventStore.created_at e |}) events) n
       = n + Z.of_nat (length high).
Proof.
  revert n. induction events as [|e events IH]; intros n.
  - exists [], []. cbn. repeat split; [constructor|lia].
  - cbn [map highAccuracyLoop accuracy_score]. unfold Qgeb.
    destruct (Qle_bool (9 # 10) (EventStore.accuracy_score e)) eqn:E.
    + apply Qle_bool_iff in E.
      destruct (IH (n + 1)) as (high & rest & -> & Hhigh & Hrest & Hloop).
      exists (e :: high), rest. repeat split.
      * constructor; assumption.
      * exact Hrest.
      * rewrite Hloop. cbn [length]. lia.
    + exists [], (e :: events). repeat split.
      * constructor.
      * apply Qnot_le_lt. intros Hle. apply Qle_bool_iff in Hle. congruence.
      * cbn. lia.
Qed.

Lemma latest_is_head (events : list Event) (e : Event) :
  In e events ->
  (forall e', In e' events ->
              e' = e \/ EventStore.created_at e' < EventStore.created_at e) ->
  exists rest, orderByDesc EventStore.created_at events = e :: rest.
Proof.
  intros Hin Hmax.
  pose proof (orderByDesc_Permutation EventStore.created_at events) as Hperm.
  pose proof (orderByDesc_sorted EventStore.created_at events) as Hsorted.
  destruct (orderByDesc EventStore.created_at events) as [|h rest] eqn:E.
  - symmetry in Hperm. apply Permutation_nil in Hperm. subst. destruct Hin.
  - assert (Hh : In h events).
    { eapply Permutation_in; [symmetry; exact Hperm|]. now left. }
    destruct (Hmax h Hh) as [->|Hlt]; [now exists rest|].
    assert (He : In e (h :: rest)) by (eapply Permutation_in; eassumption).
    destruct He as [->|He]; [lia|].
    inversion Hsorted as [|? ? _ Hall]; subst.
    rewrite List.Forall_forall in Hall. specialize (Hall e He). lia.
Qed.

Lemma consecutiveHighAccuracy_loop zone failed db userId now :
  failed "consecutive" = false ->
  consecutiveHighAccuracy (snd (getUserStats zone failed db userId now))
  = highAccuracyLoop (consecutiveQuery (exercise_analytics db) userId) 0.
Proof.
  intros H. rewrite getUserStats_snd.
  cbn [processUserStats consecutiveHighAccuracy consecutive].
  unfold result. now rewrite H.
Qed.

(** C6.  [consecutiveHighAccuracy] is computed from the user's ten most
    recent events only: among the user's events ordered from the latest to
    the earliest, it is the number of events with accuracy at least 0.9 that
    precede the first event with accuracy below 0.9 among the first ten.  It
    does not depend on the current time, and it is 0 when the latest event
    has accuracy below 0.9, whatever the earlier events are; so it is for
    accuracies 0.9, 0.95, 1.0, 0.92 and then 0.88. *)
Theorem consecutiveHighAccuracy_latest_ten (zone : TimeZone) (failed : string -> bool)
    (db : Database) (userId : string) (now : Z)
    (H : failed "consecutive" = false) :
  let events := ofUser userId (exercise_analytics db) in
  let facet := consecutiveHighAccuracy (snd (getUserStats zone failed db userId now)) in
  (exists high rest older,
      Permutation events (high ++ rest ++ older)
      /\ StronglySorted
           (fun a b => EventStore.created_at b <= EventStore.created_at a)
           (high ++ rest ++ older)
      /\ length (high ++ rest) = Nat.min 10 (length events)
      /\ Forall (fun e => (9 # 10 <= EventStore.accuracy_score e)%Q) high
      /\ match rest with
         | [] => True
         | e :: _ => (EventStore.accuracy_score e < 9 # 10)%Q
         end
      /\ facet = Z.of_nat (length high))
  /\ (forall now' : Z,
         consecutiveHighAccuracy (snd (getUserStats zone failed db userId now')) = facet)
  /\ (forall e : Event,
         In e events ->
         (forall e', In e' events ->
                     e' = e \/ EventStore.created_at e' < EventStore.created_at e) ->
         (EventStore.accuracy_score e < 9 # 10)%Q ->
         facet = 0)
  /\ consecutiveHighAccuracy
       (snd (getUserStats (fixedZone 0) Samples.noFailure Samples.fiveDays "ann" 432000)) = 0.
Proof.
  cbv zeta. rewrite (consecutiveHighAccuracy_loop zone failed db userId now H).
  unfold consecutiveQuery.
  set (events := ofUser userId (exercise_analytics db)).
  set (sorted := orderByDesc EventStore.created_at events).
  split; [|split; [|split; [|reflexivity]]].
  - destruct (highAccuracyLoop_prefix (firstn 10 sorted) 0)
      as (high & rest & Hsplit & Hhigh & Hrest & Hloop).
    exists high, rest, (skipn 10 sorted).
    assert (Hsorted : high ++ rest ++ skipn 10 sorted = sorted).
    { rewrite app_assoc, <- Hsplit. apply firstn_skipn. }
    repeat split.
    + rewrite Hsorted. apply orderByDesc_Permutation.
    + rewrite Hsorted. apply orderByDesc_sorted.
    + rewrite <- Hsplit, length_firstn.
      unfold sorted.
      now rewrite <- (Permutation_length
                       (orderByDesc_Permutation EventStore.created_at events)).
    + exact Hhigh.
    + exact Hrest.
    + rewrite Hloop. lia.
  - intros now'. now rewrite (consecutiveHighAccuracy_loop zone failed db userId now' H).
  - intros e Hin Hmax Hacc.
    destruct (latest_is_head events e Hin Hmax) as (rest & Hhead).
    fold sorted in Hhead. rewrite Hhead.
    cbn [firstn map highAccuracyLoop accuracy_score]. unfold Qgeb.
    destruct (Qle_bool (9 # 10) (EventStore.accuracy_score e)) eqn:E;
      [|reflexivity].
    apply Qle_bool_iff in E. exfalso. apply (Qlt_not_le _ _ Hacc E).
Qed.

Lemma consecutiveHighAccuracy_latest_ten_witness :
  Samples.noFailure "consecutive" = false
  /\ consecutiveHighAccuracy
       (snd (getUserStats (fixedZone 0) Samples.noFailure Samples.fiveDays "ann" 432000)) = 0.
Proof.
  split; [reflexivity|].
  apply (consecutiveHighAccuracy_latest_ten (fixedZone 0) Samples.noFailure Samples.fiveDays
           "ann" 432000 eq_refl).
Defined.

End SnapshotFacts.

(** ** Streak and times of day *)

Section RecencyFacts.
Import Js EventStore AchievementSystem Recency.

Lemma distinct_In (keys : list Z) (x : Z) :
  In x (distinct Z.eqb keys) <-> In x keys.
Proof.
  induction keys as [|k keys IH]; cbn [distinct]; [reflexivity|].
  cbn [In]. rewrite List.filter_In, IH.
  destruct (Z.eqb_spec k x) as [->|Hne].
  - tauto.
  - split; [tauto|]. intros [H|H]; [tauto|]. right. split; [exact H|].
    now destruct (Z.eqb_spec k x).
Qed.

Lemma distinct_NoDup (keys : list Z) : List.NoDup (distinct Z.eqb keys).
Proof.
  induction keys as [|k keys IH]; cbn [distinct]; [constructor|].
  constructor.
  - rewrite List.filter_In. intros [_ H]. now rewrite Z.eqb_refl in H.
  - now apply List.NoDup_filter.
Qed.

Lemma sorted_NoDup_strict (l : list Z) :
  StronglySorted (fun a b => b <= a) l -> List.NoDup l ->
  StronglySorted (fun a b => b < a) l.
Proof.
  induction 1 as [|x l Hs IH Hall]; intros Hnd; [constructor|].
  apply List.NoDup_cons_iff in Hnd as [Hnotin Hnd].
  constructor; [now apply IH|].
  rewrite List.Forall_forall in *. intros y Hy.
  specialize (Hall y Hy). assert (y <> x) by (intros ->; contradiction). lia.
Qed.

(** The dates of the rows of the [recent] query: the active days, each
    once, the latest first. *)
Lemma recentQuery_dates (events : list Event) (userId : string) (now : Z) :
  let dates := map date (recentQuery events userId now) in
  StronglySorted (fun a b => b < a) dates
  /\ forall d, In d dates
               <-> In d (map dateOf (since now 30 (ofUser userId events))).
Proof.
  cbv zeta. unfold recentQuery. rewrite map_map. cbn [date]. rewrite map_id.
  set (days := map dateOf (since now 30 (ofUser userId events))).
  pose proof (orderByDesc_Permutation (fun d : Z => d) (distinct Z.eqb days)) as Hperm.
  split.
  - apply sorted_NoDup_strict; [apply orderByDesc_sorted|].
    eapply Permutation_NoDup; [exact Hperm|apply distinct_NoDup].
  - intros d. rewrite <- (distinct_In days d). split; intros H.
    + eapply Permutation_in; [symmetry; exact Hperm|exact H].
    + eapply Permutation_in; [exact Hperm|exact H].
Qed.

Lemma dayBefore_fixedOffset (zone : TimeZone) (t : Z) :
  fixedOffset zone -> dayBefore zone t = t - 86400.
Proof.
  intros (offset & Hzone). unfold dayBefore.
  destruct (Hzone t) as [-> _].
  destruct (Hzone (t + offset - 86400)) as [_ ->]. lia.
Qed.

Lemma streakLoop_consecutive (zone : TimeZone) (rows : list RecentRow) :
  fixedOffset zone ->
  forall checkDate n,
    StronglySorted (fun a b => b < a) (map date rows) ->
    Forall (fun d => d <= checkDate / 86400) (map date rows) ->
    exists k,
      0 <= k
      /\ streakLoop zone rows checkDate n = n + k
      /\ (forall i, 0 <= i < k -> In (checkDate / 86400 - i) (map date rows))
      /\ ~ In (checkDate / 86400 - k) (map date rows).
Proof.
  intros Hzone.
  induction rows as [|day rows IH]; intros checkDate n Hsorted Hle.
  - exists 0. cbn. repeat split; try lia; tauto.
  - cbn [map] in Hsorted, Hle.
    inversion Hsorted as [|? ? Hs Hall]; subst.
    inversion Hle as [|? ? Hday Hle']; subst.
    rewrite List.Forall_forall in Hall.
    cbn [streakLoop]. rewrite (dayBefore_fixedOffset zone checkDate Hzone).
    assert (Hprev : (checkDate - 86400) / 86400 = checkDate / 86400 - 1).
    { replace (checkDate - 86400) with (checkDate + (-1) * 86400) by lia.
      rewrite Z.div_add by lia. lia. }
    destruct (Z.eqb_spec (date day) (checkDate / 86400)) as [Heq|Hne].
    + destruct (IH (checkDate - 86400) (n + 1) Hs) as (k & Hk & Hloop & Hin & Hout).
      { apply List.Forall_forall. intros d Hd. specialize (Hall d Hd). lia. }
      rewrite Hprev in Hin, Hout.
      exists (k + 1). split; [lia|]. split; [lia|]. split.
      * intros i Hi. cbn [map In].
        destruct (Z.eq_dec i 0) as [->|Hi0]; [left; lia|right].
        replace (checkDate / 86400 - i) with (checkDate / 86400 - 1 - (i - 1)) by lia.
        apply Hin. lia.
      * cbn [map In]. intros [H|H]; [lia|].
        apply Hout.
        now replace (checkDate / 86400 - 1 - k)
          with (checkDate / 86400 - (k + 1)) by lia.
    + exists 0. split; [lia|]. split; [lia|]. split; [intros i Hi; lia|].
      rewrite Z.sub_0_r. cbn [map In]. intros [H|H]; [congruence|].
      specialize (Hall _ H). lia.
Qed.

Lemma recent_rows zone failed db userId now :
  failed "recent" = false ->
  let stats := snd (getUserStats zone failed db userId now) in
  let rows := recentQuery (exercise_analytics db) userId now in
  currentStreak stats = streakLoop zone rows now 0
  /\ nightExercises stats
     = Z.of_nat (length (List.filter (fun r => (hour r >=? 22) || (hour r <=? 6)) rows))
  /\ morningExercises stats
     = Z.of_nat (length (List.filter (fun r => (hour r >=? 5) && (hour r <=? 9)) rows)).
Proof.
  intros H. cbv zeta. rewrite getUserStats_snd.
  cbn [processUserStats currentStreak nightExercises morningExercises recent].
  unfold result. rewrite H. now repeat split.
Qed.

(** X15.  In a process whose time zone keeps one offset from UTC,
    [currentStreak] is the number of consecutive days (UTC), counted back
    from today, on which the user completed an exercise: for a user with no
    event later than now and a [recent] query that does not fail, every one
    of the last [currentStreak] days is an active day of the 30-day window
    and the day before them is not. *)
Theorem currentStreak_counts_consecutive_days (zone : TimeZone) (failed : string -> bool)
    (db : Database) (userId : string) (now : Z)
    (Hzone : fixedOffset zone)
    (Hquery : failed "recent" = false) (Hpast : upToNow db userId now) :
  let streak := currentStreak (snd (getUserStats zone failed db userId now)) in
  let today := now / 86400 in
  0 <= streak
  /\ (forall i, 0 <= i < streak -> In (today - i) (activeDays db userId now))
  /\ ~ In (today - streak) (activeDays db userId now).
Proof.
  cbv zeta.
  destruct (recent_rows zone failed db userId now Hquery) as [-> _].
  destruct (recentQuery_dates (exercise_analytics db) userId now) as [Hsorted Hdates].
  destruct (streakLoop_consecutive zone
              (recentQuery (exercise_analytics db) userId now) Hzone
              now 0 Hsorted) as (k & Hk & Hloop & Hin & Hout).
  - apply List.Forall_forall. intros d Hd. apply Hdates in Hd.
    apply List.in_map_iff in Hd as (e & <- & He).
    unfold since in He. apply List.filter_In in He as [He _].
    unfold dateOf. apply Z.div_le_mono; [lia|]. exact (Hpast e He).
  - rewrite Hloop, Z.add_0_l. unfold activeDays. split; [exact Hk|]. split.
    + intros i Hi. apply (proj1 (Hdates _)). apply Hin. exact Hi.
    + intros H. apply Hout. apply (proj2 (Hdates _)). exact H.
Qed.

Lemma currentStreak_counts_consecutive_days_witness :
  fixedOffset (fixedZone 0)
  /\ Samples.noFailure "recent" = false
  /\ upToNow Samples.fiveDays "ann" 432000
  /\ currentStreak (snd (getUserStats (fixedZone 0) Samples.noFailure Samples.fiveDays "ann" 432000))
     = 5
  /\ ~ In (432000 / 86400 - 5) (activeDays Samples.fiveDays "ann" 432000).
Proof.
  assert (Hzone : fixedOffset (fixedZone 0)).
  { exists 0. intros t. split; reflexivity. }
  assert (Hpast : upToNow Samples.fiveDays "ann" 432000).
  { intros e He. vm_compute in He.
    repeat (destruct He as [<-|He]; [vm_compute; discriminate|]).
    destruct He. }
  split; [exact Hzone|].
  split; [reflexivity|]. split; [exact Hpast|]. split; [reflexivity|].
  apply (currentStreak_counts_consecutive_days (fixedZone 0) Samples.noFailure Samples.fiveDays
           "ann" 432000 Hzone eq_refl Hpast).
Defined.

(** Where the clocks change, the days that the loop compares are not
    consecutive.  On 2025-03-10 at 23:30 UTC, with an exercise on each of
    the last three days, the streak is 3 in a process on UTC; in a zone
    that moved its clocks forward on 9 March, the day before the 9th at
    that local time is still the 9th in UTC, and the streak is 2. *)
Example streak_across_clock_change :
  let streakIn zone :=
    currentStreak
      (snd (getUserStats zone Samples.noFailure Samples.marchDays "ann" 1741649400)) in
  streakIn (fixedZone 0) = 3 /\ streakIn Samples.easternTime = 2.
Proof. split; vm_compute; reflexivity. Qed.

Lemma streakLoop_le (zone : TimeZone) (rows : list RecentRow) :
  forall checkDate n,
    n <= streakLoop zone rows checkDate n <= n + Z.of_nat (length rows).
Proof.
  induction rows as [|day rows IH]; intros checkDate n; cbn [streakLoop length].
  - lia.
  - destruct (date day =? checkDate / 86400); [|lia].
    specialize (IH (dayBefore zone checkDate) (n + 1)). lia.
Qed.

(** X16.  The recency facets count days, not exercises: there are distinct
    days, exactly the active days of the 30-day window, such that
    [currentStreak], [nightExercises] and [morningExercises] are each at
    most their number; and for a user with no event later than now that
    number is at most 31. *)
Theorem recency_facets_count_days (zone : TimeZone) (failed : string -> bool) (db : Database)
    (userId : string) (now : Z) (Hquery : failed "recent" = false) :
  let stats := snd (getUserStats zone failed db userId now) in
  exists days : list Z,
    List.NoDup days
    /\ (forall d, In d days <-> In d (activeDays db userId now))
    /\ 0 <= currentStreak stats <= Z.of_nat (length days)
    /\ 0 <= nightExercises stats <= Z.of_nat (length days)
    /\ 0 <= morningExercises stats <= Z.of_nat (length days)
    /\ (upToNow db userId now -> (length days <= 31)%nat).
Proof.
  cbv zeta.
  destruct (recent_rows zone failed db userId now Hquery) as (-> & -> & ->).
  set (rows := recentQuery (exercise_analytics db) userId now).
  destruct (recentQuery_dates (exercise_analytics db) userId now) as [Hsorted Hdates].
  fold rows in Hsorted, Hdates.
  exists (map date rows).
  assert (Hnd : List.NoDup (map date rows)).
  { clear Hdates. induction Hsorted as [|x l Hs IH Hall]; constructor; [|exact IH].
    intros Hx. rewrite List.Forall_forall in Hall. specialize (Hall x Hx). lia. }
  rewrite length_map.
  split; [exact Hnd|]. split; [exact Hdates|].
  split; [pose proof (streakLoop_le zone rows now 0); lia|].
  split; [pose proof (List.filter_length_le
                        (fun r => (hour r >=? 22) || (hour r <=? 6)) rows); lia|].
  split; [pose proof (List.filter_length_le
                        (fun r => (hour r >=? 5) && (hour r <=? 9)) rows); lia|].
  intros Hpast.
  assert (Hincl : incl (map date rows)
                    (map (fun i => now / 86400 - 30 + Z.of_nat i) (seq 0 31))).
  { intros d Hd. apply Hdates in Hd. unfold activeDays in Hd.
    apply List.in_map_iff in Hd as (e & <- & He).
    unfold since in He. apply List.filter_In in He as [He Hsince].
    apply Z.leb_le in Hsince. pose proof (Hpast e He) as Hnow.
    assert (Hlo : now / 86400 - 30 <= dateOf e).
    { unfold dateOf.
      replace (now / 86400 - 30) with ((now - 30 * 86400) / 86400).
      - apply Z.div_le_mono; lia.
      - replace (now - 30 * 86400) with (now + (-30) * 86400) by lia.
        rewrite Z.div_add by lia. lia. }
    assert (Hhi : dateOf e <= now / 86400)
      by (unfold dateOf; apply Z.div_le_mono; lia).
    apply List.in_map_iff.
    exists (Z.to_nat (dateOf e - (now / 86400 - 30))). split; [lia|].
    apply List.in_seq. lia. }
  pose proof (List.NoDup_incl_length Hnd Hincl) as Hlen.
  rewrite !length_map, length_seq in Hlen. exact Hlen.
Qed.

Lemma recency_facets_count_days_witness :
  Samples.noFailure "recent" = false
  /\ exists days : list Z,
       List.NoDup days
       /\ (forall d, In d days <-> In d (activeDays Samples.fiveDays "ann" 432000))
       /\ 0 <= currentStreak
                 (snd (getUserStats (fixedZone 0) Samples.noFailure Samples.fiveDays "ann" 432000))
            <= Z.of_nat (length days)
       /\ 0 <= nightExercises
                 (snd (getUserStats (fixedZone 0) Samples.noFailure Samples.fiveDays "ann" 432000))
            <= Z.of_nat (length days)
       /\ 0 <= morningExercises
                 (snd (getUserStats (fixedZone 0) Samples.noFailure Samples.fiveDays "ann" 432000))
            <= Z.of_nat (length days)
       /\ (upToNow Samples.fiveDays "ann" 432000 -> (length days <= 31)%nat).
Proof.
  split; [reflexivity|].
  apply (recency_facets_count_days (fixedZone 0) Samples.noFailure Samples.fiveDays "ann" 432000).
  reflexivity.
Defined.

End RecencyFacts.

(** ** Awarding *)

Section AwardFacts.
Import Js EventStore AchievementSystem Awards.

Lemma sameTables_refl db : sameTables db db.
Proof. now repeat split. Qed.

Lemma sameTables_trans db1 db2 db3 :
  sameTables db1 db2 -> sameTables db2 db3 -> sameTables db1 db3.
Proof.
  intros (A1 & B1 & C1 & D1 & E1) (A2 & B2 & C2 & D2 & E2).
  repeat split; congruence.
Qed.

Lemma onlyRead_refl db : onlyRead db db [].
Proof.
  split; [apply sameTables_refl|]. split; [now rewrite app_nil_r|constructor].
Qed.

Lemma onlyRead_trans db1 db2 db3 new1 new2 :
  onlyRead db1 db2 new1 -> onlyRead db2 db3 new2 -> onlyRead db1 db3 (new1 ++ new2).
Proof.
  intros (S1 & H1 & Q1) (S2 & H2 & Q2).
  split; [exact (sameTables_trans _ _ _ S1 S2)|]. split.
  - rewrite H2, H1. now rewrite app_assoc.
  - apply List.Forall_app. now split.
Qed.

Lemma onlyRead_logged st db : isQuery st -> onlyRead db (logged st db) [st].
Proof.
  intros H. split; [now repeat split|]. split; [reflexivity|].
  constructor; [exact H|constructor].
Qed.

Lemma onlyRead_getUserStats zone failed db userId now :
  exists new, onlyRead db (fst (getUserStats zone failed db userId now)) new.
Proof.
  unfold getUserStats. cbn [fst fold_left].
  eexists.
  repeat (eapply onlyRead_trans; [|apply onlyRead_logged; exact I]).
  apply onlyRead_refl.
Qed.

Lemma onlyRead_meetsRequirement db userId achievement userStats exerciseData :
  exists new,
    onlyRead db
      (fst (meetsRequirement db userId achievement userStats exerciseData)) new.
Proof.
  unfold meetsRequirement, countFastCompletions.
  repeat match goal with
         | |- context [if ?c then _ else _] => destruct c
         | |- context [match ?o ≫= ?f with _ => _ end] => destruct (o ≫= f)
         end;
    cbn [fst];
    first [exists []; apply onlyRead_refl
          |eexists; apply onlyRead_logged; exact I].
Qed.


Lemma sameTables_earned db db' u k :
  sameTables db db' -> earned db' u k = earned db u k.
Proof. intros (_ & H & _). unfold earned. now rewrite H. Qed.

(** Whether a requirement is met depends on the events of the user only. *)
Lemma meetsRequirement_ofUser db db' userId achievement userStats exerciseData :
  ofUser userId (exercise_analytics db') = ofUser userId (exercise_analytics db) ->
  snd (meetsRequirement db' userId achievement userStats exerciseData)
  = snd (meetsRequirement db userId achievement userStats exerciseData).
Proof.
  intros H. unfold meetsRequirement, countFastCompletions. rewrite H.
  repeat match goal with
         | |- context [if ?c then _ else _] => destruct c
         | |- context [match ?o ≫= ?f with _ => _ end] => destruct (o ≫= f)
         end;
    reflexivity.
Qed.

Lemma meetsRequirement_events db db' userId achievement userStats exerciseData :
  exercise_analytics db' = exercise_analytics db ->
  snd (meetsRequirement db' userId achievement userStats exerciseData)
  = snd (meetsRequirement db userId achievement userStats exerciseData).
Proof. intros H. apply meetsRequirement_ofUser. now rewrite H. Qed.

Lemma sameTables_due db db' userId userStats exerciseData entry :
  sameTables db db' ->
  due db' userId userStats exerciseData entry
  = due db userId userStats exerciseData entry.
Proof.
  intros S. unfold due. rewrite (sameTables_earned _ _ _ _ S).
  destruct S as (Hev & _). now rewrite (meetsRequirement_events _ _ _ _ _ _ Hev).
Qed.

Lemma sameTables_inserted db0 db db' userId achievementId :
  sameTables db0 db -> inserted db db' userId achievementId ->
  inserted db0 db' userId achievementId.
Proof.
  intros (A & B & C & D & E) (A' & B' & C' & D' & E').
  unfold inserted. rewrite <- A, <- B, <- C, <- D, <- E. now repeat split.
Qed.

Lemma sameKey_eq u k u' k' row :
  sameKey u k row = true -> sameKey u' k' row = true -> u = u' /\ k = k'.
Proof.
  unfold sameKey. rewrite !andb_true_iff, !String.eqb_eq.
  intros [<- <-] [<- <-]. now split.
Qed.

(** The row just inserted is found by [userHasAchievement]. *)
Lemma inserted_earned db db' userId achievementId :
  inserted db db' userId achievementId -> earned db' userId achievementId = true.
Proof.
  intros (Hrows & _). unfold earned. rewrite Hrows, existsb_app.
  apply orb_true_iff. right. cbn. unfold sameKey. cbn.
  now rewrite !String.eqb_refl.
Qed.

(** The insert changes what is earned for its own key only. *)
Lemma inserted_earned_other db db' userId achievementId u k :
  inserted db db' userId achievementId ->
  (u, k) <> (userId, achievementId) ->
  earned db' u k = earned db u k.
Proof.
  intros (Hrows & _) Hne. unfold earned. rewrite Hrows, existsb_app.
  assert (Hnew : sameKey u k
                   {| ua_id := user_achievements_seq db + 1; ua_user_id := userId;
                      achievement_id := achievementId;
                      progress := 100; completed := true |} = false).
  { unfold sameKey. cbn. apply andb_false_iff.
    destruct (String.eqb_spec userId u) as [->|]; [|now left].
    destruct (String.eqb_spec achievementId k) as [->|]; [|now right].
    now elim Hne. }
  cbn [existsb]. rewrite Hnew. cbn [andb orb]. rewrite orb_false_r.
  clear Hrows Hnew.
  induction (user_achievements db) as [|row rows IH]; [reflexivity|].
  cbn [List.filter existsb].
  destruct (sameKey userId achievementId row) eqn:E; cbn [negb].
  - rewrite IH.
    destruct (sameKey u k row) eqn:E'; [|reflexivity].
    destruct (sameKey_eq _ _ _ _ _ E E') as [Hu Hk]. subst. now elim Hne.
  - cbn [existsb]. now rewrite IH.
Qed.

(** An insert never takes an earned achievement away, of any user. *)
Lemma inserted_keeps db db' userId achievementId u k :
  inserted db db' userId achievementId ->
  earned db u k = true -> earned db' u k = true.
Proof.
  intros Hins H.
  destruct (String.eqb_spec u userId) as [->|Hu];
    [destruct (String.eqb_spec k achievementId) as [->|Hk]|].
  - now apply (inserted_earned db).
  - rewrite (inserted_earned_other _ _ _ _ _ _ Hins); [exact H|congruence].
  - rewrite (inserted_earned_other _ _ _ _ _ _ Hins); [exact H|congruence].
Qed.

Lemma awardAchievement_inserted db userId achievement :
  snd (awardAchievement db userId achievement) = NeverSettled
  /\ statements (fst (awardAchievement db userId achievement))
     = statements db ++ [InsertOrReplaceAchievement userId (id achievement)]
  /\ inserted db (fst (awardAchievement db userId achievement))
       userId (id achievement).
Proof. now repeat split. Qed.

Lemma find_ext {A} (f g : A -> bool) (l : list A) :
  (forall x, f x = g x) -> List.find f l = List.find g l.
Proof.
  intros H. induction l as [|x l IH]; cbn; [reflexivity|].
  now rewrite H, IH.
Qed.

(** One run of the loop.  When no entry is due, every entry is looked up,
    nothing else happens, and the loop ends with what it started with.
    Otherwise the loop runs queries up to the first entry that is due,
    inserts the row of this entry, and is suspended for good. *)
Lemma checkLoop_first_due userId exerciseData userStats entries :
  forall db acc,
    match List.find (due db userId userStats exerciseData) entries with
    | None =>
        snd (checkLoop userId exerciseData userStats entries db acc)
        = Fulfilled acc
        /\ exists new,
            onlyRead db
              (fst (checkLoop userId exerciseData userStats entries db acc)) new
            /\ forall k a, In (k, a) entries -> In (SelectCompleted userId k) new
    | Some (k, a) =>
        snd (checkLoop userId exerciseData userStats entries db acc)
        = NeverSettled
        /\ exists new,
            Forall isQuery new
            /\ statements
                 (fst (checkLoop userId exerciseData userStats entries db acc))
               = statements db ++ new
                 ++ [InsertOrReplaceAchievement userId (id a)]
            /\ inserted db
                 (fst (checkLoop userId exerciseData userStats entries db acc))
                 userId (id a)
    end.
Proof.
  induction entries as [|[achievementId achievement] rest IH]; intros db acc.
  - cbn. split; [reflexivity|]. exists []. split; [apply onlyRead_refl|].
    intros k a [].
  - assert (Hnext : forall db1 new1,
               onlyRead db db1 (SelectCompleted userId achievementId :: new1) ->
               due db userId userStats exerciseData (achievementId, achievement)
               = false ->
               checkLoop userId exerciseData userStats
                 ((achievementId, achievement) :: rest) db acc
               = checkLoop userId exerciseData userStats rest db1 acc ->
               match List.find (due db userId userStats exerciseData)
                       ((achievementId, achievement) :: rest) with
               | None =>
                   snd (checkLoop userId exerciseData userStats
                          ((achievementId, achievement) :: rest) db acc)
                   = Fulfilled acc
                   /\ exists new,
                       onlyRead db
                         (fst (checkLoop userId exerciseData userStats
                                 ((achievementId, achievement) :: rest) db acc)) new
                       /\ forall k a, In (k, a) ((achievementId, achievement) :: rest) ->
                                      In (SelectCompleted userId k) new
               | Some (k, a) =>
                   snd (checkLoop userId exerciseData userStats
                          ((achievementId, achievement) :: rest) db acc)
                   = NeverSettled
                   /\ exists new,
                       Forall isQuery new
                       /\ statements
                            (fst (checkLoop userId exerciseData userStats
                                    ((achievementId, achievement) :: rest) db acc))
                          = statements db ++ new
                            ++ [InsertOrReplaceAchievement userId (id a)]
                       /\ inserted db
                            (fst (checkLoop userId exerciseData userStats
                                    ((achievementId, achievement) :: rest) db acc))
                            userId (id a)
               end).
    { intros db1 new1 R1 Hdue Hrun. rewrite Hrun. cbn [List.find]. rewrite Hdue.
      pose proof R1 as (S1 & Hst1 & Q1).
      rewrite <- (find_ext (due db1 userId userStats exerciseData)
                    (due db userId userStats exerciseData) rest
                    (fun entry => sameTables_due db db1 _ _ _ entry S1)).
      specialize (IH db1 acc).
      destruct (List.find (due db1 userId userStats exerciseData) rest)
        as [[k a]|].
      - destruct IH as (Hend & new & Q & Hst & Hins).
        split; [exact Hend|].
        exists ((SelectCompleted userId achievementId :: new1) ++ new).
        split; [apply List.Forall_app; now split|]. split.
        + rewrite Hst, Hst1. now rewrite <- !app_assoc.
        + exact (sameTables_inserted _ _ _ _ _ S1 Hins).
      - destruct IH as (Hend & new & R & Hsel).
        split; [exact Hend|].
        exists ((SelectCompleted userId achievementId :: new1) ++ new).
        split; [exact (onlyRead_trans _ _ _ _ _ R1 R)|].
        intros k a [Hin|Hin].
        + injection Hin as -> ->. now left.
        + apply List.in_app_iff. right. now apply (Hsel k a). }
    assert (R1 : onlyRead db (logged (SelectCompleted userId achievementId) db)
                   [SelectCompleted userId achievementId])
      by (apply onlyRead_logged; exact I).
    destruct (earned db userId achievementId) eqn:Ehas.
    + apply (Hnext _ [] R1).
      * unfold due. cbn [fst]. now rewrite Ehas.
      * cbn [checkLoop]. unfold userHasAchievement.
        fold (earned db userId achievementId). now rewrite Ehas.
    + set (db1 := logged (SelectCompleted userId achievementId) db) in *.
      destruct (onlyRead_meetsRequirement db1 userId achievement userStats
                  exerciseData) as (new2 & R2).
      pose proof (onlyRead_trans _ _ _ _ _ R1 R2) as R12.
      assert (Hmeets : snd (meetsRequirement db1 userId achievement userStats
                              exerciseData)
                       = snd (meetsRequirement db userId achievement userStats
                                exerciseData)).
      { apply meetsRequirement_events. reflexivity. }
      assert (Hloop : checkLoop userId exerciseData userStats
                        ((achievementId, achievement) :: rest) db acc
                      = let '(db2, meets) :=
                          meetsRequirement db1 userId achievement userStats
                            exerciseData in
                        if meets then
                          match awardAchievement db2 userId achievement with
                          | (db3, Fulfilled _) =>
                              checkLoop userId exerciseData userStats rest db3
                                (acc ++ [achievement])
                          | (db3, NeverSettled) => (db3, NeverSettled)
                          end
                        else checkLoop userId exerciseData userStats rest db2 acc).
      { cbn [checkLoop]. unfold userHasAchievement.
        fold (earned db userId achievementId). now rewrite Ehas. }
      destruct (meetsRequirement db1 userId achievement userStats exerciseData)
        as [db2 meets] eqn:Emeets.
      cbn [fst snd] in R2, R12, Hmeets.
      destruct meets.
      * rewrite Hloop. cbn [List.find]. unfold due at 1. cbn [fst snd].
        rewrite Ehas, <- Hmeets. cbn [negb andb].
        destruct (awardAchievement_inserted db2 userId achievement)
          as (Hend & Hst & Hins).
        destruct (awardAchievement db2 userId achievement) as [db3 out].
        cbn [fst snd] in Hend, Hst, Hins. subst out.
        split; [reflexivity|].
        destruct R12 as (S12 & Hst12 & Q12).
        exists ([SelectCompleted userId achievementId] ++ new2).
        split; [exact Q12|]. split.
        -- cbn [fst]. rewrite Hst, Hst12. now rewrite <- !app_assoc.
        -- exact (sameTables_inserted _ _ _ _ _ S12 Hins).
      * apply (Hnext db2 new2 R12).
        -- unfold due. cbn [fst snd]. rewrite <- Hmeets. apply andb_false_r.
        -- exact Hloop.
Qed.

Lemma defineAchievements_keyedById : keyedById defineAchievements.
Proof. repeat constructor. Qed.

Lemma getUserStats_ofUser zone failed db db' userId now :
  ofUser userId (exercise_analytics db') = ofUser userId (exercise_analytics db) ->
  snd (getUserStats zone failed db' userId now)
  = snd (getUserStats zone failed db userId now).
Proof.
  intros H. rewrite !getUserStats_snd.
  unfold basicQuery, categoriesQuery, languagesQuery, recentQuery, consecutiveQuery.
  now rewrite H.
Qed.

Lemma checkAchievements_loop zone failed now db userId exerciseData :
  checkAchievements zone failed now db userId exerciseData
  = checkLoop userId exerciseData (snd (getUserStats zone failed db userId now))
      defineAchievements (fst (getUserStats zone failed db userId now)) [].
Proof. reflexivity. Qed.

(** One call: as [checkLoop_first_due], from the state [db] of the call. *)
Lemma checkAchievements_first_due zone failed now db userId exerciseData :
  match List.find
          (due db userId (snd (getUserStats zone failed db userId now)) exerciseData)
          defineAchievements with
  | None =>
      snd (checkAchievements zone failed now db userId exerciseData) = Fulfilled []
      /\ exists new,
          onlyRead db
            (fst (checkAchievements zone failed now db userId exerciseData)) new
          /\ forall k a, In (k, a) defineAchievements ->
                         In (SelectCompleted userId k) new
  | Some (k, a) =>
      snd (checkAchievements zone failed now db userId exerciseData) = NeverSettled
      /\ exists new,
          Forall isQuery new
          /\ statements
               (fst (checkAchievements zone failed now db userId exerciseData))
             = statements db ++ new ++ [InsertOrReplaceAchievement userId k]
          /\ inserted db
               (fst (checkAchievements zone failed now db userId exerciseData))
               userId k
  end.
Proof.
  rewrite checkAchievements_loop.
  set (userStats := snd (getUserStats zone failed db userId now)).
  destruct (onlyRead_getUserStats zone failed db userId now) as (new0 & R0).
  set (db1 := fst (getUserStats zone failed db userId now)) in *.
  pose proof R0 as (S0 & Hst0 & Q0).
  pose proof (checkLoop_first_due userId exerciseData userStats
                defineAchievements db1 []) as Hloop.
  rewrite (find_ext (due db1 userId userStats exerciseData)
             (due db userId userStats exerciseData) defineAchievements
             (fun entry => sameTables_due db db1 _ _ _ entry S0)) in Hloop.
  destruct (List.find (due db userId userStats exerciseData) defineAchievements)
    as [[k a]|] eqn:Efind.
  - destruct Hloop as (Hend & new & Q & Hst & Hins).
    assert (Hk : k = id a).
    { apply List.find_some in Efind as [Hin _].
      pose proof defineAchievements_keyedById as Hkeys.
      unfold keyedById in Hkeys. rewrite List.Forall_forall in Hkeys.
      exact (Hkeys _ Hin). }
    rewrite Hk. split; [exact Hend|].
    exists (new0 ++ new). split; [apply List.Forall_app; now split|]. split.
    + rewrite Hst, Hst0. now rewrite <- !app_assoc.
    + exact (sameTables_inserted _ _ _ _ _ S0 Hins).
  - destruct Hloop as (Hend & new & R & Hsel).
    split; [exact Hend|].
    exists (new0 ++ new). split; [exact (onlyRead_trans _ _ _ _ _ R0 R)|].
    intros k a Hin. apply List.in_app_iff. right. now apply (Hsel k a).
Qed.




















(** X20.  Other users do not matter: on two states of the database that
    agree on the events of the user and on what the user has earned, the
    snapshot of the user is the same, a call for the user has the same
    outcome, and the user has earned the same achievements after it. *)
Theorem other_users_do_not_matter (zone : TimeZone) (failed : string -> bool)
    (now : Z) (db db' : Database) (userId : string) (exerciseData : ExerciseData)
    (Hevents : ofUser userId (exercise_analytics db')
               = ofUser userId (exercise_analytics db))
    (Hearned : forall k, earned db' userId k = earned db userId k) :
  let run := checkAchievements zone failed now db userId exerciseData in
  let run' := checkAchievements zone failed now db' userId exerciseData in
  snd (getUserStats zone failed db' userId now)
  = snd (getUserStats zone failed db userId now)
  /\ snd run' = snd run
  /\ (forall k, earned (fst run') userId k = earned (fst run) userId k).
Proof.
  cbv zeta.
  pose proof (getUserStats_ofUser zone failed db db' userId now Hevents) as Hstats.
  split; [exact Hstats|].
  pose proof (checkAchievements_first_due zone failed now db userId exerciseData)
    as Hrun.
  pose proof (checkAchievements_first_due zone failed now db' userId exerciseData)
    as Hrun'.
  rewrite Hstats in Hrun'.
  rewrite (find_ext
             (due db' userId (snd (getUserStats zone failed db userId now))
                exerciseData)
             (due db userId (snd (getUserStats zone failed db userId now))
                exerciseData)) in Hrun'.
  2:{ intros entry. unfold due. rewrite Hearned.
      now rewrite (meetsRequirement_ofUser db db' _ _ _ _ Hevents). }
  destruct (List.find _ defineAchievements) as [[k a]|].
  - destruct Hrun as (Hend & _ & _ & _ & Hins).
    destruct Hrun' as (Hend' & _ & _ & _ & Hins').
    split; [congruence|]. intros k'.
    destruct (String.eqb_spec k' k) as [->|Hne].
    + now rewrite (inserted_earned _ _ _ _ Hins), (inserted_earned _ _ _ _ Hins').
    + rewrite (inserted_earned_other _ _ _ _ userId k' Hins) by congruence.
      rewrite (inserted_earned_other _ _ _ _ userId k' Hins') by congruence.
      apply Hearned.
  - destruct Hrun as (Hend & _ & (S & _) & _).
    destruct Hrun' as (Hend' & _ & (S' & _) & _).
    split; [congruence|]. intros k'.
    rewrite (sameTables_earned _ _ _ _ S), (sameTables_earned _ _ _ _ S').
    apply Hearned.
Qed.

Lemma other_users_do_not_matter_witness :
  let db' :=
    Samples.databaseOf
      (Samples.event "bob" 1 300000
       :: exercise_analytics Samples.fiveDays) in
  let run :=
    checkAchievements (fixedZone 0) Samples.noFailure 432000 Samples.fiveDays
      "ann" Samples.quickAndRight in
  let run' :=
    checkAchievements (fixedZone 0) Samples.noFailure 432000 db'
      "ann" Samples.quickAndRight in
  ofUser "ann" (exercise_analytics db')
  = ofUser "ann" (exercise_analytics Samples.fiveDays)
  /\ (forall k, earned db' "ann" k = earned Samples.fiveDays "ann" k)
  /\ snd (getUserStats (fixedZone 0) Samples.noFailure db' "ann" 432000)
     = snd (getUserStats (fixedZone 0) Samples.noFailure Samples.fiveDays "ann"
              432000)
  /\ snd run' = snd run
  /\ (forall k, earned (fst run') "ann" k = earned (fst run) "ann" k).
Proof.
  cbv zeta. split; [reflexivity|]. split; [reflexivity|].
  apply (other_users_do_not_matter (fixedZone 0) Samples.noFailure 432000
           Samples.fiveDays).
  - reflexivity.
  - reflexivity.
Defined.

End AwardFacts.

(** * The leaderboard *)

Section BoardFacts.
Import Js EventStore AchievementSystem Ranking.

Lemma sublist_In {A} (l1 l2 : list A) (x : A) :
  sublist l1 l2 -> In x l1 -> In x l2.
Proof.
  induction 1 as [|y l1 l2 Hsub IH|y l1 l2 Hsub IH]; cbn; [tauto| |].
  - intros [->|H]; [now left|right; now apply IH].
  - intros H. right. now apply IH.
Qed.

Lemma sublist_map {A B} (f : A -> B) (l1 l2 : list A) :
  sublist l1 l2 -> sublist (map f l1) (map f l2).
Proof. induction 1; cbn; now constructor. Qed.

Lemma sublist_ListNoDup {A} (l1 l2 : list A) :
  sublist l1 l2 -> List.NoDup l2 -> List.NoDup l1.
Proof.
  induction 1 as [|y l1 l2 Hsub IH|y l1 l2 Hsub IH]; intros Hnd.
  - constructor.
  - apply List.NoDup_cons_iff in Hnd as [Hnotin Hnd]. constructor; [|now apply IH].
    intros Hin. apply Hnotin. now apply (sublist_In l1 l2).
  - apply List.NoDup_cons_iff in Hnd as [_ Hnd]. now apply IH.
Qed.

Lemma distinct_eqb_In {K} (eqb : K -> K -> bool)
    (Heqb : forall x y, eqb x y = true <-> x = y) (keys : list K) (x : K) :
  In x (distinct eqb keys) <-> In x keys.
Proof.
  induction keys as [|k keys IH]; cbn [distinct]; [reflexivity|].
  cbn [In]. rewrite List.filter_In, IH.
  destruct (eqb k x) eqn:E.
  - apply Heqb in E. tauto.
  - assert (k <> x) by (intros Hk; apply Heqb in Hk; congruence).
    cbn. tauto.
Qed.

Lemma distinct_eqb_NoDup {K} (eqb : K -> K -> bool)
    (Heqb : forall x y, eqb x y = true <-> x = y) (keys : list K) :
  List.NoDup (distinct eqb keys).
Proof.
  induction keys as [|k keys IH]; cbn [distinct]; [constructor|].
  constructor.
  - rewrite List.filter_In. intros [_ H].
    now rewrite (proj2 (Heqb k k) eq_refl) in H.
  - now apply List.NoDup_filter.
Qed.

Lemma usersOf_In (rows : list Event) (user : string) :
  In user (usersOf rows) <-> exists e, In e rows /\ user_id e = user.
Proof.
  unfold usersOf. rewrite (distinct_eqb_In String.eqb String.eqb_eq).
  rewrite in_map_iff. split; intros (e & H1 & H2); exists e; tauto.
Qed.

Lemma usersOf_NoDup (rows : list Event) : List.NoDup (usersOf rows).
Proof. apply (distinct_eqb_NoDup String.eqb String.eqb_eq). Qed.

Lemma ofUser_nonempty (rows : list Event) (user : string) :
  (exists e, In e rows /\ user_id e = user) <->
  1 <= Z.of_nat (length (ofUser user rows)).
Proof.
  split.
  - intros (e & He & Hu).
    assert (Hin : In e (ofUser user rows)).
    { unfold ofUser. rewrite List.filter_In. split; [exact He|].
      now apply String.eqb_eq. }
    destruct (ofUser user rows); [destruct Hin|cbn [length]; lia].
  - intros Hlen.
    destruct (ofUser user rows) as [|e rest] eqn:E; [cbn in Hlen; lia|].
    assert (Hin : In e (ofUser user rows)) by (rewrite E; now left).
    unfold ofUser in Hin. rewrite List.filter_In in Hin.
    destruct Hin as [He Hu]. apply String.eqb_eq in Hu. now exists e.
Qed.

Lemma sublist_limited {A} (limit : Z) (l : list A) : sublist (limited limit l) l.
Proof.
  unfold limited. destruct (limit <? 0); [reflexivity|apply sublist_take].
Qed.

Lemma limited_length {A} (limit : Z) (l : list A) :
  0 <= limit -> Z.of_nat (length (limited limit l)) <= limit.
Proof.
  intros Hl. unfold limited.
  destruct (Z.ltb_spec limit 0) as [?|_]; [lia|].
  rewrite length_firstn. lia.
Qed.

Lemma limited_all {A} (limit : Z) (l : list A) :
  limit < 0 -> limited limit l = l.
Proof.
  intros Hl. unfold limited.
  destruct (Z.ltb_spec limit 0) as [_|?]; [reflexivity|lia].
Qed.

Lemma limited_sorted {A} (R : A -> A -> Prop) (limit : Z) (l : list A) :
  StronglySorted R l -> StronglySorted R (limited limit l).
Proof.
  intros Hs. unfold limited. destruct (limit <? 0); [exact Hs|].
  rewrite <- (firstn_skipn (Z.to_nat limit) l) in Hs.
  now apply StronglySorted_app in Hs.
Qed.

Lemma sublist_List_filter {A} (p : A -> bool) (l : list A) :
  sublist (List.filter p l) l.
Proof.
  induction l as [|x l IH]; cbn; [constructor|].
  destruct (p x); now constructor.
Qed.

Lemma faster_sorts (a b : SpeedEntry) :
  (compareNullable (speedAvgTime a) (speedAvgTime b) <= 0)%Q -> faster a b.
Proof.
  unfold faster, compareNullable.
  destruct (speedAvgTime a), (speedAvgTime b); intros H; try exact I; lra.
Qed.

Lemma faster_total (a b : SpeedEntry) :
  ~ (compareNullable (speedAvgTime a) (speedAvgTime b) <= 0)%Q -> faster b a.
Proof.
  unfold faster, compareNullable.
  destruct (speedAvgTime a), (speedAvgTime b); intros H; try exact I.
  - apply Qnot_le_lt in H. lra.
  - apply H. lra.
Qed.

Lemma faster_trans (a b c : SpeedEntry) : faster a b -> faster b c -> faster a c.
Proof.
  unfold faster.
  destruct (speedAvgTime a), (speedAvgTime b), (speedAvgTime c);
    intros H1 H2; try exact I; try contradiction.
  lra.
Qed.

(** X21 ([getLeaderboard], speed): the speed board names each user at most
    once, only users with five or more events in the last 30 days, each with
    that number of events; it is ordered by average time, a user without any
    recorded time first; it has at most [limit] rows (10 when no limit is
    given), and with a negative limit every user with five or more events in
    the window is on it. *)
Theorem speed_board_ranks_regular_users (events : list Event) (now : Z)
    (limit : option Z) :
  exists rows,
    getLeaderboard events now (Some "speed") limit = SpeedBoard rows
    /\ List.NoDup (map speedUser rows)
    /\ (forall entry, In entry rows ->
          speedTotal entry = windowCount events now (speedUser entry)
          /\ 5 <= speedTotal entry)
    /\ StronglySorted faster rows
    /\ (0 <= default 10 limit -> Z.of_nat (length rows) <= default 10 limit)
    /\ (default 10 limit < 0 ->
        forall user, 5 <= windowCount events now user ->
                     In user (map speedUser rows)).
Proof.
  eexists. split; [reflexivity|].
  unfold speedQuery. cbv zeta.
  set (rows := since now 30 events).
  set (mk := fun user : string => _).
  set (cmp := fun a b : SpeedEntry => compareNullable _ _).
  set (having := fun entry : SpeedEntry => speedTotal entry >=? 5).
  assert (Hmk : forall entry, In entry (List.filter having (map mk (usersOf rows))) <->
                  exists user, In user (usersOf rows) /\ entry = mk user
                               /\ 5 <= windowCount events now user).
  { intros entry. rewrite List.filter_In, in_map_iff. unfold having.
    split.
    - intros ((user & <- & Hu) & H5). exists user. repeat split; [exact Hu|].
      cbn in H5. unfold windowCount. fold rows. lia.
    - intros (user & Hu & -> & H5). split; [now exists user|].
      cbn. unfold windowCount in H5. fold rows in H5. lia. }
  assert (Hsorted : forall entry, In entry (sort cmp (List.filter having (map mk (usersOf rows)))) <->
                      In entry (List.filter having (map mk (usersOf rows)))).
  { intros entry. split; apply Permutation_in;
      [symmetry|]; apply sort_Permutation. }
  split; [|split; [|split; [|split]]].
  - apply (sublist_ListNoDup _ (map speedUser (sort cmp (List.filter having (map mk (usersOf rows)))))).
    { apply sublist_map, sublist_limited. }
    apply (Permutation_NoDup (l := map speedUser (List.filter having (map mk (usersOf rows))))).
    { apply Permutation_map, sort_Permutation. }
    apply (sublist_ListNoDup _ (map speedUser (map mk (usersOf rows)))).
    { apply sublist_map, sublist_List_filter. }
    rewrite map_map. cbn. rewrite map_id. apply usersOf_NoDup.
  - intros entry Hin.
    apply (sublist_In _ _ _ (sublist_limited _ _)) in Hin.
    apply Hsorted, Hmk in Hin. destruct Hin as (user & _ & -> & H5).
    cbn. unfold windowCount in *. fold rows in H5 |- *. lia.
  - apply limited_sorted, sort_sorted.
    + intros a b. apply faster_sorts.
    + intros a b. apply faster_total.
    + apply faster_trans.
  - apply limited_length.
  - intros Hl user H5. rewrite limited_all by exact Hl.
    apply in_map_iff. exists (mk user). split; [reflexivity|].
    apply Hsorted, Hmk. exists user. repeat split; [|exact H5].
    apply usersOf_In, ofUser_nonempty. unfold windowCount in H5.
    fold rows in H5. lia.
Qed.

(** X22 ([getLeaderboard], overall): called without a category, the board
    names each user at most once, only users with an event in the last 30
    days, each with the number of those events, their mean accuracy and the
    product of the two as score; it is ordered by falling score; it has at
    most [limit] rows (10 when no limit is given), and with a negative limit
    every user with an event in the window is on it. *)
Theorem overall_board_ranks_by_score (events : list Event) (now : Z)
    (limit : option Z) :
  exists rows,
    getLeaderboard events now None limit = OverallBoard rows
    /\ List.NoDup (map overallUser rows)
    /\ (forall entry, In entry rows ->
          let mine := ofUser (overallUser entry) (since now 30 events) in
          overallTotal entry = windowCount events now (overallUser entry)
          /\ 1 <= overallTotal entry
          /\ (overallAccuracy entry * inject_Z (overallTotal entry)
              == sum (map EventStore.accuracy_score mine))%Q
          /\ (overallScore entry
              == inject_Z (overallTotal entry) * overallAccuracy entry)%Q)
    /\ StronglySorted (fun a b => (overallScore b <= overallScore a)%Q) rows
    /\ (0 <= default 10 limit -> Z.of_nat (length rows) <= default 10 limit)
    /\ (default 10 limit < 0 ->
        forall user, 1 <= windowCount events now user ->
                     In user (map overallUser rows)).
Proof.
  eexists. split; [reflexivity|].
  unfold overallQuery. cbv zeta.
  set (rows := since now 30 events).
  set (mk := fun user : string => _).
  set (cmp := fun a b : OverallEntry => _).
  assert (Hsorted : forall entry, In entry (sort cmp (map mk (usersOf rows))) <->
                      exists user, In user (usersOf rows) /\ entry = mk user).
  { intros entry. split.
    - intros Hin. apply (Permutation_in _ (Permutation_sym (sort_Permutation cmp _))) in Hin.
      apply in_map_iff in Hin. destruct Hin as (user & <- & Hu). now exists user.
    - intros (user & Hu & ->).
      apply (Permutation_in _ (sort_Permutation cmp _)).
      apply in_map_iff. now exists user. }
  split; [|split; [|split; [|split]]].
  - apply (sublist_ListNoDup _ (map overallUser (sort cmp (map mk (usersOf rows))))).
    { apply sublist_map, sublist_limited. }
    apply (Permutation_NoDup (l := map overallUser (map mk (usersOf rows)))).
    { apply Permutation_map, sort_Permutation. }
    rewrite map_map. cbn. rewrite map_id. apply usersOf_NoDup.
  - intros entry Hin.
    apply (sublist_In _ _ _ (sublist_limited _ _)) in Hin.
    apply Hsorted in Hin. destruct Hin as (user & Hu & ->).
    apply usersOf_In, ofUser_nonempty in Hu.
    cbn. unfold windowCount. fold rows.
    split; [reflexivity|]. split; [exact Hu|]. split; [|reflexivity].
    field. intros H0.
    unfold Qeq in H0. cbn [Qnum Qden inject_Z] in H0. lia.
  - apply limited_sorted, sort_sorted.
    + intros a b H. unfold cmp in H. lra.
    + intros a b H. unfold cmp in H. apply Qnot_le_lt in H. lra.
    + intros a b c H1 H2. lra.
  - apply limited_length.
  - intros Hl user H1. rewrite limited_all by exact Hl.
    apply in_map_iff. exists (mk user). split; [reflexivity|].
    apply Hsorted. exists user. split; [|reflexivity].
    apply usersOf_In, ofUser_nonempty. exact H1.
Qed.

End BoardFacts.

(** ** Two calls in flight *)

Section ConcurrencyFacts.
Import Js EventStore AchievementSystem Awards.

Lemma rowKey_sameKey userId achievementId row :
  sameKey userId achievementId row = true <-> rowKey row = (userId, achievementId).
Proof.
  unfold sameKey, rowKey. rewrite andb_true_iff, !String.eqb_eq. split.
  - now intros [-> ->].
  - intros H. now injection H.
Qed.

(** [INSERT OR REPLACE] keeps the key unique: the row in conflict goes
    before the new row comes. *)
Lemma uniqueKeys_inserted db db' userId achievementId :
  inserted db db' userId achievementId -> uniqueKeys db -> uniqueKeys db'.
Proof.
  intros (Hrows & _). unfold uniqueKeys. rewrite Hrows. clear Hrows.
  generalize (user_achievements_seq db + 1). intros fresh.
  induction (user_achievements db) as [|row rows IH]; intros Hnodup.
  - cbn. constructor; [intros []|constructor].
  - cbn [map] in Hnodup. apply List.NoDup_cons_iff in Hnodup as [Hnotin Hnodup].
    cbn [List.filter].
    destruct (sameKey userId achievementId row) eqn:E; cbn [negb].
    + now apply IH.
    + cbn [app map]. apply List.NoDup_cons_iff. split; [|now apply IH].
      rewrite map_app, List.in_app_iff. intros [Hin|Hin].
      * apply Hnotin. apply List.in_map_iff in Hin as (row' & Hkey & Hin).
        apply List.in_map_iff. exists row'. split; [exact Hkey|].
        now apply List.filter_In in Hin.
      * cbn in Hin. destruct Hin as [Hin|[]].
        assert (sameKey userId achievementId row = true)
          by now apply rowKey_sameKey.
        congruence.
Qed.

(** A step runs queries only, or it is the insert of the achievement that
    the call was about to award, after which the call is suspended.  No
    step adds to what the call has collected. *)
Lemma step_effect db t :
  newAchievements (snd (step db t)) = newAchievements t
  /\ ((exists new, onlyRead db (fst (step db t)) new)
      \/ exists userStats achievement rest,
           phase t = AwaitAward userStats achievement rest
           /\ inserted db (fst (step db t)) (taskUser t) (id achievement)
           /\ phase (snd (step db t)) = Suspended).
Proof.
  unfold step.
  destruct (phase t) as [|userStats k a rest|userStats a rest|userStats a rest| |]
    eqn:E.
  - destruct (onlyRead_getUserStats (taskZone t) (taskFailed t) db (taskUser t)
                (taskNow t)) as (new & R).
    destruct (getUserStats _ _ _ _ _) as [db1 stats]. cbn [fst snd] in *.
    split; [reflexivity|]. left. now exists new.
  - cbn [fst snd userHasAchievement]. split; [reflexivity|]. left.
    eexists. apply onlyRead_logged. exact I.
  - destruct (onlyRead_meetsRequirement db (taskUser t) a userStats (taskData t))
      as (new & R).
    destruct (meetsRequirement _ _ _ _ _) as [db1 meets]. cbn [fst snd] in *.
    split; [reflexivity|]. left. now exists new.
  - destruct (awardAchievement_inserted db (taskUser t) a) as (Hend & _ & Hins).
    destruct (awardAchievement _ _ _) as [db1 out]. cbn [fst snd] in *.
    subst out. cbn [fst snd continue newAchievements phase].
    split; [reflexivity|]. right. exists userStats, a, rest.
    split; [reflexivity|split; [exact Hins|reflexivity]].
  - split; [reflexivity|]. left. exists []. apply onlyRead_refl.
  - split; [reflexivity|]. left. exists []. apply onlyRead_refl.
Qed.

(** What holds of the database whatever steps are taken, [start] being the
    state before the first step. *)
Lemma step_invariant (start db : Database) (t : Task) :
  uniqueKeys db
  /\ user_badges db = user_badges start
  /\ exercise_analytics db = exercise_analytics start
  /\ (forall u k, earned start u k = true -> earned db u k = true) ->
  uniqueKeys (fst (step db t))
  /\ user_badges (fst (step db t)) = user_badges start
  /\ exercise_analytics (fst (step db t)) = exercise_analytics start
  /\ (forall u k, earned start u k = true -> earned (fst (step db t)) u k = true).
Proof.
  intros (Hu & Hb & Hev & Hkeep).
  destruct (step_effect db t)
    as [_ [(new & (Sev & Sua & _ & Sb & _) & _)|(s & a & rest & _ & Hins & _)]].
  - unfold uniqueKeys. rewrite Sua. split; [exact Hu|].
    split; [congruence|]. split; [congruence|].
    intros u k Hk. unfold earned. rewrite Sua. now apply Hkeep.
  - pose proof Hins as (_ & _ & Iev & Ib & _).
    split; [exact (uniqueKeys_inserted _ _ _ _ Hins Hu)|].
    split; [congruence|]. split; [congruence|].
    intros u k Hk. apply (inserted_keeps _ _ _ _ _ _ Hins). now apply Hkeep.
Qed.

Lemma interleave_invariant (start : Database) schedule :
  forall db t1 t2,
    uniqueKeys db
    /\ user_badges db = user_badges start
    /\ exercise_analytics db = exercise_analytics start
    /\ (forall u k, earned start u k = true -> earned db u k = true) ->
    newAchievements t1 = [] -> newAchievements t2 = [] ->
    let result := interleave schedule db t1 t2 in
    (uniqueKeys (fst (fst result))
     /\ user_badges (fst (fst result)) = user_badges start
     /\ exercise_analytics (fst (fst result)) = exercise_analytics start
     /\ (forall u k, earned start u k = true ->
                     earned (fst (fst result)) u k = true))
    /\ newAchievements (snd (fst result)) = []
    /\ newAchievements (snd result) = [].
Proof.
  induction schedule as [|[|] schedule IH]; intros db t1 t2 Hinv H1 H2; cbv zeta.
  - cbn. tauto.
  - cbn [interleave].
    pose proof (step_invariant start db t2 Hinv) as Hinv'.
    destruct (step_effect db t2) as [Hnew _].
    destruct (step db t2) as [db' t2']. cbn [fst snd] in *.
    apply (IH db' t1 t2' Hinv' H1). congruence.
  - cbn [interleave].
    pose proof (step_invariant start db t1 Hinv) as Hinv'.
    destruct (step_effect db t1) as [Hnew _].
    destruct (step db t1) as [db' t1']. cbn [fst snd] in *.
    apply (IH db' t1' t2 Hinv'); congruence.
Qed.

(** C2.  Two calls for "ann" that take turns both read that "first_steps"
    is not earned before either of them writes; both then run the insert,
    the second replacing the row of the first under a new id; and both are
    suspended at the award, with no badge written. *)
Theorem concurrent_calls_award_twice :
  let call :=
    spawn (fixedZone 0) Samples.noFailure 432000 "ann" Samples.quickAndRight in
  let result := interleave Samples.takingTurns Samples.fiveDays call call in
  let db' := fst (fst result) in
  skipn 10 (statements db')
  = [ SelectCompleted "ann" "first_steps";
      SelectCompleted "ann" "first_steps";
      InsertOrReplaceAchievement "ann" "first_steps";
      InsertOrReplaceAchievement "ann" "first_steps" ]
  /\ map (fun row => (ua_id row, achievement_id row)) (user_achievements db')
     = [(2, "first_steps")]
  /\ user_badges db' = []
  /\ phase (snd (fst result)) = Suspended
  /\ phase (snd result) = Suspended
  /\ newAchievements (snd (fst result)) = []
  /\ newAchievements (snd result) = [].
Proof.
  cbv zeta. split; [|split; [|split; [|split; [|split; [|split]]]]];
    vm_compute; reflexivity.
Qed.

(** X23.  Whatever the interleaving of two calls, for the same user or for
    two users, the table [user_achievements] keeps at most one row for each
    user and achievement, the insert being an [INSERT OR REPLACE] on the
    unique key; what was earned stays earned; no row is added to
    [user_badges] and none to [exercise_analytics]; and neither call has
    collected an achievement to return. *)
Theorem interleaved_calls_keep_one_row (schedule : list bool) (db : Database)
    (zone1 zone2 : TimeZone) (failed1 failed2 : string -> bool) (now1 now2 : Z)
    (user1 user2 : string) (data1 data2 : ExerciseData) (H : uniqueKeys db) :
  let result :=
    interleave schedule db (spawn zone1 failed1 now1 user1 data1)
      (spawn zone2 failed2 now2 user2 data2) in
  let db' := fst (fst result) in
  uniqueKeys db'
  /\ (forall u k, earned db u k = true -> earned db' u k = true)
  /\ user_badges db' = user_badges db
  /\ exercise_analytics db' = exercise_analytics db
  /\ newAchievements (snd (fst result)) = []
  /\ newAchievements (snd result) = [].
Proof.
  cbv zeta.
  destruct (interleave_invariant db schedule db
              (spawn zone1 failed1 now1 user1 data1)
              (spawn zone2 failed2 now2 user2 data2))
    as ((Hu & Hb & Hev & Hkeep) & H1 & H2); try reflexivity.
  { split; [exact H|]. split; [reflexivity|]. split; [reflexivity|]. tauto. }
  split; [exact Hu|]. split; [exact Hkeep|]. split; [exact Hb|].
  split; [exact Hev|]. now split.
Qed.

Lemma interleaved_calls_keep_one_row_witness :
  let result :=
    interleave Samples.takingTurns Samples.fiveDays
      (spawn (fixedZone 0) Samples.noFailure 432000 "ann" Samples.quickAndRight)
      (spawn (fixedZone 0) Samples.noFailure 432000 "ann" Samples.quickAndRight) in
  let db' := fst (fst result) in
  uniqueKeys Samples.fiveDays
  /\ uniqueKeys db'
  /\ (forall u k, earned Samples.fiveDays u k = true -> earned db' u k = true)
  /\ user_badges db' = user_badges Samples.fiveDays
  /\ exercise_analytics db' = exercise_analytics Samples.fiveDays
  /\ newAchievements (snd (fst result)) = []
  /\ newAchievements (snd result) = [].
Proof.
  cbv zeta.
  assert (Hu : uniqueKeys Samples.fiveDays) by constructor.
  split; [exact Hu|].
  exact (interleaved_calls_keep_one_row Samples.takingTurns Samples.fiveDays
           (fixedZone 0) (fixedZone 0) Samples.noFailure Samples.noFailure
           432000 432000 "ann" "ann" Samples.quickAndRight Samples.quickAndRight
           Hu).
Defined.

End ConcurrencyFacts.
